(** * The complexity-profiling harness of the Advent-of-Code workspace

    A shallow embedding of [src/test/python/logs.py] (the retrying runner
    [TestResults]) and [src/test/python/runtime.py] (the big-O profiling
    routine [test_algorithm] and its driver [main]), followed by the
    properties of the specification that concern them.

    Conventions.
    - Python values that cross the modelled code are [Py.PyVal]; a [dict] is
      the list of its items in iteration (insertion) order.
    - A Python [float] that is only stored, compared or passed on (never
      computed with) is represented by the rational it denotes.
    - A call that may raise yields an [Py.Outcome]; the environment a
      callable acts on is threaded explicitly.
    - Third-party code ([asyncio.wait_for], [big_o.big_o]) is a [Variable]
      of the section that uses it. *)

From Stdlib Require Import List String Ascii ZArith QArith Bool Lia.
Import ListNotations.

Local Open Scope string_scope.
Local Open Scope list_scope.
Local Open Scope Z_scope.

(* ================================================================== *)
(** ** Python values, exceptions and a few built-ins *)

Module Py.

#[warnings="-register-all"] Inductive PyVal : Type :=
| VNone
| VInt (z : Z)
| VFloat (q : Q)
| VStr (s : string)
| VDict (items : list (PyVal * PyVal)).

(** [type(v).__name__], as it appears in the interpreter's messages. *)
Definition type_name (v : PyVal) : string :=
  match v with
  | VNone => "NoneType"
  | VInt _ => "int"
  | VFloat _ => "float"
  | VStr _ => "str"
  | VDict _ => "dict"
  end.

(** An exception object: its class and the tuple [e.args]. *)
Record PyExc : Type := mkExc { exc_class : string; exc_args : list PyVal }.

(** Which [except] clause of the modelled code an exception matches:
    an instance of [asyncio.TimeoutError], another instance of [Exception],
    or a [BaseException] outside [Exception] ([KeyboardInterrupt],
    [SystemExit], [asyncio.CancelledError]). *)
Inductive ExcKind : Type := AsyncioTimeout | OtherException | NonException.

Inductive Outcome (A : Type) : Type :=
| Returned (a : A)
| Raised (k : ExcKind) (e : PyExc).
Arguments Returned {A} a.
Arguments Raised {A} k e.

(** [except Exception] catches both timeout and other exceptions. *)
Definition is_exception (k : ExcKind) : bool :=
  match k with NonException => false | _ => true end.

(** The interpreter's [AttributeError] for a missing attribute. *)
Definition AttributeError (ty attr : string) : PyExc :=
  mkExc "AttributeError"
        [VStr ("'" ++ ty ++ "' object has no attribute '" ++ attr ++ "'")%string].

(** [range(lo, hi)]: empty when [hi <= lo]. *)
Definition range (lo hi : Z) : list Z :=
  map (fun i => lo + Z.of_nat i) (seq 0 (Z.to_nat (hi - lo))).

(** [str.capitalize()] on ASCII text: first character upper-cased, the
    others lower-cased. *)
Definition upper (c : ascii) : ascii :=
  let n := nat_of_ascii c in
  if (andb (97 <=? n) (n <=? 122))%nat then ascii_of_nat (n - 32) else c.

Definition lower (c : ascii) : ascii :=
  let n := nat_of_ascii c in
  if (andb (65 <=? n) (n <=? 90))%nat then ascii_of_nat (n + 32) else c.

Fixpoint lower_all (s : string) : string :=
  match s with
  | EmptyString => EmptyString
  | String c s' => String (lower c) (lower_all s')
  end.

Definition capitalize (s : string) : string :=
  match s with
  | EmptyString => EmptyString
  | String c s' => String (upper c) (lower_all s')
  end.

(** [d[k] = v] on a dict with string keys: an existing key keeps its
    position and takes the new value, a new key goes last. *)
Fixpoint dict_set {V : Type} (k : string) (v : V) (d : list (string * V))
  : list (string * V) :=
  match d with
  | [] => [(k, v)]
  | (k', v') :: d' =>
      if String.eqb k k' then (k', v) :: d' else (k', v') :: dict_set k v d'
  end.

End Py.
Import Py.

(* ================================================================== *)
(** ** [logs.py]: the retrying runner *)

Module Logs.

Inductive Level : Type := INFO | ERROR.

(** An argument handed to a logging call: a value, or an exception object
    (rendered through [str] by the [%s] of the format). *)
Inductive LogArg : Type :=
| LVal (v : PyVal)
| LExc (e : PyExc).

(** One call [logger.<level>(fmt, *args)]. *)
Record LogRecord : Type :=
  mkLog { level : Level; fmt : string; largs : list LogArg }.

Definition TestError (args : list PyVal) : PyExc := mkExc "TestError" args.
Definition TestTimeoutError (args : list PyVal) : PyExc :=
  mkExc "TestTimeoutError" args.

(** The literal [timeout=10.0] of [run]. *)
Definition timeout : Q := 10 # 1.

(** The default [n_repeats=3] of [TestResults.__init__]. *)
Definition default_n_repeats : option Z := Some 3.

(** Inner loop of [_log_test_results]:
    [for key, value in result.items(): logger.info("  %s: %s", key.capitalize(), value)].
    A key without [capitalize] stops the loop with [AttributeError]; the
    lines logged before it stay logged. *)
Fixpoint log_fields (items : list (PyVal * PyVal)) (lg : list LogRecord)
  : option PyExc * list LogRecord :=
  match items with
  | [] => (None, lg)
  | (VStr key, value) :: rest =>
      log_fields rest
        (lg ++ [mkLog INFO "  %s: %s" [LVal (VStr (capitalize key)); LVal value]])
  | (key, _) :: _ => (Some (AttributeError (type_name key) "capitalize"), lg)
  end.

(** Outer loop of [_log_test_results]:
    [for test_name, result in test_results.items()]. *)
Fixpoint log_subtests (items : list (PyVal * PyVal)) (lg : list LogRecord)
  : option PyExc * list LogRecord :=
  match items with
  | [] => (None, lg)
  | (subtest, result) :: rest =>
      let lg1 := lg ++ [mkLog INFO "Subtest: %s" [LVal subtest]] in
      match result with
      | VDict fields =>
          match log_fields fields lg1 with
          | (None, lg2) => log_subtests rest lg2
          | (Some e, lg2) => (Some e, lg2)
          end
      | _ => (Some (AttributeError (type_name result) "items"), lg1)
      end
  end.

Section Runner.

(** The environment the wrapped work acts on (clock, random generator,
    anything the work reads or changes). *)
Variable W : Type.

(** A callable object: its [__name__] attribute when it has one, the name
    of its type, and what calling-and-awaiting it does. *)
Record Callable : Type := mkCallable {
  __name__ : option string;
  callable_type : string;
  call : W -> Outcome PyVal * W
}.

(** [await asyncio.wait_for(coro, timeout)]: third-party. *)
Variable wait_for :
  (W -> Outcome PyVal * W) -> Q -> W -> Outcome PyVal * W.

Record TestResults : Type := mkTestResults {
  test : Callable;
  test_name : string;
  n_repeats : option Z
}.

(** [TestResults.__init__(test, n_repeats)]. *)
Definition __init__ (test : Callable) (n_repeats : option Z)
  : PyExc + TestResults :=
  match __name__ test with
  | Some name => inr (mkTestResults test name n_repeats)
  | None => inl (AttributeError (callable_type test) "__name__")
  end.

(** [TestResults(test)], with the default retry count. *)
Definition init_default (test : Callable) : PyExc + TestResults :=
  __init__ test default_n_repeats.

(** What one [run] has done so far: the environment, the records handed
    to this module's logger, and how many times [self.test()] was
    evaluated. *)
Record RunState : Type := mkState {
  world : W;
  records : list LogRecord;
  invocations : nat
}.

Definition start (w : W) : RunState := mkState w [] 0.

Definition emit (r : LogRecord) (st : RunState) : RunState :=
  mkState (world st) (records st ++ [r]) (invocations st).

(** [_log_test_results(test_results, attempt)]. *)
Definition _log_test_results (self : TestResults) (test_results : PyVal)
    (attempt : Z) (lg : list LogRecord) : (PyExc + PyVal) * list LogRecord :=
  let lg1 :=
    lg ++ [mkLog INFO "Test %s (Attempt %s) - Successful"
                 [LVal (VStr (test_name self)); LVal (VInt attempt)]] in
  match test_results with
  | VDict items =>
      match log_subtests items lg1 with
      | (None, lg2) => (inr test_results, lg2)
      | (Some e, lg2) => (inl e, lg2)
      end
  | _ => (inr test_results, lg1)
  end.

(** The body of the [try] in [run]: await the work under the deadline,
    then log and return its result. *)
Definition try_body (self : TestResults) (attempt : Z) (st : RunState)
  : Outcome PyVal * RunState :=
  let '(o, w') := wait_for (call (test self)) timeout (world st) in
  let st1 := mkState w' (records st) (S (invocations st)) in
  match o with
  | Returned result =>
      match _log_test_results self result attempt (records st1) with
      | (inr v, lg) => (Returned v, mkState w' lg (invocations st1))
      | (inl e, lg) => (Raised OtherException e, mkState w' lg (invocations st1))
      end
  | Raised k e => (Raised k e, st1)
  end.

(** What [await runner.run()] gives its caller: the returned value, an
    exception raised by [run] itself, or a non-[Exception] exception of
    the work that no clause of [run] catches. *)
Inductive RunResult : Type :=
| RunReturned (v : PyVal)
| RunRaised (e : PyExc)
| RunEscaped (e : PyExc).

(** The [for attempt in range(1, self.n_repeats + 1)] loop of [run],
    with the [raise] that follows it. *)
Fixpoint run_loop (self : TestResults) (n : Z) (attempts : list Z)
    (st : RunState) : RunResult * RunState :=
  match attempts with
  | [] =>
      (RunRaised (TestError [VStr "Unexpected failure in test %s";
                             VStr (test_name self)]), st)
  | attempt :: rest =>
      match try_body self attempt st with
      | (Returned v, st1) => (RunReturned v, st1)
      | (Raised AsyncioTimeout _, st1) =>
          let st2 :=
            emit (mkLog ERROR "Test %s timed out (Attempt %s/%s)"
                        [LVal (VStr (test_name self)); LVal (VInt attempt);
                         LVal (VInt n)]) st1 in
          if attempt =? n
          then (RunRaised (TestTimeoutError
                             [VStr "Test %s consistently timed out";
                              VStr (test_name self)]), st2)
          else run_loop self n rest st2
      | (Raised OtherException e, st1) =>
          let st2 :=
            emit (mkLog ERROR "Test %s failed (Attempt %s/%s): %s"
                        [LVal (VStr (test_name self)); LVal (VInt attempt);
                         LVal (VInt n); LExc e]) st1 in
          if attempt =? n
          then (RunRaised (TestError
                             [VStr "Test %s failed after %s attempts";
                              VStr (test_name self); VInt n]), st2)
          else run_loop self n rest st2
      | (Raised NonException e, st1) => (RunEscaped e, st1)
      end
  end.

(** [TestResults.run()].  [self.n_repeats + 1] raises [TypeError] when
    the count is [None]. *)
Definition run (self : TestResults) (st : RunState) : RunResult * RunState :=
  match n_repeats self with
  | Some n => run_loop self n (range 1 (n + 1)) st
  | None =>
      (RunRaised (mkExc "TypeError"
         [VStr "unsupported operand type(s) for +: 'NoneType' and 'int'"]),
       st)
  end.

End Runner.

Arguments mkCallable {W} _ _ _.
Arguments __name__ {W} _.
Arguments callable_type {W} _.
Arguments call {W} _ _.
Arguments mkTestResults {W} _ _ _.
Arguments test {W} _.
Arguments test_name {W} _.
Arguments n_repeats {W} _.
Arguments __init__ {W} _ _.
Arguments init_default {W} _.
Arguments mkState {W} _ _ _.
Arguments world {W} _.
Arguments records {W} _.
Arguments invocations {W} _.
Arguments start {W} _.
Arguments emit {W} _ _.
Arguments _log_test_results {W} _ _ _ _.
Arguments try_body {W} _ _ _ _.
Arguments run_loop {W} _ _ _ _ _.
Arguments run {W} _ _ _.

(** *** Vocabulary for the statements about [run] *)

(** One attempt of the work of [self], as [run] awaits it. *)
Definition attempt {W : Type}
    (wait_for : (W -> Outcome PyVal * W) -> Q -> W -> Outcome PyVal * W)
    (self : TestResults W) : W -> Outcome PyVal * W :=
  wait_for (call (test self)) timeout.

(** [failures work j w = Some w']: started in [w], the work raises an
    exception that [run] catches (a timeout or another [Exception]) [j]
    times in a row, and leaves the environment [w']. *)
Fixpoint failures {W : Type} (work : W -> Outcome PyVal * W) (j : nat) (w : W)
  : option W :=
  match j with
  | O => Some w
  | S j' =>
      match work w with
      | (Raised k _, w') => if is_exception k then failures work j' w' else None
      | (Returned _, _) => None
      end
  end.

(** The values [_log_test_results] logs without raising: anything that is
    not a dict, and a dict whose values are all dicts with string keys. *)
Definition str_keys (fields : list (PyVal * PyVal)) : bool :=
  forallb (fun kv => match fst kv with VStr _ => true | _ => false end) fields.

Definition loggable (v : PyVal) : bool :=
  match v with
  | VDict items =>
      forallb (fun kv => match snd kv with
                         | VDict fields => str_keys fields
                         | _ => false
                         end) items
  | _ => true
  end.

(** The records [run] writes for a successful, a timed-out and a failed
    attempt [a] of [n]. *)
Definition success_record {W : Type} (self : TestResults W) (a : Z) : LogRecord :=
  mkLog INFO "Test %s (Attempt %s) - Successful"
        [LVal (VStr (test_name self)); LVal (VInt a)].

Definition timeout_record {W : Type} (self : TestResults W) (a n : Z) : LogRecord :=
  mkLog ERROR "Test %s timed out (Attempt %s/%s)"
        [LVal (VStr (test_name self)); LVal (VInt a); LVal (VInt n)].

Definition failure_record {W : Type} (self : TestResults W) (a n : Z) (e : PyExc)
  : LogRecord :=
  mkLog ERROR "Test %s failed (Attempt %s/%s): %s"
        [LVal (VStr (test_name self)); LVal (VInt a); LVal (VInt n); LExc e].

(** A record whose first argument is the test's name. *)
Definition names_test (name : string) (r : LogRecord) : Prop :=
  exists rest, largs r = LVal (VStr name) :: rest.

(** A record of the per-subtest detail lines of [_log_test_results]. *)
Definition detail_record (r : LogRecord) : Prop :=
  level r = INFO /\ (fmt r = "Subtest: %s" \/ fmt r = "  %s: %s").

End Logs.

(* ================================================================== *)
(** ** [runtime.py]: the profiling routine and its driver *)

Module Runtime.
Import Logs.

Section Profiler.

(** The timed function and the input generator, as [big_o] receives them. *)
Variable F : Type.
Variable G : Type.

(** The complexity-class objects [big_o] returns, and [str] on them. *)
Variable Class : Type.
Variable str : Class -> string.

(** The environment [big_o] and the timed function act on. *)
Variable E : Type.

(** [big_o.big_o(func, generator, min_n, max_n, n_measures, n_repeats,
    n_timings)]: third-party.  It returns the pair [(best, others)], where
    [others] is a dict from class objects to residuals, given here by its
    items in iteration order. *)
Variable big_o :
  F -> G -> Z -> Z -> Z -> Z -> Z -> E -> Outcome (Class * list (Class * Q)) * E.

(** The dataclass [AlgorithmTest]; [n_repeats] defaults to 100. *)
Record AlgorithmTest : Type := mkAlgorithmTest {
  name : string;
  func : F;
  generator : G;
  n_repeats : Z
}.

Definition AlgorithmTest_default (name : string) (func : F) (generator : G)
  : AlgorithmTest := mkAlgorithmTest name func generator 100.

(** The keyword arguments of one call of [big_o.big_o]. *)
Record BigOCall : Type := mkCall {
  min_n : Z;
  max_n : Z;
  n_measures : Z;
  call_n_repeats : Z;
  n_timings : Z
}.

(** What the profiling code acts on: the environment of [big_o], the calls
    made to [big_o] so far, and the records handed to this module's
    logger. *)
Record World : Type := mkWorld {
  env : E;
  big_o_calls : list BigOCall;
  rt_records : list LogRecord
}.

Definition rt_emit (r : LogRecord) (w : World) : World :=
  mkWorld (env w) (big_o_calls w) (rt_records w ++ [r]).

(** [{str(class_): float(residuals) for class_, residuals in others.items()}] *)
Definition other_fits (others : list (Class * Q)) : list (string * Q) :=
  fold_left (fun d cr => dict_set (str (fst cr)) (snd cr) d) others [].

(** The inner dictionary of [results]. *)
Record ProfileResult : Type := mkProfile {
  best_fit : string;
  ranked_fits : list (string * Q)
}.

Definition profile (best : Class) (others : list (Class * Q)) : ProfileResult :=
  mkProfile (str best) (other_fits others).

(** [results = {test.name: {"best_fit": ..., "other_fits": {...}}}] *)
Definition results_dict (test : AlgorithmTest) (p : ProfileResult) : PyVal :=
  VDict [(VStr (name test),
          VDict [(VStr "best_fit", VStr (best_fit p));
                 (VStr "other_fits",
                  VDict (map (fun kr => (VStr (fst kr), VFloat (snd kr)))
                             (ranked_fits p)))])].

(** [for class_, residuals in others.items(): logger.info(...)] *)
Definition log_others (others : list (Class * Q)) (w : World) : World :=
  fold_left
    (fun w cr => rt_emit (mkLog INFO "%s    (res: %.2G)"
                                [LVal (VStr (str (fst cr))); LVal (VFloat (snd cr))]) w)
    others w.

(** [test_algorithm(test)]. *)
Definition test_algorithm (test : AlgorithmTest) (w : World)
  : Outcome PyVal * World :=
  let '(o, env') :=
    big_o (func test) (generator test) 100 10000 10 (n_repeats test) 5 (env w) in
  let w1 :=
    mkWorld env'
            (big_o_calls w ++ [mkCall 100 10000 10 (n_repeats test) 5])
            (rt_records w) in
  match o with
  | Returned (best, others) =>
      let results := results_dict test (profile best others) in
      let w2 := rt_emit (mkLog INFO (String "010"%char "=== %s ===")
                               [LVal (VStr (name test))]) w1 in
      let w3 := rt_emit (mkLog INFO "Best fit: %s" [LVal (VStr (str best))]) w2 in
      (Returned results, log_others others w3)
  | Raised k e =>
      if is_exception k
      then (Raised k e,
            rt_emit (mkLog ERROR "Error testing algorithm %s: %s"
                           [LVal (VStr (name test)); LExc e]) w1)
      else (Raised k e, w1)
  end.

(** [asyncio.wait_for], acting on the profiling world. *)
Variable wait_for :
  (World -> Outcome PyVal * World) -> Q -> World -> Outcome PyVal * World.

(** [lambda: test_algorithm(test)] *)
Definition lambda_test_algorithm (test : AlgorithmTest) : Callable World :=
  mkCallable (Some "<lambda>") "function" (test_algorithm test).

(** The body of the loop of [main], for one [test]; the records of the
    logger of [logs.py] are threaded through as [lg].  An exception that
    [except Exception] does not catch ends [main]. *)
Definition main_step (test : AlgorithmTest) (w : World) (lg : list LogRecord)
  : option PyExc * World * list LogRecord :=
  match __init__ (lambda_test_algorithm test) default_n_repeats with
  | inl e => (Some e, w, lg)
  | inr test_runner =>
      match run wait_for test_runner (mkState w lg 0) with
      | (RunReturned results, st) =>
          (None,
           rt_emit (mkLog INFO "Test results for %s: %s"
                          [LVal (VStr (name test)); LVal results]) (world st),
           records st)
      | (RunRaised e, st) =>
          (None,
           rt_emit (mkLog ERROR "Test failed for %s: %s"
                          [LVal (VStr (name test)); LExc e]) (world st),
           records st)
      | (RunEscaped e, st) => (Some e, world st, records st)
      end
  end.

(** [for test in test_cases: ...] *)
Fixpoint main_loop (test_cases : list AlgorithmTest) (w : World)
    (lg : list LogRecord) : option PyExc * World * list LogRecord :=
  match test_cases with
  | [] => (None, w, lg)
  | test :: rest =>
      match main_step test w lg with
      | (None, w', lg') => main_loop rest w' lg'
      | stopped => stopped
      end
  end.

(** The two wrappers profiled by [main], and [lambda n: n]. *)
Variable remove_duplicates_wrapper : F.
Variable binary_search_wrapper : F.
Variable lambda_n_n : G.

Definition test_cases : list AlgorithmTest :=
  [AlgorithmTest_default "Remove Duplicates (Front)" remove_duplicates_wrapper lambda_n_n;
   AlgorithmTest_default "Binary Search" binary_search_wrapper lambda_n_n].

Definition main (w : World) (lg : list LogRecord)
  : option PyExc * World * list LogRecord :=
  main_loop test_cases w lg.

End Profiler.

Arguments mkAlgorithmTest {F G} _ _ _ _.
Arguments AlgorithmTest_default {F G} _ _ _.
Arguments name {F G} _.
Arguments func {F G} _.
Arguments generator {F G} _.
Arguments n_repeats {F G} _.
Arguments mkWorld {E} _ _ _.
Arguments env {E} _.
Arguments big_o_calls {E} _.
Arguments rt_records {E} _.
Arguments rt_emit {E} _ _.
Arguments other_fits {Class} _ _.
Arguments profile {Class} _ _ _.
Arguments results_dict {F G} _ _.
Arguments log_others {Class} _ {E} _ _.
Arguments test_algorithm {F G Class} _ {E} _ _ _.
Arguments lambda_test_algorithm {F G Class} _ {E} _ _.
Arguments main_step {F G Class} _ {E} _ _ _ _ _.
Arguments main_loop {F G Class} _ {E} _ _ _ _ _.
Arguments test_cases {F G} _ _ _.
Arguments main {F G Class} _ {E} _ _ _ _ _ _ _.

(** *** Vocabulary for the statements about [test_algorithm] *)

(** The call of [big_o] that [test_algorithm(test)] makes. *)
Definition sweep {F G Class E : Type}
    (big_o : F -> G -> Z -> Z -> Z -> Z -> Z -> E ->
             Outcome (Class * list (Class * Q)) * E)
    (test : AlgorithmTest F G) : E -> Outcome (Class * list (Class * Q)) * E :=
  big_o (func test) (generator test) 100 10000 10 (n_repeats test) 5.

(** The arguments of that call. *)
Definition sweep_call {F G : Type} (test : AlgorithmTest F G) : BigOCall :=
  mkCall 100 10000 10 (n_repeats test) 5.

(** A list of fits in ascending order of residual. *)
Fixpoint ascending (fits : list (string * Q)) : bool :=
  match fits with
  | [] => true
  | (_, r) :: rest =>
      match rest with
      | [] => true
      | (_, r') :: _ => Qle_bool r r' && ascending rest
      end
  end.

(** The runner built by [main] for [test], with retry count [n]. *)
Definition runner_of {F G Class E : Type} (str : Class -> string)
    (big_o : F -> G -> Z -> Z -> Z -> Z -> Z -> E ->
             Outcome (Class * list (Class * Q)) * E)
    (test : AlgorithmTest F G) (n : option Z) : TestResults (World E) :=
  mkTestResults (lambda_test_algorithm str big_o test) "<lambda>" n.

End Runtime.

(* ================================================================== *)
(** ** Concrete works and libraries, for running the model *)

Module Sim.
Import Logs.

(** *** A scripted work for the runner *)

(** The environment: how many times the work was started, and how long
    its latest execution took. *)
Record SimWorld : Type := mkSim { ncalls : nat; elapsed : Q }.

Definition sim0 : SimWorld := mkSim 0 0.

(** A work that, on its [i]-th execution (from 0), takes the time and
    ends the way [script i] says. *)
Definition scripted (script : nat -> Q * Outcome PyVal) : Callable SimWorld :=
  mkCallable (Some "work") "function"
    (fun w => (snd (script (ncalls w)),
               mkSim (S (ncalls w)) (fst (script (ncalls w))))).

(** A [wait_for] that raises [TimeoutError] when the awaited work took
    longer than the deadline, and passes its outcome on otherwise. *)
Definition wait_for (body : SimWorld -> Outcome PyVal * SimWorld) (t : Q)
    (w : SimWorld) : Outcome PyVal * SimWorld :=
  let '(o, w') := body w in
  if Qle_bool (elapsed w') t
  then (o, w')
  else (Raised AsyncioTimeout (mkExc "TimeoutError" []), w').

Definition runner (script : nat -> Q * Outcome PyVal) (n : option Z)
  : TestResults SimWorld :=
  mkTestResults (scripted script) "work" n.

(** A result that logs cleanly, and one whose subtest value is not a dict. *)
Definition example_results : PyVal :=
  VDict [(VStr "performance_test",
          VDict [(VStr "best", VFloat (95 # 100)); (VStr "others", VFloat (75 # 100))])].

Definition flat_results : PyVal := VDict [(VStr "score", VInt 1)].

Definition ValueError : PyExc := mkExc "ValueError" [VStr "boom"].

(** Works: always succeeding, always failing, always too slow, failing
    once then succeeding, and succeeding with [flat_results]. *)
Definition always_ok : nat -> Q * Outcome PyVal :=
  fun _ => (1 # 1, Returned example_results).
Definition always_failing : nat -> Q * Outcome PyVal :=
  fun _ => (1 # 1, Raised OtherException ValueError).
Definition always_slow : nat -> Q * Outcome PyVal :=
  fun _ => (11 # 1, Returned example_results).
Definition ok_on_second : nat -> Q * Outcome PyVal :=
  fun i => match i with
           | O => (1 # 1, Raised OtherException ValueError)
           | _ => (1 # 1, Returned example_results)
           end.
Definition ok_on_third : nat -> Q * Outcome PyVal :=
  fun i => match i with
           | O | S O => (1 # 1, Raised OtherException ValueError)
           | _ => (1 # 1, Returned example_results)
           end.
Definition always_flat : nat -> Q * Outcome PyVal :=
  fun _ => (1 # 1, Returned flat_results).

(** A callable object without [__name__], such as a [functools.partial]. *)
Definition partial_object : Callable SimWorld :=
  mkCallable None "functools.partial" (fun w => (Returned VNone, w)).

(** *** A scripted [big_o] for the profiler *)

Inductive Class : Type :=
| Constant | Linear | Quadratic | Cubic | Polynomial
| Logarithmic | Linearithmic | Exponential.

Definition str (c : Class) : string :=
  match c with
  | Constant => "Constant"
  | Linear => "Linear"
  | Quadratic => "Quadratic"
  | Cubic => "Cubic"
  | Polynomial => "Polynomial"
  | Logarithmic => "Logarithmic"
  | Linearithmic => "Linearithmic"
  | Exponential => "Exponential"
  end.

(** A [big_o] that ignores its arguments and, on its [i]-th call, ends
    the way [script i] says; its environment counts the calls. *)
Definition big_o (script : nat -> Outcome (Class * list (Class * Q)))
    (_ _ : unit) (_ _ _ _ _ : Z) (calls : nat)
  : Outcome (Class * list (Class * Q)) * nat :=
  (script calls, S calls).

(** A deadline that is never reached. *)
Definition no_deadline
    (body : Runtime.World nat -> Outcome PyVal * Runtime.World nat) (_ : Q)
  : Runtime.World nat -> Outcome PyVal * Runtime.World nat := body.

Definition world0 : Runtime.World nat := Runtime.mkWorld 0%nat [] [].

Definition binary_search : Runtime.AlgorithmTest unit unit :=
  Runtime.AlgorithmTest_default "Binary Search" tt tt.

(** Fits of a linear-time function, in the order of the candidate
    classes: the best one is neither first nor are the residuals sorted. *)
Definition linear_fits : Class * list (Class * Q) :=
  (Linear, [(Constant, 9 # 1); (Linear, 1 # 1); (Quadratic, 4 # 1)]).

Definition fits_linear : nat -> Outcome (Class * list (Class * Q)) :=
  fun _ => Returned linear_fits.

End Sim.

(* ================================================================== *)
(** ** [logs.py]: the example and its driver *)

Module LogsMain.
Import Logs.

(** [example_test()]: returns a fixed dictionary of results. *)
Definition example_results : PyVal :=
  VDict [(VStr "performance_test",
          VDict [(VStr "best", VFloat (95 # 100)); (VStr "others", VFloat (75 # 100))])].

Definition example_test {W : Type} : Callable W :=
  mkCallable (Some "example_test") "function"
             (fun w => (Returned example_results, w)).

(** The classes named by [except (TestError, TestTimeoutError)]. *)
Definition handled (e : PyExc) : bool :=
  String.eqb (exc_class e) "TestError"
  || String.eqb (exc_class e) "TestTimeoutError".

(** [main()] of [logs.py].  Every [print(...)] is recorded with its
    arguments.  The result is the exception that leaves [main], if any,
    what was printed, and the state the run ended in. *)
Definition main {W : Type}
    (wait_for : (W -> Outcome PyVal * W) -> Q -> W -> Outcome PyVal * W)
    (st : RunState W) : option PyExc * list (list LogArg) * RunState W :=
  match init_default example_test with
  | inl e => (Some e, [], st)
  | inr test_runner =>
      match run wait_for test_runner st with
      | (RunReturned results, st') => (None, [[LVal results]], st')
      | (RunRaised e, st') =>
          if handled e
          then (None, [[LVal (VStr "Test failed: %s"); LExc e]], st')
          else (Some e, [], st')
      | (RunEscaped e, st') => (Some e, [], st')
      end
  end.

End LogsMain.

(* ================================================================== *)
(** ** [runtime.py]: the two profiled wrappers *)

Module Wrappers.

(** *** [remove_duplicates_wrapper] *)

(** [item not in result], on a list of strings. *)
Definition not_in (item : string) (result : list string) : bool :=
  negb (existsb (String.eqb item) result).

(** [for item in data: if item not in result: result.append(item)] *)
Fixpoint remove_duplicates (data : list string) (result : list string)
  : list string :=
  match data with
  | [] => result
  | item :: rest =>
      remove_duplicates rest
        (if not_in item result then result ++ [item] else result)
  end.

Section Random.

(** The state of the random generator, and one evaluation of
    ["".join(random.choices("abcdefghijk", k=5))]. *)
Variable Rng : Type.
Variable random_word : Rng -> string * Rng.

(** [[... for _ in range(n)]], with [fuel] the number of draws left. *)
Fixpoint draw (fuel : nat) (g : Rng) : list string * Rng :=
  match fuel with
  | O => ([], g)
  | S fuel' =>
      let '(word, g1) := random_word g in
      let '(words, g2) := draw fuel' g1 in
      (word :: words, g2)
  end.

(** [remove_duplicates_wrapper(n)]: the list [result] the loop ends with
    (the function itself returns [None]) and the generator it leaves. *)
Definition remove_duplicates_wrapper (n : Z) (g : Rng) : list string * Rng :=
  let '(data, g') := draw (List.length (range 0 n)) g in
  (remove_duplicates data [], g').

End Random.

(** *** [binary_search_wrapper] *)

(** [data[i]] on a list: a negative index counts from the end, an index
    outside the list raises [IndexError] ([None] here). *)
Definition getitem_list (data : list Z) (i : Z) : option Z :=
  let len := Z.of_nat (List.length data) in
  if i <? 0
  then (if 0 <=? len + i then nth_error data (Z.to_nat (len + i)) else None)
  else nth_error data (Z.to_nat i).

(** How the [while] loop ends: through [break] at [mid], with
    [left > right], or with an [IndexError]; [probes] counts the
    evaluations of [data[mid]]: one in the [if] of every iteration, and
    one more in the [elif] of every iteration that does not break. *)
Inductive SearchEnd : Type :=
| Break (mid : Z) (probes : nat)
| Exhausted (left right : Z) (probes : nat)
| IndexError (probes : nat).

(** The [while left <= right] loop; [None] when [fuel] iterations were
    not enough to end it. *)
Fixpoint search (fuel : nat) (data : list Z) (target left right : Z)
    (probes : nat) : option SearchEnd :=
  if left <=? right then
    match fuel with
    | O => None
    | S fuel' =>
        let mid := (left + right) / 2 in
        match getitem_list data mid with
        | None => Some (IndexError (S probes))
        | Some v =>
            if v =? target then Some (Break mid (S probes))
            else
              (* the [elif] evaluates [data[mid]] again *)
              match getitem_list data mid with
              | None => Some (IndexError (S (S probes)))
              | Some v' =>
                  if v' <? target
                  then search fuel' data target (mid + 1) right (S (S probes))
                  else search fuel' data target left (mid - 1) (S (S probes))
              end
        end
    end
  else Some (Exhausted left right probes).

(** [binary_search_wrapper(n)]: how its loop ends (the function itself
    returns [None]).  The loop halves [right - left + 1] at each
    iteration, so [len(data) + 1] iterations are allowed. *)
Definition binary_search_wrapper (n : Z) : option SearchEnd :=
  let data := range 0 n in
  let target := n / 2 in
  search (S (List.length data)) data target 0 (Z.of_nat (List.length data) - 1) 0.

End Wrappers.

(* ================================================================== *)
(** ** [challenges/*/py/index.py]: the caller of [test_algorithm] *)

Module Challenge.
Import Logs Runtime.

(** [v[key]] for a string [key]. *)
Definition getitem (v : PyVal) (key : string) : PyExc + PyVal :=
  match v with
  | VDict items =>
      match find (fun kv => match fst kv with
                            | VStr k => String.eqb k key
                            | _ => false
                            end) items with
      | Some kv => inr (snd kv)
      | None => inl (mkExc "KeyError" [VStr key])
      end
  | VStr _ =>
      inl (mkExc "TypeError" [VStr "string indices must be integers, not 'str'"])
  | _ =>
      inl (mkExc "TypeError"
                 [VStr ("'" ++ type_name v ++ "' object is not subscriptable")%string])
  end.

(** [v.items()]. *)
Definition items_of (v : PyVal) : PyExc + list (PyVal * PyVal) :=
  match v with
  | VDict items => inr items
  | _ => inl (AttributeError (type_name v) "items")
  end.

(** [for complexity, residual in ....items(): logger.info(...)] *)
Definition log_fits (items : list (PyVal * PyVal)) (lg : list LogRecord)
  : list LogRecord :=
  fold_left
    (fun lg kv => lg ++ [mkLog INFO "  %s: residual=%.2G"
                               [LVal (fst kv); LVal (snd kv)]])
    items lg.

Section Caller.

Variable F : Type.
Variable G : Type.
Variable Class : Type.
Variable str : Class -> string.
Variable E : Type.
Variable big_o :
  F -> G -> Z -> Z -> Z -> Z -> Z -> E -> Outcome (Class * list (Class * Q)) * E.

(** The [except Exception] clause of [test_solutions]. *)
Definition failed (test : AlgorithmTest F G) (e : PyExc) (lg : list LogRecord)
  : list LogRecord :=
  lg ++ [mkLog ERROR "Failed to test %s: %s" [LVal (VStr (name test)); LExc e]].

(** The [try] body of [test_solutions] after [test_algorithm] returned
    [results]: the records written, and the exception that ended it, if
    any. *)
Definition report (test : AlgorithmTest F G) (results : PyVal)
    (lg : list LogRecord) : option PyExc * list LogRecord :=
  let lg1 := lg ++ [mkLog INFO "Performance test results for %s:"
                          [LVal (VStr (name test))]] in
  match getitem results (name test) with
  | inl e => (Some e, lg1)
  | inr inner =>
      match getitem inner "best_fit" with
      | inl e => (Some e, lg1)
      | inr best =>
          let lg2 := lg1 ++ [mkLog INFO "Best fit complexity: %s" [LVal best]] in
          let lg3 := lg2 ++ [mkLog INFO "Other complexity fits:" []] in
          match getitem results (name test) with
          | inl e => (Some e, lg3)
          | inr inner' =>
              match getitem inner' "other_fits" with
              | inl e => (Some e, lg3)
              | inr fits =>
                  match items_of fits with
                  | inl e => (Some e, lg3)
                  | inr items => (None, log_fits items lg3)
                  end
              end
          end
      end
  end.

(** The body of the loop of [test_solutions], for one [test]; [lg] holds
    the records of the caller's logger. *)
Definition test_solutions_step (test : AlgorithmTest F G) (w : World E)
    (lg : list LogRecord) : option PyExc * World E * list LogRecord :=
  match test_algorithm str big_o test w with
  | (Returned results, w') =>
      match report test results lg with
      | (None, lg') => (None, w', lg')
      | (Some e, lg') => (None, w', failed test e lg')
      end
  | (Raised k e, w') =>
      if is_exception k
      then (None, w', failed test e lg)
      else (Some e, w', lg)
  end.

(** [for test in test_cases: ...] *)
Fixpoint test_solutions_loop (test_cases : list (AlgorithmTest F G))
    (w : World E) (lg : list LogRecord)
  : option PyExc * World E * list LogRecord :=
  match test_cases with
  | [] => (None, w, lg)
  | test :: rest =>
      match test_solutions_step test w lg with
      | (None, w', lg') => test_solutions_loop rest w' lg'
      | stopped => stopped
      end
  end.

(** The lambdas around [part1] and [part2], and [lambda n: n]. *)
Variable part1_on_generated : F.
Variable part2_on_generated : F.
Variable lambda_n_n : G.

Definition test_cases : list (AlgorithmTest F G) :=
  [mkAlgorithmTest "Part 1 Solution" part1_on_generated lambda_n_n 50;
   mkAlgorithmTest "Part 2 Solution" part2_on_generated lambda_n_n 50].

(** [test_solutions()]. *)
Definition test_solutions (w : World E) (lg : list LogRecord)
  : option PyExc * World E * list LogRecord :=
  test_solutions_loop test_cases w lg.

End Caller.

Arguments failed {F G} _ _ _.
Arguments report {F G} _ _ _.
Arguments test_solutions_step {F G Class} _ {E} _ _ _ _.
Arguments test_solutions_loop {F G Class} _ {E} _ _ _ _.
Arguments test_cases {F G} _ _ _.
Arguments test_solutions {F G Class} _ {E} _ _ _ _ _ _.

End Challenge.

(* ================================================================== *)
(** ** [challenges/2025/1/py/index.py]: the two solvers *)

Module Day1.

(** A Python [bool] used as an [int]. *)
Definition int_of_bool (b : bool) : Z := if b then 1 else 0.

(** The nested function [f(p, t, dir)] of [part2] (its [lru_cache] only
    stores results); [None] when [fuel] nested calls were not enough. *)
Fixpoint f (fuel : nat) (p t : Z) (dir : string) : option Z :=
  match fuel with
  | O => None
  | S fuel' =>
      if t =? 0 then Some 0
      else if p =? 0 then Some (Z.abs t / 100)
      else if String.eqb dir "L" then
        let new_p := Z.max (p - t) 0 mod 100 in
        let new_t := t - Z.min p t in
        match f fuel' new_p new_t dir with
        | Some r => Some (int_of_bool (new_p =? 0) + r)
        | None => None
        end
      else
        let new_p := (p + Z.min (100 - p) t) mod 100 in
        let new_t := t - Z.min (100 - p) t in
        match f fuel' new_p new_t dir with
        | Some r => Some (int_of_bool (new_p =? 0) + r)
        | None => None
        end
  end.

(** The nested calls allowed to [f] in [part2]. *)
Definition depth : nat := 3.

Section Solvers.

(** The built-ins [str.splitlines] and [int] (on a string). *)
Variable splitlines : string -> list string.
Variable int : string -> PyExc + Z.

(** [line[0]] and [int(line[1:])]. *)
Definition parse_line (line : string) : PyExc + (string * Z) :=
  match line with
  | EmptyString => inl (mkExc "IndexError" [VStr "string index out of range"])
  | String c rest =>
      match int rest with
      | inl e => inl e
      | inr amount => inr (String c EmptyString, amount)
      end
  end.

(** The loop of [part1]. *)
Fixpoint part1_loop (lines : list string) (current zeroes : Z) : PyExc + Z :=
  match lines with
  | [] => inr zeroes
  | line :: rest =>
      match parse_line line with
      | inl e => inl e
      | inr (directories, amount) =>
          let current' :=
            if String.eqb directories "L"
            then (current - amount) mod 100
            else (current + amount) mod 100 in
          part1_loop rest current' (zeroes + int_of_bool (current' =? 0))
      end
  end.

(** [part1(aoc_input)]. *)
Definition part1 (aoc_input : string) : PyExc + Z :=
  part1_loop (splitlines aoc_input) 50 0.

(** The loop of [part2]; [None] when [f] ran out of nested calls. *)
Fixpoint part2_loop (lines : list string) (current ans : Z)
  : option (PyExc + Z) :=
  match lines with
  | [] => Some (inr ans)
  | line :: rest =>
      match parse_line line with
      | inl e => Some (inl e)
      | inr (direction, amount) =>
          match f depth current amount direction with
          | None => None
          | Some clicks =>
              let amount' :=
                if String.eqb direction "L" then amount * -1 else amount in
              part2_loop rest ((current + amount') mod 100) (ans + clicks)
          end
      end
  end.

(** [part2(aoc_input)]. *)
Definition part2 (aoc_input : string) : option (PyExc + Z) :=
  part2_loop (splitlines aoc_input) 50 0.

End Solvers.

(** The positions the dial passes during a rotation of [t] clicks from
    [p]: [p - k] (to the left) or [p + k] (to the right), modulo 100, for
    [k = 1, ..., t]; and how many of them are 0. *)
Definition click (p : Z) (dir : string) (k : Z) : Z :=
  if String.eqb dir "L" then (p - k) mod 100 else (p + k) mod 100.

Definition zero_clicks (p t : Z) (dir : string) : Z :=
  Z.of_nat (List.length (filter (fun k => click p dir k =? 0) (range 1 (t + 1)))).

(** Every line of the input asks for at least one click. *)
Definition positive_amounts (int : string -> PyExc + Z) (lines : list string)
  : Prop :=
  forall c rest amount,
    In (String c rest) lines -> int rest = inr amount -> 1 <= amount.

End Day1.

(* ================================================================== *)
(** ** [challenges/2025/1/py/index.py]: reading the puzzle input *)

Module Input.
Import Logs.

Inductive Severity : Type := Info | Warning | Error.

(** One call of the logger of the challenge module. *)
Record Entry : Type :=
  mkEntry { severity : Severity; entry_fmt : string; entry_args : list LogArg }.

(** An [AOCError] with its arguments (an argument may be an exception). *)
Record AOCError : Type := mkAOCError { aoc_args : list LogArg }.

(** How opening and reading the file ends: with its text, with
    [FileNotFoundError], with another [IOError], or with an exception
    that is neither (such as [UnicodeDecodeError]). *)
Inductive ReadKind : Type := FileNotFound | OtherIOError | NotIOError.

Inductive ReadOutcome : Type :=
| ReadOk (text : string)
| ReadRaised (k : ReadKind) (e : PyExc).

(** How [get_input] ends. *)
Inductive GetResult : Type :=
| Got (content : string)
| RaisedAOCError (e : AOCError)
| Propagated (e : PyExc).

Section GetInput.

(** The file system; [open(path, "r", encoding="utf-8")] followed by
    [file.read()]; and the built-ins [str.strip] and [str] on an [int]. *)
Variable FS : Type.
Variable read_text : string -> FS -> ReadOutcome * FS.
Variable strip : string -> string.
Variable str_int : Z -> string.

(** What a call has done so far: the file system, the records of the
    logger, and the number of times the file was opened. *)
Record State : Type := mkState {
  fs : FS;
  entries : list Entry;
  reads : nat
}.

Definition log (e : Entry) (st : State) : State :=
  mkState (fs st) (entries st ++ [e]) (reads st).

(** [f"challenges/{year}/{day}/input.txt"] *)
Definition path_of (year day : Z) : string :=
  ("challenges/" ++ str_int year ++ "/" ++ str_int day ++ "/input.txt")%string.

(** [not content] *)
Definition is_empty (s : string) : bool :=
  match s with EmptyString => true | _ => false end.

(** The [for attempt in range(max_attempts)] loop of [get_input], with the
    [raise] that follows it. *)
Fixpoint get_input_loop (path : string) (max_attempts : Z) (attempts : list Z)
    (st : State) : GetResult * State :=
  match attempts with
  | [] =>
      (RaisedAOCError
         (mkAOCError [LVal (VStr "Unexpected error in input retrieval")]), st)
  | attempt :: rest =>
      let '(o, fs') := read_text path (fs st) in
      let st1 := mkState fs' (entries st) (S (reads st)) in
      match o with
      | ReadOk text =>
          let content := strip text in
          if is_empty content
          then (Got content,
                log (mkEntry Warning "Input file is empty: %s" [LVal (VStr path)])
                    st1)
          else (Got content, st1)
      | ReadRaised FileNotFound _ =>
          let st2 :=
            log (mkEntry Warning "Input file not found (Attempt %d): %s"
                         [LVal (VInt (attempt + 1)); LVal (VStr path)]) st1 in
          if attempt =? max_attempts - 1
          then (RaisedAOCError
                  (mkAOCError
                     [LVal (VStr "Could not read input file after %d attempts");
                      LVal (VInt max_attempts)]), st2)
          else get_input_loop path max_attempts rest st2
      | ReadRaised OtherIOError e =>
          let st2 :=
            log (mkEntry Error "Error reading input file: %s" [LExc e]) st1 in
          if attempt =? max_attempts - 1
          then (RaisedAOCError
                  (mkAOCError
                     [LVal (VStr "IO error reading input file: %s"); LExc e]),
                st2)
          else get_input_loop path max_attempts rest st2
      | ReadRaised NotIOError e => (Propagated e, st1)
      end
  end.

(** The body of [get_input(year, day, max_attempts)]. *)
Definition get_input_body (year day max_attempts : Z) (st : State)
  : GetResult * State :=
  get_input_loop (path_of year day) max_attempts (range 0 max_attempts) st.

(** The key [lru_cache] files a call under: its positional arguments, the
    third one only when it was passed. *)
Definition Key : Type := (Z * Z * option Z)%type.

Definition key_eqb (a b : Key) : bool :=
  let '(y1, d1, m1) := a in
  let '(y2, d2, m2) := b in
  (y1 =? y2) && (d1 =? d2)
  && match m1, m2 with
     | Some x, Some y => x =? y
     | None, None => true
     | _, _ => false
     end.

Definition lookup (k : Key) (cache : list (Key * string)) : option string :=
  match find (fun kv => key_eqb k (fst kv)) cache with
  | Some kv => Some (snd kv)
  | None => None
  end.

(** [get_input(year, day)] or [get_input(year, day, max_attempts)], under
    [@lru_cache(maxsize=None)]: a stored result is returned without
    running the body; a returned result is stored, a raised exception is
    not. *)
Definition get_input (year day : Z) (max_attempts : option Z)
    (cache : list (Key * string)) (st : State)
  : GetResult * State * list (Key * string) :=
  match lookup (year, day, max_attempts) cache with
  | Some content => (Got content, st, cache)
  | None =>
      let n := match max_attempts with Some n => n | None => 3 end in
      match get_input_body year day n st with
      | (Got content, st') =>
          (Got content, st', ((year, day, max_attempts), content) :: cache)
      | (other, st') => (other, st', cache)
      end
  end.

End GetInput.

Arguments mkState {FS} _ _ _.
Arguments fs {FS} _.
Arguments entries {FS} _.
Arguments reads {FS} _.
Arguments log {FS} _ _.
Arguments get_input_loop {FS} _ _ _ _ _ _.
Arguments get_input_body {FS} _ _ _ _ _ _ _.
Arguments get_input {FS} _ _ _ _ _ _ _ _.

(** [unreadable read j fs = Some fs']: started in [fs], reading the file ends
    [j] times in a row with [FileNotFoundError] or another [IOError], and
    leaves [fs']. *)
Fixpoint unreadable {FS : Type} (read : FS -> ReadOutcome * FS) (j : nat) (s : FS)
  : option FS :=
  match j with
  | O => Some s
  | S j' =>
      match read s with
      | (ReadRaised FileNotFound _, s') => unreadable read j' s'
      | (ReadRaised OtherIOError _, s') => unreadable read j' s'
      | _ => None
      end
  end.

(** The attempt number a "not found" record was written with. *)
Definition attempt_number (e : Entry) : option Z :=
  match entry_args e with
  | LVal (VInt a) :: _ => Some a
  | _ => None
  end.

End Input.

(* ================================================================== *)
(** ** [challenges/2025/9/py/index.py]: the two solvers *)

Module Day9.

(** [itertools.combinations(l, 2)]: the pairs of elements of [l], the
    first one at an earlier position, in lexicographic order of
    positions. *)
Fixpoint combinations2 {A : Type} (l : list A) : list (A * A) :=
  match l with
  | [] => []
  | x :: rest => map (pair x) rest ++ combinations2 rest
  end.

(** [max(...)] of the values of an iterable. *)
Definition max_of (l : list Z) : PyExc + Z :=
  match l with
  | [] => inl (mkExc "ValueError" [VStr "max() iterable argument is empty"])
  | x :: rest => inr (fold_left Z.max rest x)
  end.

(** [a < x < b] *)
Definition between (a x b : Z) : bool := (a <? x) && (x <? b).

(** An edge [(x1, x2, y1, y2)] of the polygon. *)
Definition Edge : Type := (Z * Z * Z * Z)%type.

(** The first loop of [inside], over the horizontal edges: [false] when
    it returns [False], [true] when it ends. *)
Fixpoint inside_hori (hori : list Edge) (x1 y1 x2 y2 : Z) : bool :=
  match hori with
  | [] => true
  | (a, b, y, _) :: rest =>
      if (between a x1 b || between a x2 b) && between y1 y y2 then false
      else if ((x1 =? a) || (x2 =? b)) && between y1 y y2 then false
      else inside_hori rest x1 y1 x2 y2
  end.

(** The second loop of [inside], over the vertical edges. *)
Fixpoint inside_vert (vert : list Edge) (x1 y1 x2 y2 : Z) : bool :=
  match vert with
  | [] => true
  | (x, _, c, d) :: rest =>
      if (between c y1 d || between c y2 d) && between x1 x x2 then false
      else if ((y1 =? c) || (y2 =? d)) && between x1 x x2 then false
      else inside_vert rest x1 y1 x2 y2
  end.

(** [inside(x1, y1, x2, y2)]. *)
Definition inside (hori vert : list Edge) (x1 y1 x2 y2 : Z) : bool :=
  if inside_hori hori x1 y1 x2 y2 then inside_vert vert x1 y1 x2 y2 else false.

Section Solvers.

(** The built-ins [str.strip], [str.rstrip], [str.split] (with its
    separator first), [int] on a string and [str] on an [int]; and the
    interpreter's message for a tuple of the wrong length. *)
Variable strip : string -> string.
Variable rstrip : string -> string.
Variable split : string -> string -> list string.
Variable int : string -> PyExc + Z.
Variable str_int : Z -> string.
Variable unpack_message : nat -> string.

(** [tuple(map(int, fields))] *)
Fixpoint ints (fields : list string) : PyExc + list Z :=
  match fields with
  | [] => inr []
  | s :: rest =>
      match int s with
      | inl e => inl e
      | inr z =>
          match ints rest with
          | inl e => inl e
          | inr zs => inr (z :: zs)
          end
      end
  end.

(** [[tuple(map(int, line.split(','))) for line in lines]] *)
Fixpoint parse_lines (lines : list string) : PyExc + list (list Z) :=
  match lines with
  | [] => inr []
  | line :: rest =>
      match ints (split "," line) with
      | inl e => inl e
      | inr point =>
          match parse_lines rest with
          | inl e => inl e
          | inr points => inr (point :: points)
          end
      end
  end.

(** The first two statements of [part1] and of [part2]. *)
Definition parse (aoc_input : string) : PyExc + list (list Z) :=
  parse_lines
    (map rstrip (split (String "010"%char EmptyString) (strip aoc_input))).

(** [x, y = p] *)
Definition unpack2 (p : list Z) : PyExc + (Z * Z) :=
  match p with
  | [x; y] => inr (x, y)
  | _ => inl (mkExc "ValueError" [VStr (unpack_message (List.length p))])
  end.

(** [get_area(p1, p2)]. *)
Definition get_area (p1 p2 : list Z) : PyExc + Z :=
  match unpack2 p1 with
  | inl e => inl e
  | inr (x1, y1) =>
      match unpack2 p2 with
      | inl e => inl e
      | inr (x2, y2) => inr ((Z.abs (x1 - x2) + 1) * (Z.abs (y1 - y2) + 1))
      end
  end.

(** [get_area(data[i], data[j]) for i, j in ...], evaluated in order. *)
Fixpoint areas (data : list (list Z)) (ij : list (nat * nat)) : PyExc + list Z :=
  match ij with
  | [] => inr []
  | (i, j) :: rest =>
      match get_area (nth i data []) (nth j data []) with
      | inl e => inl e
      | inr a =>
          match areas data rest with
          | inl e => inl e
          | inr l => inr (a :: l)
          end
      end
  end.

(** [part1], from [data] to [max_area]. *)
Definition part1_value (data : list (list Z)) : PyExc + Z :=
  match areas data (combinations2 (seq 0 (List.length data))) with
  | inl e => inl e
  | inr l => max_of l
  end.

(** [part1(aoc_input)]. *)
Definition part1 (aoc_input : string) : PyExc + string :=
  match parse aoc_input with
  | inl e => inl e
  | inr data =>
      match part1_value data with
      | inl e => inl e
      | inr max_area => inr (str_int max_area)
      end
  end.

(** The [for i in range(n)] loop of [part2], which sorts the edges of the
    polygon into horizontal and vertical ones. *)
Fixpoint edges_loop (data : list (list Z)) (n : nat) (indices : list nat)
    (hori vert : list Edge) : PyExc + (list Edge * list Edge) :=
  match indices with
  | [] => inr (hori, vert)
  | i :: rest =>
      match unpack2 (nth i data []) with
      | inl e => inl e
      | inr (x, y) =>
          match unpack2 (nth ((i + 1) mod n) data []) with
          | inl e => inl e
          | inr (x2, y2) =>
              let x1 := Z.min x x2 in
              let x2' := Z.max x x2 in
              let y1 := Z.min y y2 in
              let y2' := Z.max y y2 in
              if x1 =? x2'
              then edges_loop data n rest hori (vert ++ [(x1, x2', y1, y2')])
              else edges_loop data n rest (hori ++ [(x1, x2', y1, y2')]) vert
          end
      end
  end.

(** [p[k]] on a tuple, for [k] 0 or 1. *)
Definition item (p : list Z) (k : nat) : PyExc + Z :=
  match nth_error p k with
  | Some z => inr z
  | None => inl (mkExc "IndexError" [VStr "tuple index out of range"])
  end.

(** The coordinates [p1[0], p2[0], p1[1], p2[1]] in the order they are
    first read. *)
Definition corners (p1 p2 : list Z) : PyExc + (Z * Z * Z * Z) :=
  match item p1 0 with
  | inl e => inl e
  | inr a0 =>
      match item p2 0 with
      | inl e => inl e
      | inr b0 =>
          match item p1 1 with
          | inl e => inl e
          | inr a1 =>
              match item p2 1 with
              | inl e => inl e
              | inr b1 => inr (a0, b0, a1, b1)
              end
          end
      end
  end.

(** The [for p1, p2 in combinations(data, 2)] loop of [part2]. *)
Fixpoint rect_loop (pairs : list (list Z * list Z)) (hori vert : list Edge)
    (ans : Z) : PyExc + Z :=
  match pairs with
  | [] => inr ans
  | (p1, p2) :: rest =>
      match corners p1 p2 with
      | inl e => inl e
      | inr (a0, b0, a1, b1) =>
          let x1 := Z.min a0 b0 in
          let x2 := Z.max a0 b0 in
          let y1 := Z.min a1 b1 in
          let y2 := Z.max a1 b1 in
          if inside hori vert x1 y1 x2 y2
          then match get_area p1 p2 with
               | inl e => inl e
               | inr a => rect_loop rest hori vert (Z.max ans a)
               end
          else rect_loop rest hori vert ans
      end
  end.

(** [part2], from [data] to [ans]. *)
Definition part2_value (data : list (list Z)) : PyExc + Z :=
  match edges_loop data (List.length data) (seq 0 (List.length data)) [] [] with
  | inl e => inl e
  | inr (hori, vert) => rect_loop (combinations2 data) hori vert 0
  end.

(** [part2(aoc_input)]. *)
Definition part2 (aoc_input : string) : PyExc + string :=
  match parse aoc_input with
  | inl e => inl e
  | inr data =>
      match part2_value data with
      | inl e => inl e
      | inr ans => inr (str_int ans)
      end
  end.

End Solvers.

(** The points [data] holds when every line gave two numbers. *)
Definition well_formed (data : list (list Z)) : Prop :=
  Forall (fun p => List.length p = 2%nat) data.

End Day9.

(* ================================================================== *)
(** ** Reading the records of the runner *)

Module LogsRead.
Import Logs.

(** The attempt number and the total a record of a failed or timed-out
    attempt was written with: its second and third arguments. *)
Definition attempt_of_total (r : LogRecord) : option (Z * Z) :=
  match largs r with
  | _ :: LVal (VInt a) :: LVal (VInt n) :: _ => Some (a, n)
  | _ => None
  end.

End LogsRead.

(* ================================================================== *)
(** ** More concrete works, for running the model *)

Module Scenarios.
Import Logs.

Definition KeyboardInterrupt : PyExc := mkExc "KeyboardInterrupt" [].

(** A work that fails once and is interrupted on its second execution. *)
Definition interrupted_on_second : nat -> Q * Outcome PyVal :=
  fun i => match i with
           | O => (1 # 1, Raised OtherException Sim.ValueError)
           | _ => (1 # 1, Raised NonException KeyboardInterrupt)
           end.

(** Fits in which one class name comes twice. *)
Definition repeated_fits : list (Sim.Class * Q) :=
  [(Sim.Linear, 5 # 1); (Sim.Constant, 2 # 1); (Sim.Linear, 1 # 1)].

(** A [big_o] whose first sweep fails and whose later sweeps succeed. *)
Definition fails_once : nat -> Outcome (Sim.Class * list (Sim.Class * Q)) :=
  fun i => match i with
           | O => Raised OtherException Sim.ValueError
           | _ => Returned Sim.linear_fits
           end.

(** A random generator that alternates between two words. *)
Definition two_words : nat -> string * nat :=
  fun g => (if Nat.even g then "abcde" else "fghij", S g).

(** Two lines of dial instructions, already split, and an [int] that
    reads the two amounts they use. *)
Definition two_lines : string -> list string := fun _ => ["R50"; "L100"].

Definition int_of_amount : string -> PyExc + Z :=
  fun s => if String.eqb s "50" then inr 50
           else if String.eqb s "100" then inr 100
           else inl (mkExc "ValueError" [VStr "invalid literal for int()"]).

(** A file that appears after it was looked for [s] times (the state
    counts down), a [strip] that removes spaces, and a [str] that writes
    the numbers of one puzzle. *)
Definition appearing_file (_ : string) (s : nat) : Input.ReadOutcome * nat :=
  match s with
  | O => (Input.ReadOk "  R50 ", O)
  | S s' =>
      (Input.ReadRaised Input.FileNotFound
         (mkExc "FileNotFoundError" [VInt 2; VStr "No such file or directory"]),
       s')
  end.

Fixpoint drop_spaces (l : list ascii) : list ascii :=
  match l with
  | c :: l' => if Ascii.eqb c " " then drop_spaces l' else l
  | [] => []
  end.

Definition strip_spaces (s : string) : string :=
  string_of_list_ascii
    (rev (drop_spaces (rev (drop_spaces (list_ascii_of_string s))))).

Definition str_2025_1 (z : Z) : string :=
  if z =? 2025 then "2025" else "1".

Definition missing_file (_ : string) (s : nat) : Input.ReadOutcome * nat :=
  (Input.ReadRaised Input.FileNotFound
     (mkExc "FileNotFoundError" [VInt 2; VStr "No such file or directory"]),
   S s).

(** Three corners of a polygon, one point alone, and a message for a
    tuple of the wrong length. *)
Definition three_points : list (list Z) := [[1; 1]; [4; 1]; [4; 5]].
Definition one_point : list (list Z) := [[7; 3]].
Definition unpack_message (got : nat) : string :=
  if Nat.ltb got 2 then "not enough values to unpack"
  else "too many values to unpack".

(** A [big_o] whose every sweep raises an exception of kind [k]. *)
Definition always_raising (k : ExcKind)
  : nat -> Outcome (Sim.Class * list (Sim.Class * Q)) :=
  fun _ => Raised k Sim.ValueError.

End Scenarios.

(* ================================================================== *)
(** ** Facts about the built-ins *)

Module PyFacts.

Lemma range_nil (lo hi : Z) : hi <= lo -> range lo hi = [].
Proof.
  intros H. unfold range.
  replace (Z.to_nat (hi - lo)) with 0%nat by lia. reflexivity.
Qed.

Lemma range_cons (lo hi : Z) : lo < hi -> range lo hi = lo :: range (lo + 1) hi.
Proof.
  intros H. unfold range.
  replace (Z.to_nat (hi - lo)) with (S (Z.to_nat (hi - (lo + 1)))) by lia.
  cbn [seq map]. f_equal; [lia|].
  rewrite <- seq_shift, map_map.
  apply map_ext. intros i. lia.
Qed.

Lemma range_length (lo hi : Z) : List.length (range lo hi) = Z.to_nat (hi - lo).
Proof. unfold range. now rewrite length_map, length_seq. Qed.

(** The element at position [i] of [range lo hi] is [lo + i]. *)
Lemma range_split (hi : Z) (pre : list Z) :
  forall (lo a : Z) (post : list Z),
    range lo hi = pre ++ a :: post -> a = lo + Z.of_nat (List.length pre).
Proof.
  induction pre as [|p pre IH]; intros lo a post H.
  - destruct (Z_lt_le_dec lo hi) as [Hlt | Hle].
    + rewrite range_cons in H by exact Hlt. inversion H; subst. cbn. lia.
    + rewrite range_nil in H by exact Hle. discriminate.
  - destruct (Z_lt_le_dec lo hi) as [Hlt | Hle].
    + rewrite range_cons in H by exact Hlt. inversion H; subst.
      match goal with Hr : range _ _ = _ |- _ => apply IH in Hr; rewrite Hr end.
      cbn [List.length]. lia.
    + rewrite range_nil in H by exact Hle. discriminate.
Qed.

Lemma is_exception_cases (k : ExcKind) :
  is_exception k = true -> k = AsyncioTimeout \/ k = OtherException.
Proof. destruct k; cbn; auto; discriminate. Qed.

End PyFacts.

(* ================================================================== *)
(** ** Facts about the runner *)

Module LogsFacts.
Import Logs PyFacts.

(** *** What [_log_test_results] writes *)

Lemma log_fields_details (items : list (PyVal * PyVal)) :
  forall lg x lg',
    log_fields items lg = (x, lg') ->
    exists d, lg' = lg ++ d /\ Forall detail_record d.
Proof.
  induction items as [|[key value] rest IH]; intros lg x lg' H; cbn in H.
  - inversion H; subst. exists []. now rewrite app_nil_r.
  - destruct key;
      try (inversion H; subst; exists []; now rewrite app_nil_r).
    apply IH in H. destruct H as (d & -> & Hd).
    eexists (_ :: d). rewrite <- app_assoc. split; [reflexivity|].
    constructor; [|exact Hd]. split; cbn; auto.
Qed.

Lemma log_subtests_details (items : list (PyVal * PyVal)) :
  forall lg x lg',
    log_subtests items lg = (x, lg') ->
    exists d, lg' = lg ++ d /\ Forall detail_record d.
Proof.
  induction items as [|[subtest result] rest IH]; intros lg x lg' H; cbn in H.
  - inversion H; subst. exists []. now rewrite app_nil_r.
  - assert (Hsub : detail_record (mkLog INFO "Subtest: %s" [LVal subtest]))
      by (split; cbn; auto).
    destruct result;
      try (inversion H; subst; eexists [_]; split;
           [reflexivity | constructor; [exact Hsub | constructor]]).
    destruct (log_fields items _) as [[e|] lg2] eqn:Hf.
    + inversion H; subst.
      apply log_fields_details in Hf. destruct Hf as (d & -> & Hd).
      eexists (_ :: d). rewrite <- app_assoc. split; [reflexivity|].
      constructor; assumption.
    + apply log_fields_details in Hf. destruct Hf as (d & -> & Hd).
      apply IH in H. destruct H as (d' & -> & Hd').
      eexists (_ :: d ++ d'). rewrite <- !app_assoc. split; [reflexivity|].
      constructor; [exact Hsub|]. apply Forall_app; auto.
Qed.

Lemma log_fields_str_keys (items : list (PyVal * PyVal)) :
  forall lg, str_keys items = true -> fst (log_fields items lg) = None.
Proof.
  induction items as [|[key value] rest IH]; intros lg H; cbn in *.
  - reflexivity.
  - destruct key; cbn in H; try discriminate. now apply IH.
Qed.

Lemma log_subtests_loggable (items : list (PyVal * PyVal)) :
  forall lg, loggable (VDict items) = true -> fst (log_subtests items lg) = None.
Proof.
  induction items as [|[subtest result] rest IH]; intros lg H; cbn in *.
  - reflexivity.
  - destruct result; cbn in H; try discriminate.
    apply andb_prop in H. destruct H as [Hk Hrest].
    pose proof (log_fields_str_keys items
      (lg ++ [mkLog INFO "Subtest: %s" [LVal subtest]]) Hk) as Hf.
    destruct (log_fields items _) as [[e|] lg2]; cbn in Hf; try discriminate.
    now apply IH.
Qed.

Section Runner.

Variable W : Type.
Variable wait_for : (W -> Outcome PyVal * W) -> Q -> W -> Outcome PyVal * W.
Variable self : TestResults W.

Lemma _log_test_results_records (v : PyVal) (a : Z) (lg : list LogRecord) :
  forall x lg',
    _log_test_results self v a lg = (x, lg') ->
    exists d, lg' = lg ++ success_record self a :: d /\ Forall detail_record d.
Proof.
  intros x lg' H. unfold _log_test_results in H.
  destruct v;
    try (inversion H; subst; exists []; split; [reflexivity | constructor]).
  destruct (log_subtests items _) as [[e|] lg2] eqn:Hs;
    apply log_subtests_details in Hs; destruct Hs as (d & -> & Hd);
    inversion H; subst; exists d; rewrite <- app_assoc; auto.
Qed.

Lemma _log_test_results_loggable (v : PyVal) (a : Z) (lg : list LogRecord) :
  loggable v = true -> fst (_log_test_results self v a lg) = inr v.
Proof.
  intros H. unfold _log_test_results.
  destruct v; try reflexivity.
  pose proof (log_subtests_loggable items
    (lg ++ [mkLog INFO "Test %s (Attempt %s) - Successful"
                  [LVal (VStr (test_name self)); LVal (VInt a)]]) H) as Hs.
  destruct (log_subtests items _) as [[e|] lg2]; cbn in Hs.
  - discriminate.
  - reflexivity.
Qed.

(** *** One attempt *)

Lemma try_body_raised (a : Z) (st : RunState W) k e w' :
  attempt wait_for self (world st) = (Raised k e, w') ->
  try_body wait_for self a st
  = (Raised k e, mkState w' (records st) (S (invocations st))).
Proof.
  unfold attempt, try_body. intros ->. reflexivity.
Qed.

Lemma try_body_returned (a : Z) (st : RunState W) r w' :
  attempt wait_for self (world st) = (Returned r, w') ->
  loggable r = true ->
  exists d,
    Forall detail_record d /\
    try_body wait_for self a st
    = (Returned r,
       mkState w' (records st ++ success_record self a :: d) (S (invocations st))).
Proof.
  unfold attempt, try_body. intros -> Hl. cbn [records invocations].
  pose proof (_log_test_results_loggable r a (records st) Hl) as Hv.
  destruct (_log_test_results self r a (records st)) as [x lg] eqn:Hlog.
  cbn in Hv. subst x.
  apply _log_test_results_records in Hlog. destruct Hlog as (d & -> & Hd).
  exists d. split; [exact Hd | reflexivity].
Qed.

(** Whatever the attempt does, [try_body] evaluates [self.test()] once and
    only adds records of [_log_test_results]. *)
Lemma try_body_effect (a : Z) (st : RunState W) o st1 :
  try_body wait_for self a st = (o, st1) ->
  invocations st1 = S (invocations st) /\
  exists d, records st1 = records st ++ d /\
            Forall (fun r => detail_record r \/ names_test (test_name self) r) d.
Proof.
  unfold try_body. intros H.
  destruct (wait_for (call (test self)) timeout (world st)) as [[r|k e] w'].
  - cbn [records invocations] in H.
    destruct (_log_test_results self r a (records st)) as [x lg] eqn:Hlog.
    apply _log_test_results_records in Hlog. destruct Hlog as (d & -> & Hd).
    assert (Hall : Forall (fun r => detail_record r \/ names_test (test_name self) r)
                          (success_record self a :: d)).
    { constructor.
      - right. eexists. reflexivity.
      - eapply Forall_impl; [|exact Hd]. cbn. auto. }
    destruct x; inversion H; subst; cbn; split; eauto.
  - inversion H; subst; cbn. split; [reflexivity|].
    exists []. rewrite app_nil_r. split; [reflexivity | constructor].
Qed.

(** *** The retry loop *)

Lemma state_eta (st : RunState W) :
  mkState (world st) (records st ++ []) (invocations st + 0) = st.
Proof. destruct st; cbn. now rewrite app_nil_r, Nat.add_0_r. Qed.

(** [j] caught failures in a row, none of them on the last attempt, take
    the loop [j] attempts further and leave one ERROR record each. *)
Lemma run_loop_skip (n : Z) :
  forall (j : nat) (lo : Z) (st : RunState W) (w' : W),
    lo + Z.of_nat j <= n ->
    failures (attempt wait_for self) j (world st) = Some w' ->
    exists lg,
      run_loop wait_for self n (range lo (n + 1)) st
      = run_loop wait_for self n (range (lo + Z.of_nat j) (n + 1))
                 (mkState w' (records st ++ lg) (invocations st + j)) /\
      List.length lg = j /\
      Forall (fun r => level r = ERROR /\ names_test (test_name self) r) lg.
Proof.
  induction j as [|j IH]; intros lo st w' Hle Hf.
  - cbn in Hf. inversion Hf; subst. exists [].
    rewrite state_eta. cbn [Z.of_nat]. rewrite Z.add_0_r. auto.
  - cbn [failures] in Hf.
    destruct (attempt wait_for self (world st)) as [[r|k e] w1] eqn:Ha;
      [discriminate|].
    destruct (is_exception k) eqn:Hk; [|discriminate].
    rewrite (range_cons lo (n + 1)) by lia. cbn [run_loop].
    rewrite (try_body_raised _ _ _ _ _ Ha).
    assert (Hne : (lo =? n) = false) by (apply Z.eqb_neq; lia).
    rewrite Hne.
    replace (lo + Z.of_nat (S j)) with (lo + 1 + Z.of_nat j) by lia.
    destruct (is_exception_cases k Hk) as [-> | ->].
    + destruct (IH (lo + 1)
                   (emit (timeout_record self lo n)
                      (mkState w1 (records st) (S (invocations st)))) w')
        as (lg & Heq & Hlen & Hall); [lia | exact Hf |].
      exists (timeout_record self lo n :: lg).
      unfold timeout_record in *. rewrite Heq. unfold emit; cbn [world records invocations].
      rewrite <- app_assoc. cbn [app].
      replace (S (invocations st) + j)%nat with (invocations st + S j)%nat by lia.
      split; [reflexivity|]. split; [cbn; lia|].
      constructor; [|exact Hall]. split; [reflexivity | eexists; reflexivity].
    + destruct (IH (lo + 1)
                   (emit (failure_record self lo n e)
                      (mkState w1 (records st) (S (invocations st)))) w')
        as (lg & Heq & Hlen & Hall); [lia | exact Hf |].
      exists (failure_record self lo n e :: lg).
      unfold failure_record in *. rewrite Heq. unfold emit; cbn [world records invocations].
      rewrite <- app_assoc. cbn [app].
      replace (S (invocations st) + j)%nat with (invocations st + S j)%nat by lia.
      split; [reflexivity|]. split; [cbn; lia|].
      constructor; [|exact Hall]. split; [reflexivity | eexists; reflexivity].
Qed.


(** The error [run] raises when the last of [n >= 1] attempts fails with
    an exception of kind [k]. *)
Lemma run_exhausts (n : Z) (st : RunState W) (w1 w2 : W) k e :
  n_repeats self = Some n ->
  1 <= n ->
  failures (attempt wait_for self) (Z.to_nat (n - 1)) (world st) = Some w1 ->
  attempt wait_for self w1 = (Raised k e, w2) ->
  is_exception k = true ->
  exists lg,
    run wait_for self st
    = (RunRaised
         match k with
         | AsyncioTimeout =>
             TestTimeoutError [VStr "Test %s consistently timed out";
                               VStr (test_name self)]
         | _ =>
             TestError [VStr "Test %s failed after %s attempts";
                        VStr (test_name self); VInt n]
         end,
       mkState w2 (records st ++ lg) (invocations st + Z.to_nat n)) /\
    List.length lg = Z.to_nat n.
Proof.
  intros Hn Hpos Hf Ha Hk. unfold run. rewrite Hn.
  destruct (run_loop_skip n (Z.to_nat (n - 1)) 1 st w1)
    as (lg & Heq & Hlen & _); [lia | exact Hf |].
  rewrite Heq. replace (1 + Z.of_nat (Z.to_nat (n - 1))) with n by lia.
  rewrite (range_cons n (n + 1)) by lia. cbn [run_loop].
  erewrite try_body_raised by exact Ha.
  rewrite Z.eqb_refl. cbn [records invocations].
  replace (S (invocations st + Z.to_nat (n - 1)))
    with (invocations st + Z.to_nat n)%nat by lia.
  destruct (is_exception_cases k Hk) as [-> | ->];
    unfold emit; cbn [world records invocations]; rewrite <- app_assoc;
    eexists; (split; [reflexivity|]);
    rewrite length_app; cbn; lia.
Qed.

(** A value [run] returns is the value the work returned on the attempt
    that ended the loop, and that attempt is in the log. *)
Lemma try_body_value (a : Z) (st : RunState W) v st1 :
  try_body wait_for self a st = (Returned v, st1) ->
  attempt wait_for self (world st) = (Returned v, world st1) /\
  invocations st1 = S (invocations st) /\
  In (success_record self a) (records st1).
Proof.
  unfold try_body, attempt. intros H.
  destruct (wait_for (call (test self)) timeout (world st)) as [[r|k e] w'];
    [|discriminate].
  cbn [records invocations] in H.
  destruct (_log_test_results self r a (records st)) as [[x|x] lg] eqn:Hlog;
    [discriminate|].
  pose proof (_log_test_results_records r a (records st) _ _ Hlog)
    as (d & -> & _).
  assert (Hx : x = r).
  { unfold _log_test_results in Hlog. destruct r; try congruence.
    destruct (log_subtests items _) as [[e|] lg2]; congruence. }
  inversion H; subst. cbn. repeat split.
  apply in_or_app. right. now left.
Qed.

Lemma run_loop_returned (n : Z) :
  forall (attempts : list Z) (st : RunState W) v st',
    run_loop wait_for self n attempts st = (RunReturned v, st') ->
    exists pre a post w,
      attempts = pre ++ a :: post /\
      invocations st' = (invocations st + List.length pre + 1)%nat /\
      attempt wait_for self w = (Returned v, world st') /\
      In (success_record self a) (records st').
Proof.
  induction attempts as [|a rest IH]; intros st v st' H; cbn [run_loop] in H.
  - discriminate.
  - destruct (try_body wait_for self a st) as [o st1] eqn:Ht.
    assert (Hnext : forall r,
               run_loop wait_for self n rest (emit r st1) = (RunReturned v, st') ->
               exists pre a0 post w,
                 a :: rest = pre ++ a0 :: post /\
                 invocations st' = (invocations st + List.length pre + 1)%nat /\
                 attempt wait_for self w = (Returned v, world st') /\
                 In (success_record self a0) (records st')).
    { intros r Hr. apply IH in Hr.
      destruct Hr as (pre & a0 & post & w & -> & Hi & Ha & Hin).
      apply try_body_effect in Ht. destruct Ht as [Hi1 _].
      unfold emit in Hi; cbn [invocations] in Hi.
      exists (a :: pre), a0, post, w. cbn [List.length app].
      repeat split; try assumption. lia. }
    destruct o as [v0|[| |] e].
    + inversion H; subst. apply try_body_value in Ht.
      destruct Ht as (Ha & Hi & Hin).
      exists [], a, rest, (world st). cbn [List.length app].
      repeat split; try assumption. lia.
    + destruct (a =? n); [discriminate | eauto].
    + destruct (a =? n); [discriminate | eauto].
    + discriminate.
Qed.

(** With no attempt to make, [run] raises its fallback error at once. *)
Lemma run_no_attempt (n : Z) (st : RunState W) :
  n_repeats self = Some n ->
  n <= 0 ->
  run wait_for self st
  = (RunRaised (TestError [VStr "Unexpected failure in test %s";
                           VStr (test_name self)]), st).
Proof.
  intros Hn Hle. unfold run. rewrite Hn.
  rewrite range_nil by lia. reflexivity.
Qed.

(** Whatever the work does: the loop starts it at most once per attempt,
    every record it writes is a detail line or names the test, and every
    error it raises itself names the test. *)
Lemma run_loop_effect (n : Z) :
  forall (attempts : list Z) (st : RunState W) res st',
    run_loop wait_for self n attempts st = (res, st') ->
    (invocations st' <= invocations st + List.length attempts)%nat /\
    (exists d, records st' = records st ++ d /\
               Forall (fun r => detail_record r \/ names_test (test_name self) r) d) /\
    (forall e, res = RunRaised e ->
               (exc_class e = "TestError" \/ exc_class e = "TestTimeoutError") /\
               exists f rest, exc_args e = VStr f :: VStr (test_name self) :: rest).
Proof.
  induction attempts as [|a rest IH]; intros st res st' H; cbn [run_loop] in H.
  - inversion H; subst. split; [cbn; lia|]. split.
    + exists []. rewrite app_nil_r. split; [reflexivity | constructor].
    + intros e He. inversion He; subst. split; [left; reflexivity|].
      do 2 eexists. reflexivity.
  - destruct (try_body wait_for self a st) as [[v|k e0] st1] eqn:Ht.
    + apply try_body_effect in Ht. destruct Ht as (Hi & d & Hd & Hall).
      inversion H; subst. split; [cbn; lia|]. split; [eauto|].
      intros e He. discriminate.
    + apply try_body_effect in Ht. destruct Ht as (Hi & d & Hd & Hall).
      destruct k.
      * destruct (a =? n).
        -- inversion H; subst. unfold emit; cbn [world records invocations].
           split; [cbn; lia|]. split.
           ++ exists (d ++ [timeout_record self a n]). rewrite Hd, <- app_assoc.
              split; [reflexivity|]. apply Forall_app. split; [exact Hall|].
              constructor; [|constructor]. right. eexists. reflexivity.
           ++ intros e He. inversion He; subst. split; [right; reflexivity|].
              do 2 eexists. reflexivity.
        -- apply IH in H. destruct H as (Hi' & (d' & Hd' & Hall') & Herr).
           unfold emit in *; cbn [world records invocations] in *.
           split; [cbn; lia|]. split; [|exact Herr].
           exists (d ++ timeout_record self a n :: d').
           rewrite Hd', Hd, <- !app_assoc. split; [reflexivity|].
           apply Forall_app. split; [exact Hall|].
           constructor; [|exact Hall']. right. eexists. reflexivity.
      * destruct (a =? n).
        -- inversion H; subst. unfold emit; cbn [world records invocations].
           split; [cbn; lia|]. split.
           ++ exists (d ++ [failure_record self a n e0]). rewrite Hd, <- app_assoc.
              split; [reflexivity|]. apply Forall_app. split; [exact Hall|].
              constructor; [|constructor]. right. eexists. reflexivity.
           ++ intros e He. inversion He; subst. split; [left; reflexivity|].
              do 2 eexists. reflexivity.
        -- apply IH in H. destruct H as (Hi' & (d' & Hd' & Hall') & Herr).
           unfold emit in *; cbn [world records invocations] in *.
           split; [cbn; lia|]. split; [|exact Herr].
           exists (d ++ failure_record self a n e0 :: d').
           rewrite Hd', Hd, <- !app_assoc. split; [reflexivity|].
           apply Forall_app. split; [exact Hall|].
           constructor; [|exact Hall']. right. eexists. reflexivity.
      * inversion H; subst. split; [cbn; lia|]. split; [eauto|].
        intros e He. discriminate.
Qed.

(** *** What the attempts do to the environment *)

Lemma try_body_world (a : Z) (st : RunState W) o st1 :
  try_body wait_for self a st = (o, st1) ->
  world st1 = snd (attempt wait_for self (world st)) /\
  invocations st1 = S (invocations st).
Proof.
  unfold try_body, attempt. intros H.
  destruct (wait_for (call (test self)) timeout (world st)) as [[r|k e] w'].
  - cbn [records invocations] in H.
    destruct (_log_test_results self r a (records st)) as [[x|x] lg];
      inversion H; subst; auto.
  - inversion H; subst; auto.
Qed.

Section Trace.

(** Something every attempt appends one [x] to. *)
Variable X : Type.
Variable m : W -> list X.
Variable x : X.
Hypothesis attempt_appends :
  forall w, m (snd (attempt wait_for self w)) = m w ++ [x].

Lemma run_loop_trace (n : Z) :
  forall (attempts : list Z) (st : RunState W) res st',
    run_loop wait_for self n attempts st = (res, st') ->
    exists c, invocations st' = (invocations st + c)%nat /\
              m (world st') = m (world st) ++ repeat x c.
Proof.
  induction attempts as [|a rest IH]; intros st res st' H; cbn [run_loop] in H.
  - inversion H; subst. exists 0%nat. cbn. now rewrite Nat.add_0_r, app_nil_r.
  - destruct (try_body wait_for self a st) as [o st1] eqn:Ht.
    apply try_body_world in Ht. destruct Ht as [Hw Hi].
    assert (Hone : exists c, invocations st1 = (invocations st + c)%nat /\
                             m (world st1) = m (world st) ++ repeat x c).
    { exists 1%nat. rewrite Hw, attempt_appends. split; [lia | reflexivity]. }
    assert (Hnext : forall r,
               run_loop wait_for self n rest (emit r st1) = (res, st') ->
               exists c, invocations st' = (invocations st + c)%nat /\
                         m (world st') = m (world st) ++ repeat x c).
    { intros r Hr. apply IH in Hr. destruct Hr as (c & Hc & Hm).
      unfold emit in *; cbn [world records invocations] in *.
      exists (S c). rewrite Hc, Hm, Hw, attempt_appends, <- app_assoc.
      split; [lia | reflexivity]. }
    destruct o as [v|[| |] e].
    + inversion H; subst. exact Hone.
    + destruct (a =? n); [inversion H; subst; exact Hone | eauto].
    + destruct (a =? n); [inversion H; subst; exact Hone | eauto].
    + inversion H; subst. exact Hone.
Qed.

End Trace.

(** A work that always fails with a caught exception fails any number of
    times in a row. *)
Lemma failures_always (j : nat) :
  (forall w, exists k e w',
      attempt wait_for self w = (Raised k e, w') /\ is_exception k = true) ->
  forall w, exists w', failures (attempt wait_for self) j w = Some w'.
Proof.
  intros Hall. induction j as [|j IH]; intros w; cbn [failures].
  - eauto.
  - destruct (Hall w) as (k & e & w1 & -> & ->). apply IH.
Qed.

End Runner.

(** [run] consults [wait_for] with the deadline [timeout] only. *)
Lemma run_loop_ext (W : Type)
    (wf wf' : (W -> Outcome PyVal * W) -> Q -> W -> Outcome PyVal * W)
    (self : TestResults W) (n : Z) :
  (forall body w, wf body timeout w = wf' body timeout w) ->
  forall attempts st,
    run_loop wf self n attempts st = run_loop wf' self n attempts st.
Proof.
  intros Hext. induction attempts as [|a rest IH]; intros st; cbn [run_loop].
  - reflexivity.
  - assert (Ht : try_body wf self a st = try_body wf' self a st)
      by (unfold try_body; now rewrite Hext).
    rewrite Ht.
    destruct (try_body wf' self a st) as [[v|[| |] e] st1]; try reflexivity;
      destruct (a =? n); auto.
Qed.

End LogsFacts.

(* ================================================================== *)
(** ** Properties of the runner *)

Module RunnerClaims.
Import Logs PyFacts LogsFacts.

(** C1, at a work whose result does not log.  The claim: a work that
    succeeds on attempt [k <= n_repeats] makes [run] return without being
    started again.  Here the work returns [{"score": 1}] on its first
    attempt, with [n_repeats = 3]; [_log_test_results] raises
    [AttributeError] inside the [try], the attempt is handled as a failed
    one, the work is started three times and [run] raises [TestError]. *)
Theorem run_retries_unloggable_result :
  fst (attempt Sim.wait_for (Sim.runner Sim.always_flat (Some 3)) Sim.sim0)
  = Returned Sim.flat_results /\
  fst (run Sim.wait_for (Sim.runner Sim.always_flat (Some 3)) (start Sim.sim0))
  = RunRaised (TestError [VStr "Test %s failed after %s attempts";
                          VStr "work"; VInt 3]) /\
  invocations
    (snd (run Sim.wait_for (Sim.runner Sim.always_flat (Some 3)) (start Sim.sim0)))
  = 3%nat /\
  Sim.ncalls
    (world
       (snd (run Sim.wait_for (Sim.runner Sim.always_flat (Some 3))
                 (start Sim.sim0))))
  = 3%nat.
Proof. vm_compute. repeat split. Qed.

(** C2, as the code has it: when the last of [n >= 1] attempts fails, [run]
    raises [TestTimeoutError] if that attempt timed out and [TestError] if
    it failed otherwise; the [TestTimeoutError] carries the test's name
    (and no attempt count), the [TestError] carries the test's name and the
    configured count [n]. *)
Theorem exhausted_error_kind (W : Type)
    (wait_for : (W -> Outcome PyVal * W) -> Q -> W -> Outcome PyVal * W)
    (self : TestResults W) (n : Z) (st : RunState W) (w1 w2 : W)
    (k : ExcKind) (e : PyExc) :
  n_repeats self = Some n ->
  1 <= n ->
  failures (attempt wait_for self) (Z.to_nat (n - 1)) (world st) = Some w1 ->
  attempt wait_for self w1 = (Raised k e, w2) ->
  is_exception k = true ->
  (k = AsyncioTimeout ->
   fst (run wait_for self st)
   = RunRaised (TestTimeoutError [VStr "Test %s consistently timed out";
                                  VStr (test_name self)])) /\
  (k = OtherException ->
   fst (run wait_for self st)
   = RunRaised (TestError [VStr "Test %s failed after %s attempts";
                           VStr (test_name self); VInt n])).
Proof.
  intros Hn Hpos Hf Ha Hk.
  destruct (run_exhausts W wait_for self n st w1 w2 k e Hn Hpos Hf Ha Hk)
    as (lg & Hrun & _).
  rewrite Hrun. split; intros ->; reflexivity.
Qed.

Lemma exhausted_error_kind_witness :
  fst (run Sim.wait_for (Sim.runner Sim.always_slow (Some 3)) (start Sim.sim0))
  = RunRaised (TestTimeoutError [VStr "Test %s consistently timed out";
                                 VStr "work"]).
Proof.
  refine (proj1 (exhausted_error_kind Sim.SimWorld Sim.wait_for
                   (Sim.runner Sim.always_slow (Some 3)) 3 (start Sim.sim0)
                   (Sim.mkSim 2 (11 # 1)) (Sim.mkSim 3 (11 # 1))
                   AsyncioTimeout (mkExc "TimeoutError" []) _ _ _ _ _) _);
    try reflexivity.
  lia.
Defined.

(** C2, the claim refuted: a work that is too slow on each of 3 attempts
    ends in a [TestTimeoutError] whose arguments are the message and the
    name; the attempt count 3 is not among them. *)
Lemma timeout_error_has_no_attempt_count :
  exists e,
    fst (run Sim.wait_for (Sim.runner Sim.always_slow (Some 3)) (start Sim.sim0))
    = RunRaised e /\
    exc_class e = "TestTimeoutError" /\
    ~ In (VInt 3) (exc_args e).
Proof.
  eexists. split; [vm_compute; reflexivity|]. split; [reflexivity|].
  cbn. intros [H | [H | []]]; discriminate.
Qed.

(** C4, as the code has it: when a run succeeds on attempt [k], [run]
    returns the very value the work returned on that attempt, unchanged;
    the attempt number goes to the success record of the log only. *)
Theorem run_returns_result_unchanged (W : Type)
    (wait_for : (W -> Outcome PyVal * W) -> Q -> W -> Outcome PyVal * W)
    (self : TestResults W) (st : RunState W) (v : PyVal) (st' : RunState W) :
  run wait_for self st = (RunReturned v, st') ->
  exists (k : nat) (w : W),
    (1 <= k)%nat /\
    invocations st' = (invocations st + k)%nat /\
    attempt wait_for self w = (Returned v, world st') /\
    In (success_record self (Z.of_nat k)) (records st').
Proof.
  unfold run. destruct (n_repeats self) as [n|]; [|discriminate].
  intros H. apply run_loop_returned in H.
  destruct H as (pre & a & post & w & Hsplit & Hi & Ha & Hin).
  apply range_split in Hsplit. subst a.
  exists (List.length pre + 1)%nat, w. repeat split.
  - lia.
  - lia.
  - exact Ha.
  - replace (Z.of_nat (List.length pre + 1)) with (1 + Z.of_nat (List.length pre))
      by lia.
    exact Hin.
Qed.

Lemma run_returns_result_unchanged_witness :
  exists (k : nat) (w : Sim.SimWorld),
    (1 <= k)%nat /\
    invocations
      (snd (run Sim.wait_for (Sim.runner Sim.ok_on_third (Some 3))
                (start Sim.sim0)))
    = (0 + k)%nat /\
    attempt Sim.wait_for (Sim.runner Sim.ok_on_third (Some 3)) w
    = (Returned Sim.example_results,
       world (snd (run Sim.wait_for (Sim.runner Sim.ok_on_third (Some 3))
                       (start Sim.sim0)))) /\
    In (success_record (Sim.runner Sim.ok_on_third (Some 3)) (Z.of_nat k))
       (records
          (snd (run Sim.wait_for (Sim.runner Sim.ok_on_third (Some 3))
                    (start Sim.sim0)))).
Proof.
  apply (run_returns_result_unchanged Sim.SimWorld Sim.wait_for
           (Sim.runner Sim.ok_on_third (Some 3)) (start Sim.sim0)
           Sim.example_results).
  vm_compute. reflexivity.
Defined.

(** C4, the claim refuted: no attempt number can be read off the returned
    value.  A work that succeeds at once and a work that succeeds on its
    second attempt make [run] return the same value. *)
Lemma returned_value_has_no_attempt_tag :
  ~ exists attempt_of : PyVal -> nat,
      forall script n v st',
        run Sim.wait_for (Sim.runner script (Some n)) (start Sim.sim0)
        = (RunReturned v, st') ->
        attempt_of v = invocations st'.
Proof.
  intros [attempt_of H].
  pose proof (H Sim.always_ok 3 _ _ eq_refl) as H1.
  pose proof (H Sim.ok_on_second 3 _ _ eq_refl) as H2.
  cbn in H1, H2. congruence.
Qed.

(** C9: with [n_repeats <= 0] the loop of [run] has no attempt to make:
    [run] raises the fallback [TestError] ("Unexpected failure ...") and
    leaves everything as it was: the work is never started and no record
    is written. *)
Theorem run_without_attempts (W : Type)
    (wait_for : (W -> Outcome PyVal * W) -> Q -> W -> Outcome PyVal * W)
    (self : TestResults W) (n : Z) (st : RunState W) :
  n_repeats self = Some n ->
  n <= 0 ->
  run wait_for self st
  = (RunRaised (TestError [VStr "Unexpected failure in test %s";
                           VStr (test_name self)]), st) /\
  invocations (snd (run wait_for self st)) = invocations st /\
  records (snd (run wait_for self st)) = records st.
Proof.
  intros Hn Hle.
  rewrite (run_no_attempt W wait_for self n st Hn Hle). auto.
Qed.

Lemma run_without_attempts_witness :
  run Sim.wait_for (Sim.runner Sim.always_ok (Some (-2))) (start Sim.sim0)
  = (RunRaised (TestError [VStr "Unexpected failure in test %s"; VStr "work"]),
     start Sim.sim0) /\
  invocations
    (snd (run Sim.wait_for (Sim.runner Sim.always_ok (Some (-2))) (start Sim.sim0)))
  = 0%nat /\
  records
    (snd (run Sim.wait_for (Sim.runner Sim.always_ok (Some (-2))) (start Sim.sim0)))
  = [].
Proof.
  refine (run_without_attempts Sim.SimWorld Sim.wait_for
            (Sim.runner Sim.always_ok (Some (-2))) (-2) (start Sim.sim0) _ _).
  - reflexivity.
  - lia.
Defined.

End RunnerClaims.

(* ================================================================== *)
(** ** Facts about the profiling routine *)

Module RuntimeFacts.
Import Logs PyFacts LogsFacts Runtime.

(** *** The dict comprehension *)

Lemma dict_set_fresh {V : Type} (k : string) (v : V) (d : list (string * V)) :
  ~ In k (map fst d) -> dict_set k v d = d ++ [(k, v)].
Proof.
  induction d as [|[k' v'] d IH]; intros Hnin; cbn in *.
  - reflexivity.
  - destruct (String.eqb_spec k k') as [-> | Hne].
    + exfalso. apply Hnin. now left.
    + rewrite IH; [reflexivity|]. intros Hin. apply Hnin. now right.
Qed.

Lemma dict_set_not_nil {V : Type} (k : string) (v : V) (d : list (string * V)) :
  dict_set k v d <> [].
Proof.
  destruct d as [|[k' v'] d]; cbn; [discriminate|].
  destruct (String.eqb k k'); discriminate.
Qed.

Section Fits.

Variable Class : Type.
Variable str : Class -> string.

Lemma fold_dict_set_not_nil (others : list (Class * Q)) :
  forall acc, acc <> [] ->
    fold_left (fun d cr => dict_set (str (fst cr)) (snd cr) d) others acc <> [].
Proof.
  induction others as [|cr others IH]; intros acc Hacc; cbn.
  - exact Hacc.
  - apply IH. apply dict_set_not_nil.
Qed.

Lemma other_fits_nil (others : list (Class * Q)) :
  other_fits str others = [] <-> others = [].
Proof.
  unfold other_fits. split.
  - destruct others as [|cr others]; [reflexivity|]. cbn. intros H.
    exfalso. revert H. apply fold_dict_set_not_nil. discriminate.
  - intros ->. reflexivity.
Qed.

Lemma fold_dict_set_distinct (others : list (Class * Q)) :
  forall acc,
    NoDup (map fst acc ++ map (fun cr => str (fst cr)) others) ->
    fold_left (fun d cr => dict_set (str (fst cr)) (snd cr) d) others acc
    = acc ++ map (fun cr => (str (fst cr), snd cr)) others.
Proof.
  induction others as [|cr others IH]; intros acc Hnd; cbn.
  - now rewrite app_nil_r.
  - cbn in Hnd.
    assert (Hfresh : ~ In (str (fst cr)) (map fst acc)).
    { intros Hin. apply NoDup_remove_2 in Hnd. apply Hnd.
      apply in_or_app. now left. }
    rewrite dict_set_fresh by exact Hfresh.
    rewrite IH.
    + rewrite <- app_assoc. reflexivity.
    + rewrite map_app. cbn. rewrite <- app_assoc. exact Hnd.
Qed.

End Fits.

Section Profiler.

Variable F : Type.
Variable G : Type.
Variable Class : Type.
Variable str : Class -> string.
Variable E : Type.
Variable big_o :
  F -> G -> Z -> Z -> Z -> Z -> Z -> E -> Outcome (Class * list (Class * Q)) * E.

Lemma log_others_keeps (others : list (Class * Q)) :
  forall w : World E,
    env (log_others str others w) = env w /\
    big_o_calls (log_others str others w) = big_o_calls w.
Proof.
  unfold log_others.
  induction others as [|cr others IH]; intros w; cbn [fold_left].
  - auto.
  - destruct (IH (rt_emit (mkLog INFO "%s    (res: %.2G)"
                     [LVal (VStr (str (fst cr))); LVal (VFloat (snd cr))]) w))
      as [He Hc].
    rewrite He, Hc. auto.
Qed.

(** An exception of [big_o] leaves [test_algorithm] as it came. *)
Lemma test_algorithm_raises (test : AlgorithmTest F G) (w : World E) k e env' :
  sweep big_o test (env w) = (Raised k e, env') ->
  exists w',
    test_algorithm str big_o test w = (Raised k e, w') /\
    env w' = env' /\
    big_o_calls w' = big_o_calls w ++ [sweep_call test].
Proof.
  unfold sweep, test_algorithm, sweep_call. intros ->.
  destruct (is_exception k); eexists; split; try reflexivity; cbn; auto.
Qed.

Lemma test_algorithm_returns (test : AlgorithmTest F G) (w : World E)
    best others env' :
  sweep big_o test (env w) = (Returned (best, others), env') ->
  exists w',
    test_algorithm str big_o test w
    = (Returned (results_dict test (profile str best others)), w') /\
    env w' = env' /\
    big_o_calls w' = big_o_calls w ++ [sweep_call test].
Proof.
  unfold sweep, test_algorithm, sweep_call. intros ->.
  eexists. split; [reflexivity|].
  match goal with
  | |- env (log_others str others ?w0) = _ /\ _ =>
      destruct (log_others_keeps others w0) as [-> ->]
  end.
  cbn. auto.
Qed.

(** Each execution of [test_algorithm] makes one call of [big_o], with
    the arguments of [sweep_call]. *)
Lemma test_algorithm_calls (test : AlgorithmTest F G) (w : World E) :
  big_o_calls (snd (test_algorithm str big_o test w))
  = big_o_calls w ++ [sweep_call test].
Proof.
  destruct (sweep big_o test (env w)) as [[[best others]|k e] env'] eqn:Hs.
  - destruct (test_algorithm_returns test w best others env' Hs)
      as (w' & -> & _ & Hc). exact Hc.
  - destruct (test_algorithm_raises test w k e env' Hs)
      as (w' & -> & _ & Hc). exact Hc.
Qed.


Section Undisturbed.

(** A [wait_for] whose deadline does not interfere with the work. *)
Variable wait_for :
  (World E -> Outcome PyVal * World E) -> Q -> World E ->
  Outcome PyVal * World E.
Hypothesis deadline_not_reached : forall body t w, wait_for body t w = body w.

Lemma attempt_is_test_algorithm (test : AlgorithmTest F G) (n : option Z)
    (w : World E) :
  attempt wait_for (runner_of str big_o test n) w
  = test_algorithm str big_o test w.
Proof.
  unfold attempt, runner_of, lambda_test_algorithm. cbn [Logs.test Logs.call].
  apply deadline_not_reached.
Qed.

(** Every time the runner starts the work, one whole sweep is requested. *)
Lemma run_sweeps (test : AlgorithmTest F G) (n : option Z)
    (st : RunState (World E)) res st' :
  run wait_for (runner_of str big_o test n) st = (res, st') ->
  exists c,
    invocations st' = (invocations st + c)%nat /\
    big_o_calls (world st')
    = big_o_calls (world st) ++ repeat (sweep_call test) c.
Proof.
  unfold run. destruct n as [n|]; cbn [Logs.n_repeats runner_of].
  - apply run_loop_trace. intros w.
    rewrite attempt_is_test_algorithm. apply test_algorithm_calls.
  - intros H. inversion H; subst. exists 0%nat.
    cbn. now rewrite Nat.add_0_r, app_nil_r.
Qed.

End Undisturbed.

End Profiler.

End RuntimeFacts.

(* ================================================================== *)
(** ** Properties of the profiler under the runner *)

Module ProfilerClaims.
Import Logs PyFacts LogsFacts Runtime RuntimeFacts.

(** C3, as the code has it: the parameters have the stated values
    ([min_n=100], [max_n=10000], [n_measures=10], [n_timings=5], retry
    count 3, deadline 10), but only the retry count can be chosen by the
    caller, through the [n_repeats] argument of [TestResults]; the four
    sweep parameters are literals of the one call of [big_o] and the
    deadline is a literal of [run]. *)
Theorem configuration_as_coded (F G Class E W : Type) (str : Class -> string)
    (big_o : F -> G -> Z -> Z -> Z -> Z -> Z -> E ->
             Outcome (Class * list (Class * Q)) * E) :
  (forall (test : AlgorithmTest F G) (w : World E),
      big_o_calls (snd (test_algorithm str big_o test w))
      = big_o_calls w ++ [mkCall 100 10000 10 (n_repeats test) 5]) /\
  (forall (c : Callable W) (name : string),
      __name__ c = Some name ->
      init_default c = inr (mkTestResults c name (Some 3)) /\
      forall n, __init__ c n = inr (mkTestResults c name n)) /\
  (forall (wf wf' : (W -> Outcome PyVal * W) -> Q -> W -> Outcome PyVal * W)
          (self : TestResults W) (st : RunState W),
      (forall body w, wf body (10 # 1) w = wf' body (10 # 1) w) ->
      run wf self st = run wf' self st).
Proof.
  split; [|split].
  - intros test w. apply test_algorithm_calls.
  - intros c name Hname. unfold init_default, __init__. rewrite Hname. auto.
  - intros wf wf' self st Hext. unfold run.
    destruct (Logs.n_repeats self) as [n|]; [|reflexivity].
    apply run_loop_ext. exact Hext.
Qed.

Lemma configuration_as_coded_witness :
  init_default (Sim.scripted Sim.always_ok)
  = inr (mkTestResults (Sim.scripted Sim.always_ok) "work" (Some 3)) /\
  forall n, __init__ (Sim.scripted Sim.always_ok) n
            = inr (mkTestResults (Sim.scripted Sim.always_ok) "work" n).
Proof.
  refine (proj1 (proj2 (configuration_as_coded unit unit Sim.Class nat
                          Sim.SimWorld Sim.str (Sim.big_o Sim.fits_linear)))
                (Sim.scripted Sim.always_ok) "work" _).
  reflexivity.
Defined.

(** C3, the claim refuted: no [AlgorithmTest] a caller can supply makes
    the sweep start at another minimum size than 100 (here 200). *)
Lemma min_size_is_not_overridable :
  ~ exists (test : AlgorithmTest unit unit) (c : BigOCall),
      big_o_calls
        (snd (test_algorithm Sim.str (Sim.big_o Sim.fits_linear) test Sim.world0))
      = [c] /\
      min_n c = 200.
Proof.
  intros (test & c & Hc & Hmin). cbn in Hc. inversion Hc; subst.
  cbn in Hmin. discriminate.
Qed.

(** C7, as the code has it: the result of a profiling run repeats what
    [big_o] returned: [best_fit] is the string of the class [big_o]
    designated, and [other_fits] holds the fits of [big_o] under their
    strings, in the order [big_o] gave them when the strings are distinct;
    it is empty exactly when [big_o] returned no fit.  Nothing is sorted
    and [best_fit] is not tied to the first entry. *)
Theorem profile_follows_big_o (F G Class E : Type) (str : Class -> string)
    (big_o : F -> G -> Z -> Z -> Z -> Z -> Z -> E ->
             Outcome (Class * list (Class * Q)) * E)
    (test : AlgorithmTest F G) (w : World E)
    (best : Class) (others : list (Class * Q)) (env' : E) :
  sweep big_o test (env w) = (Returned (best, others), env') ->
  fst (test_algorithm str big_o test w)
  = Returned (results_dict test (profile str best others)) /\
  best_fit (profile str best others) = str best /\
  (ranked_fits (profile str best others) = [] <-> others = []) /\
  (NoDup (map (fun cr => str (fst cr)) others) ->
   ranked_fits (profile str best others)
   = map (fun cr => (str (fst cr), snd cr)) others).
Proof.
  intros Hs.
  destruct (test_algorithm_returns F G Class str E big_o test w best others
              env' Hs) as (w' & Hta & _).
  rewrite Hta. split; [reflexivity|]. split; [reflexivity|]. split.
  - apply other_fits_nil.
  - intros Hnd. cbn [profile ranked_fits]. unfold other_fits.
    rewrite fold_dict_set_distinct by exact Hnd. reflexivity.
Qed.

Lemma profile_follows_big_o_witness :
  fst (test_algorithm Sim.str (Sim.big_o Sim.fits_linear) Sim.binary_search
                      Sim.world0)
  = Returned (results_dict Sim.binary_search
                (profile Sim.str Sim.Linear (snd Sim.linear_fits))).
Proof.
  refine (proj1 (profile_follows_big_o unit unit Sim.Class nat Sim.str
                   (Sim.big_o Sim.fits_linear) Sim.binary_search Sim.world0
                   Sim.Linear (snd Sim.linear_fits) 1%nat _)).
  reflexivity.
Defined.

(** C7, the claim refuted: for fits returned in the order constant,
    linear, quadratic with the linear one best, the produced result is
    not in ascending order of residual and its first entry is not
    [best_fit]. *)
Lemma fits_are_not_ranked :
  exists p w',
    test_algorithm Sim.str (Sim.big_o Sim.fits_linear) Sim.binary_search
                   Sim.world0
    = (Returned (results_dict Sim.binary_search p), w') /\
    ranked_fits p <> [] /\
    ascending (ranked_fits p) = false /\
    hd_error (map fst (ranked_fits p)) <> Some (best_fit p).
Proof.
  exists (mkProfile "Linear"
            [("Constant", 9 # 1); ("Linear", 1 # 1); ("Quadratic", 4 # 1)]).
  eexists. split; [vm_compute; reflexivity|].
  cbn. repeat split; discriminate.
Qed.

(** C10, as the code has it: the name in the attempt records (success,
    timeout, failure) and in the errors of [TestResults] is the
    [__name__] of the wrapped callable, read when the runner is built.  A
    callable without [__name__] makes the constructor raise
    [AttributeError], so no attempt is made.  Otherwise every record [run]
    writes is a per-subtest detail line or starts with that name (every
    ERROR record does), and every error [run] raises itself carries that
    name.  For the [lambda] that [main] wraps around [test_algorithm] the
    name is "<lambda>", whatever the name of the [AlgorithmTest].  The
    detail lines carry keys of the result instead: for the result of a
    profiling run, the "Subtest" line carries the name of the
    [AlgorithmTest]. *)
Theorem errors_name_the_callable (F G Class E W : Type) (str : Class -> string)
    (big_o : F -> G -> Z -> Z -> Z -> Z -> Z -> E ->
             Outcome (Class * list (Class * Q)) * E)
    (wait_for : (W -> Outcome PyVal * W) -> Q -> W -> Outcome PyVal * W)
    (c : Callable W) (n : Z) :
  (__name__ c = None ->
   exists e, __init__ c (Some n) = inl e /\ exc_class e = "AttributeError") /\
  (forall name, __name__ c = Some name ->
     exists self,
       __init__ c (Some n) = inr self /\
       test_name self = name /\
       forall st res st',
         run wait_for self st = (res, st') ->
         (exists d,
             records st' = records st ++ d /\
             Forall (fun r => detail_record r \/ names_test name r) d /\
             Forall (fun r => level r = ERROR -> names_test name r) d) /\
         (forall e, res = RunRaised e ->
                    exists f rest, exc_args e = VStr f :: VStr name :: rest)) /\
  (forall test : AlgorithmTest F G,
     __init__ (lambda_test_algorithm str big_o test) (Some n)
     = inr (runner_of str big_o test (Some n)) /\
     test_name (runner_of str big_o test (Some n)) = "<lambda>") /\
  (forall (self : TestResults W) (test : AlgorithmTest F G) (p : ProfileResult)
          (a : Z) (lg : list LogRecord),
     fst (_log_test_results self (results_dict test p) a lg)
     = inr (results_dict test p) /\
     In (mkLog INFO "Subtest: %s" [LVal (VStr (name test))])
        (snd (_log_test_results self (results_dict test p) a lg))).
Proof.
  split; [|split; [|split]].
  - intros Hnone. unfold __init__. rewrite Hnone.
    eexists. split; reflexivity.
  - intros name Hname. unfold __init__. rewrite Hname.
    eexists. split; [reflexivity|]. split; [reflexivity|].
    intros st res st' Hrun. unfold run in Hrun. cbn [Logs.n_repeats] in Hrun.
    apply run_loop_effect in Hrun. cbn [test_name] in Hrun.
    destruct Hrun as (_ & (d & Hd & Hall) & Herr). split.
    + exists d. split; [exact Hd|]. split; [exact Hall|].
      eapply Forall_impl; [|exact Hall]. cbn.
      intros r [[Hinfo _] | Hnames] Hlevel; [congruence | exact Hnames].
    + intros e He. apply Herr in He. tauto.
  - intros test. split; reflexivity.
  - intros self test p a lg. split.
    + apply _log_test_results_loggable. reflexivity.
    + unfold _log_test_results, results_dict.
      cbn [log_subtests log_fields capitalize fst snd].
      apply in_or_app. left. apply in_or_app. left.
      apply in_or_app. right. now left.
Qed.

Lemma errors_name_the_callable_witness :
  (exists e,
      __init__ Sim.partial_object (Some 3) = inl e /\
      exc_class e = "AttributeError") /\
  (exists d,
      records
        (snd (run Sim.wait_for (Sim.runner Sim.always_failing (Some 3))
                  (start Sim.sim0)))
      = [] ++ d /\
      Forall (fun r => detail_record r \/ names_test "work" r) d /\
      Forall (fun r => level r = ERROR -> names_test "work" r) d).
Proof.
  split.
  - refine (proj1 (errors_name_the_callable unit unit Sim.Class nat Sim.SimWorld
                     Sim.str (Sim.big_o Sim.fits_linear) Sim.wait_for
                     Sim.partial_object 3) _).
    reflexivity.
  - destruct (proj1 (proj2 (errors_name_the_callable unit unit Sim.Class nat
                              Sim.SimWorld Sim.str (Sim.big_o Sim.fits_linear)
                              Sim.wait_for (Sim.scripted Sim.always_failing) 3))
                    "work" eq_refl) as (self & Hinit & _ & Hrun).
    cbn in Hinit. inversion Hinit; subst self.
    exact (proj1 (Hrun (start Sim.sim0) _ _ (surjective_pairing _))).
Defined.

(** C10, the claim refuted: a successful profiling run under the runner
    that [main] builds writes the record "Subtest: %s" with the name of
    the [AlgorithmTest] ("Binary Search"), not with the [__name__] of the
    callable ("<lambda>"): not every log line carries the [__name__]. *)
Lemma subtest_line_names_the_algorithm_test :
  test_name (runner_of Sim.str (Sim.big_o Sim.fits_linear) Sim.binary_search
                       (Some 3))
  = "<lambda>" /\
  In (mkLog INFO "Subtest: %s" [LVal (VStr "Binary Search")])
     (records
        (snd (run Sim.no_deadline
                  (runner_of Sim.str (Sim.big_o Sim.fits_linear)
                             Sim.binary_search (Some 3))
                  (start Sim.world0)))) /\
  ~ Forall (names_test "<lambda>")
      (records
         (snd (run Sim.no_deadline
                   (runner_of Sim.str (Sim.big_o Sim.fits_linear)
                              Sim.binary_search (Some 3))
                   (start Sim.world0)))).
Proof.
  assert (Hin : In (mkLog INFO "Subtest: %s" [LVal (VStr "Binary Search")])
                   (records
                      (snd (run Sim.no_deadline
                                (runner_of Sim.str (Sim.big_o Sim.fits_linear)
                                           Sim.binary_search (Some 3))
                                (start Sim.world0))))).
  { vm_compute. right. left. reflexivity. }
  split; [reflexivity|]. split; [exact Hin|].
  intros Hall. rewrite Forall_forall in Hall.
  destruct (Hall _ Hin) as (rest & Hargs). cbn in Hargs. discriminate.
Qed.

End ProfilerClaims.

(* ================================================================== *)
(** ** More about the runner *)

Module RunnerExtras.
Import Logs LogsRead PyFacts LogsFacts.

Lemma log_fields_outcome (items : list (PyVal * PyVal)) :
  forall lg,
    match fst (log_fields items lg) with
    | None => str_keys items = true
    | Some e => exc_class e = "AttributeError" /\ str_keys items = false
    end.
Proof.
  induction items as [|[key value] rest IH]; intros lg; cbn.
  - reflexivity.
  - destruct key; cbn; auto. apply IH.
Qed.

Lemma log_subtests_outcome (items : list (PyVal * PyVal)) :
  forall lg,
    match fst (log_subtests items lg) with
    | None => loggable (VDict items) = true
    | Some e => exc_class e = "AttributeError" /\ loggable (VDict items) = false
    end.
Proof.
  induction items as [|[subtest result] rest IH]; intros lg; cbn.
  - reflexivity.
  - destruct result as [| | | |fields]; cbn; auto.
    pose proof (log_fields_outcome fields
      (lg ++ [mkLog INFO "Subtest: %s" [LVal subtest]])) as Hf.
    destruct (log_fields fields _) as [[e|] lg2]; cbn in Hf |- *.
    + destruct Hf as [Hc Hk]. rewrite Hk. cbn. auto.
    + rewrite Hf. cbn. apply IH.
Qed.

(** X1: [_log_test_results] either returns [test_results] itself or raises
    [AttributeError]; it raises exactly when [test_results] is a dict one
    of whose values is not a dict, or is a dict with a key that is not a
    string. *)
Theorem log_test_results_outcome (W : Type) (self : TestResults W)
    (v : PyVal) (a : Z) (lg : list LogRecord) :
  match fst (_log_test_results self v a lg) with
  | inr v' => v' = v /\ loggable v = true
  | inl e => exc_class e = "AttributeError" /\ loggable v = false
  end.
Proof.
  unfold _log_test_results.
  destruct v as [| | | |items]; cbn; auto.
  pose proof (log_subtests_outcome items
    (lg ++ [mkLog INFO "Test %s (Attempt %s) - Successful"
                  [LVal (VStr (test_name self)); LVal (VInt a)]])) as Hs.
  destruct (log_subtests items _) as [[e|] lg2]; cbn in Hs |- *; auto.
Qed.

Section Runner.

Variable W : Type.
Variable wait_for : (W -> Outcome PyVal * W) -> Q -> W -> Outcome PyVal * W.
Variable self : TestResults W.

Lemma run_loop_starts (n : Z) :
  forall (attempts : list Z) (st : RunState W) res st',
    run_loop wait_for self n attempts st = (res, st') ->
    (invocations st <= invocations st')%nat /\
    (attempts <> [] -> (S (invocations st) <= invocations st')%nat).
Proof.
  induction attempts as [|a rest IH]; intros st res st' H; cbn [run_loop] in H.
  - inversion H; subst. split; [lia | congruence].
  - destruct (try_body wait_for self a st) as [o st1] eqn:Ht.
    apply try_body_effect in Ht. destruct Ht as [Hi _].
    assert (Hnext : forall r,
               run_loop wait_for self n rest (emit r st1) = (res, st') ->
               (S (invocations st) <= invocations st')%nat).
    { intros r Hr. apply IH in Hr. destruct Hr as [Hle _].
      unfold emit in Hle; cbn [invocations] in Hle. lia. }
    assert (Hgoal : (S (invocations st) <= invocations st')%nat).
    { destruct o as [v|[| |] e].
      - inversion H; subst. lia.
      - destruct (a =? n); [inversion H; subst; cbn; lia | eauto].
      - destruct (a =? n); [inversion H; subst; cbn; lia | eauto].
      - inversion H; subst. lia. }
    split; [lia | intros _; exact Hgoal].
Qed.

(** An exception that escapes [run] was raised by an attempt, outside
    the class [Exception]. *)
Lemma run_loop_escaped (n : Z) :
  forall (attempts : list Z) (st : RunState W) e st',
    run_loop wait_for self n attempts st = (RunEscaped e, st') ->
    exists w w', attempt wait_for self w = (Raised NonException e, w').
Proof.
  induction attempts as [|a rest IH]; intros st e st' H; cbn [run_loop] in H.
  - discriminate.
  - unfold try_body in H. fold (attempt wait_for self (world st)) in H.
    destruct (attempt wait_for self (world st)) as [[r|k e0] w1] eqn:Ha.
    + cbn [records invocations] in H.
      destruct (_log_test_results self r a (records st)) as [[x|x] lg].
      * destruct (a =? n); [discriminate | eauto].
      * discriminate.
    + destruct k.
      * destruct (a =? n); [discriminate | eauto].
      * destruct (a =? n); [discriminate | eauto].
      * inversion H; subst. eauto.
Qed.

(** When every attempt fails, each of the attempts [lo .. n] is started
    and leaves one ERROR record with its number and the total. *)
Lemma run_loop_all_fail (n : Z) :
  (forall w, exists k e w',
      attempt wait_for self w = (Raised k e, w') /\ is_exception k = true) ->
  forall (j : nat) (lo : Z) (st : RunState W),
    lo + Z.of_nat j = n + 1 ->
    (1 <= j)%nat ->
    exists e lg w',
      run_loop wait_for self n (range lo (n + 1)) st
      = (RunRaised e, mkState w' (records st ++ lg) (invocations st + j)) /\
      map attempt_of_total lg = map (fun a => Some (a, n)) (range lo (n + 1)) /\
      Forall (fun r => level r = ERROR) lg.
Proof.
  intros Hall. induction j as [|j IH]; intros lo st Hlo Hj; [lia|].
  rewrite (range_cons lo (n + 1)) by lia. cbn [run_loop].
  destruct (Hall (world st)) as (k & e0 & w1 & Ha & Hk).
  rewrite (try_body_raised _ _ _ _ _ _ _ _ Ha).
  destruct (Z.eqb_spec lo n) as [-> | Hne].
  - assert (j = 0%nat) by lia. subst j.
    rewrite (range_nil (n + 1) (n + 1)) by lia.
    destruct (is_exception_cases k Hk) as [-> | ->];
      unfold emit; cbn [world records invocations];
      do 3 eexists;
      (split; [replace (invocations st + 1)%nat with (S (invocations st)) by lia;
               reflexivity|]);
      split; try reflexivity; repeat constructor.
  - destruct (is_exception_cases k Hk) as [-> | ->].
    + destruct (IH (lo + 1)
                   (emit (timeout_record self lo n)
                      (mkState w1 (records st) (S (invocations st)))))
        as (e & lg & w' & Heq & Hmap & Hlev); [lia | lia |].
      unfold timeout_record in *. rewrite Heq.
      unfold emit; cbn [world records invocations].
      exists e, (timeout_record self lo n :: lg), w'.
      unfold timeout_record. rewrite <- app_assoc. cbn [app].
      replace (S (invocations st) + j)%nat with (invocations st + S j)%nat by lia.
      split; [reflexivity|]. split.
      * cbn [map]. rewrite Hmap. reflexivity.
      * constructor; [reflexivity | exact Hlev].
    + destruct (IH (lo + 1)
                   (emit (failure_record self lo n e0)
                      (mkState w1 (records st) (S (invocations st)))))
        as (e & lg & w' & Heq & Hmap & Hlev); [lia | lia |].
      unfold failure_record in *. rewrite Heq.
      unfold emit; cbn [world records invocations].
      exists e, (failure_record self lo n e0 :: lg), w'.
      unfold failure_record. rewrite <- app_assoc. cbn [app].
      replace (S (invocations st) + j)%nat with (invocations st + S j)%nat by lia.
      split; [reflexivity|]. split.
      * cbn [map]. rewrite Hmap. reflexivity.
      * constructor; [reflexivity | exact Hlev].
Qed.

End Runner.

End RunnerExtras.

(* ================================================================== *)
(** ** Properties of the runner beyond the specification *)

Module RunnerProperties.
Import Logs LogsRead PyFacts LogsFacts RunnerExtras.

(** X2: whatever the work does, [run] with an integer [n_repeats = n]
    starts it at most [n] times (not at all when [n <= 0]) and at least
    once when [n >= 1]; and an exception raised by [run] itself is a
    [TestError] or a [TestTimeoutError]. *)
Theorem run_starts_work_at_most_n_times (W : Type)
    (wait_for : (W -> Outcome PyVal * W) -> Q -> W -> Outcome PyVal * W)
    (self : TestResults W) (n : Z) (st : RunState W)
    (res : RunResult) (st' : RunState W) :
  n_repeats self = Some n ->
  run wait_for self st = (res, st') ->
  (invocations st' <= invocations st + Z.to_nat n)%nat /\
  (1 <= n -> (invocations st + 1 <= invocations st')%nat) /\
  (forall e, res = RunRaised e ->
             exc_class e = "TestError" \/ exc_class e = "TestTimeoutError").
Proof.
  intros Hn Hrun. unfold run in Hrun. rewrite Hn in Hrun.
  pose proof (run_loop_effect W wait_for self n _ _ _ _ Hrun)
    as (Hle & _ & Herr).
  pose proof (run_loop_starts W wait_for self n _ _ _ _ Hrun) as (_ & Hge).
  rewrite range_length in Hle.
  replace (n + 1 - 1) with n in Hle by lia.
  split; [exact Hle|]. split.
  - intros Hpos.
    assert (Hne : range 1 (n + 1) <> []).
    { rewrite range_cons by lia. discriminate. }
    apply Hge in Hne. lia.
  - intros e He. apply Herr in He. tauto.
Qed.

Lemma run_starts_work_at_most_n_times_witness :
  Nat.le
    (invocations
       (snd (run Sim.wait_for (Sim.runner Sim.ok_on_second (Some 3))
                 (start Sim.sim0))))
    (0 + Z.to_nat 3).
Proof.
  refine (proj1 (run_starts_work_at_most_n_times Sim.SimWorld Sim.wait_for
                   (Sim.runner Sim.ok_on_second (Some 3)) 3 (start Sim.sim0)
                   (fst (run Sim.wait_for (Sim.runner Sim.ok_on_second (Some 3))
                             (start Sim.sim0)))
                   (snd (run Sim.wait_for (Sim.runner Sim.ok_on_second (Some 3))
                             (start Sim.sim0))) _ _)).
  - reflexivity.
  - vm_compute. reflexivity.
Defined.

(** X3: when every attempt fails with a timeout or another [Exception]
    and [n_repeats = n >= 1], [run] starts the work exactly [n] times and
    writes exactly one ERROR record per attempt, carrying the attempt
    numbers [1, ..., n] in order, each with the total [n], before it
    raises. *)
Theorem run_logs_every_failed_attempt (W : Type)
    (wait_for : (W -> Outcome PyVal * W) -> Q -> W -> Outcome PyVal * W)
    (self : TestResults W) (n : Z) (st : RunState W) :
  n_repeats self = Some n ->
  1 <= n ->
  (forall w, exists k e w',
      attempt wait_for self w = (Raised k e, w') /\ is_exception k = true) ->
  exists e lg,
    fst (run wait_for self st) = RunRaised e /\
    invocations (snd (run wait_for self st))
    = (invocations st + Z.to_nat n)%nat /\
    records (snd (run wait_for self st)) = records st ++ lg /\
    map attempt_of_total lg = map (fun a => Some (a, n)) (range 1 (n + 1)) /\
    Forall (fun r => level r = ERROR) lg.
Proof.
  intros Hn Hpos Hall. unfold run. rewrite Hn.
  destruct (run_loop_all_fail W wait_for self n Hall (Z.to_nat n) 1 st)
    as (e & lg & w' & Hrun & Hmap & Hlev); [lia | lia |].
  rewrite Hrun. exists e, lg. cbn. auto.
Qed.

Lemma run_logs_every_failed_attempt_witness :
  exists e lg,
    fst (run Sim.wait_for (Sim.runner Sim.always_slow (Some 3)) (start Sim.sim0))
    = RunRaised e /\
    invocations
      (snd (run Sim.wait_for (Sim.runner Sim.always_slow (Some 3))
                (start Sim.sim0)))
    = (0 + Z.to_nat 3)%nat /\
    records
      (snd (run Sim.wait_for (Sim.runner Sim.always_slow (Some 3))
                (start Sim.sim0)))
    = [] ++ lg /\
    map attempt_of_total lg = map (fun a => Some (a, 3)) (range 1 (3 + 1)) /\
    Forall (fun r => level r = ERROR) lg.
Proof.
  apply (run_logs_every_failed_attempt Sim.SimWorld Sim.wait_for
           (Sim.runner Sim.always_slow (Some 3)) 3 (start Sim.sim0)).
  - reflexivity.
  - lia.
  - intros w. exists AsyncioTimeout, (mkExc "TimeoutError" []).
    eexists. split; reflexivity.
Defined.

(** X4: when the work fails [j < n_repeats] times with a caught exception
    and then returns a result that [_log_test_results] can log, [run]
    returns that result after exactly [j + 1] starts of the work, in the
    environment the successful attempt left, with [j] ERROR records
    followed by the records of the success. *)
Theorem run_stops_at_first_success (W : Type)
    (wait_for : (W -> Outcome PyVal * W) -> Q -> W -> Outcome PyVal * W)
    (self : TestResults W) (n : Z) (j : nat) (st : RunState W) (w1 w2 : W)
    (r : PyVal) :
  n_repeats self = Some n ->
  Z.of_nat j < n ->
  failures (attempt wait_for self) j (world st) = Some w1 ->
  attempt wait_for self w1 = (Returned r, w2) ->
  loggable r = true ->
  exists errors details,
    run wait_for self st
    = (RunReturned r,
       mkState w2
         (records st ++ errors ++ success_record self (Z.of_nat j + 1) :: details)
         (invocations st + j + 1)) /\
    List.length errors = j /\
    Forall (fun r => level r = ERROR) errors /\
    Forall detail_record details.
Proof.
  intros Hn Hj Hf Ha Hl. unfold run. rewrite Hn.
  destruct (run_loop_skip W wait_for self n j 1 st w1)
    as (lg & Heq & Hlen & Hall); [lia | exact Hf |].
  rewrite Heq. rewrite (range_cons (1 + Z.of_nat j) (n + 1)) by lia.
  cbn [run_loop].
  destruct (try_body_returned W wait_for self (1 + Z.of_nat j)
              (mkState w1 (records st ++ lg) (invocations st + j)) r w2)
    as (d & Hd & Ht); [exact Ha | exact Hl |].
  rewrite Ht. cbn [records invocations].
  exists lg, d. rewrite <- app_assoc.
  replace (S (invocations st + j)) with (invocations st + j + 1)%nat by lia.
  replace (1 + Z.of_nat j) with (Z.of_nat j + 1) by lia.
  split; [reflexivity|]. split; [exact Hlen|]. split; [|exact Hd].
  eapply Forall_impl; [|exact Hall]. cbn. tauto.
Qed.

Lemma run_stops_at_first_success_witness :
  exists errors details,
    run Sim.wait_for (Sim.runner Sim.ok_on_third (Some 3)) (start Sim.sim0)
    = (RunReturned Sim.example_results,
       mkState (Sim.mkSim 3 (1 # 1))
         ([] ++ errors
             ++ success_record (Sim.runner Sim.ok_on_third (Some 3))
                               (Z.of_nat 2 + 1) :: details)
         (0 + 2 + 1)) /\
    List.length errors = 2%nat /\
    Forall (fun r => level r = ERROR) errors /\
    Forall detail_record details.
Proof.
  apply (run_stops_at_first_success Sim.SimWorld Sim.wait_for
           (Sim.runner Sim.ok_on_third (Some 3)) 3 2 (start Sim.sim0)
           (Sim.mkSim 2 (1 # 1)) (Sim.mkSim 3 (1 # 1)) Sim.example_results);
    reflexivity.
Defined.

(** X5: an exception outside the class [Exception] (such as
    [KeyboardInterrupt]) raised by an attempt is not caught: after [j]
    caught failures, [run] lets it out at once, without a record for that
    attempt and without another start of the work, even when attempts
    remain. *)
Theorem run_lets_non_exception_out (W : Type)
    (wait_for : (W -> Outcome PyVal * W) -> Q -> W -> Outcome PyVal * W)
    (self : TestResults W) (n : Z) (j : nat) (st : RunState W) (w1 w2 : W)
    (e : PyExc) :
  n_repeats self = Some n ->
  Z.of_nat j < n ->
  failures (attempt wait_for self) j (world st) = Some w1 ->
  attempt wait_for self w1 = (Raised NonException e, w2) ->
  exists errors,
    run wait_for self st
    = (RunEscaped e,
       mkState w2 (records st ++ errors) (invocations st + j + 1)) /\
    List.length errors = j.
Proof.
  intros Hn Hj Hf Ha. unfold run. rewrite Hn.
  destruct (run_loop_skip W wait_for self n j 1 st w1)
    as (lg & Heq & Hlen & _); [lia | exact Hf |].
  rewrite Heq. rewrite (range_cons (1 + Z.of_nat j) (n + 1)) by lia.
  cbn [run_loop].
  rewrite (try_body_raised W wait_for self (1 + Z.of_nat j)
             (mkState w1 (records st ++ lg) (invocations st + j))
             NonException e w2 Ha).
  cbn [records invocations].
  replace (S (invocations st + j)) with (invocations st + j + 1)%nat by lia.
  exists lg. split; [reflexivity | exact Hlen].
Qed.

Lemma run_lets_non_exception_out_witness :
  exists errors,
    run Sim.wait_for (Sim.runner Scenarios.interrupted_on_second (Some 3))
        (start Sim.sim0)
    = (RunEscaped Scenarios.KeyboardInterrupt,
       mkState (Sim.mkSim 2 (1 # 1)) ([] ++ errors) (0 + 1 + 1)) /\
    List.length errors = 1%nat.
Proof.
  apply (run_lets_non_exception_out Sim.SimWorld Sim.wait_for
           (Sim.runner Scenarios.interrupted_on_second (Some 3)) 3 1
           (start Sim.sim0) (Sim.mkSim 1 (1 # 1)) (Sim.mkSim 2 (1 # 1))
           Scenarios.KeyboardInterrupt);
    reflexivity.
Defined.

End RunnerProperties.

(* ================================================================== *)
(** ** The driver of [logs.py] *)

Module LogsMainProperties.
Import Logs PyFacts LogsFacts RunnerExtras LogsMain.

(** X6: [main] of [logs.py] starts [example_test] at most three times and
    ends in one of three ways: it prints the results, or it prints
    ["Test failed: %s"] with a [TestError] or [TestTimeoutError], or it
    lets an exception out; the last happens only for an exception outside
    the class [Exception] that an attempt raised, never for an error that
    [run] raises itself. *)
Theorem main_handles_every_error_of_run (W : Type)
    (wait_for : (W -> Outcome PyVal * W) -> Q -> W -> Outcome PyVal * W)
    (st : RunState W) (r : option PyExc) (out : list (list LogArg))
    (st' : RunState W) :
  main wait_for st = (r, out, st') ->
  (invocations st' <= invocations st + 3)%nat /\
  match r with
  | None =>
      (exists results, out = [[LVal results]]) \/
      (exists e,
          out = [[LVal (VStr "Test failed: %s"); LExc e]] /\
          (exc_class e = "TestError" \/ exc_class e = "TestTimeoutError"))
  | Some e =>
      out = [] /\
      exists w w',
        wait_for (call example_test) timeout w = (Raised NonException e, w')
  end.
Proof.
  unfold main, init_default, default_n_repeats, __init__.
  cbn [__name__ example_test].
  fold (@example_test W).
  set (self := mkTestResults (@example_test W) "example_test" (Some 3)).
  unfold run. cbn [n_repeats self].
  destruct (run_loop wait_for self 3 (range 1 (3 + 1)) st) as [res st1] eqn:Hrun.
  pose proof (run_loop_effect W wait_for self 3 _ _ _ _ Hrun)
    as (Hle & _ & Herr).
  rewrite range_length in Hle.
  change (Z.to_nat (3 + 1 - 1)) with 3%nat in Hle.
  destruct res as [v|e|e].
  - intros H. inversion H; subst. split; [lia|]. left. eauto.
  - destruct (Herr e eq_refl) as [Hclass _].
    assert (Hh : handled e = true).
    { unfold handled. destruct Hclass as [-> | ->]; reflexivity. }
    rewrite Hh. intros H. inversion H; subst. split; [lia|]. right. eauto.
  - intros H. inversion H; subst. split; [lia|]. split; [reflexivity|].
    apply run_loop_escaped in Hrun. exact Hrun.
Qed.

Lemma main_handles_every_error_of_run_witness :
  (invocations (snd (main Sim.wait_for (start Sim.sim0))) <= 0 + 3)%nat /\
  ((exists results, [[LVal example_results]] = [[LVal results]]) \/
   (exists e,
       [[LVal example_results]] = [[LVal (VStr "Test failed: %s"); LExc e]] /\
       (exc_class e = "TestError" \/ exc_class e = "TestTimeoutError"))).
Proof.
  apply (main_handles_every_error_of_run Sim.SimWorld Sim.wait_for
           (start Sim.sim0) None [[LVal example_results]]
           (snd (main Sim.wait_for (start Sim.sim0)))).
  vm_compute. reflexivity.
Defined.

End LogsMainProperties.

(* ================================================================== *)
(** ** More about the profiling routine and its callers *)

Module ProfilerExtras.
Import Logs PyFacts LogsFacts Runtime RuntimeFacts Challenge.

(** *** [dict_set] keeps a dict a dict *)

Lemma dict_set_keys_in {V : Type} (k : string) (v : V) (d : list (string * V)) :
  forall x, In x (map fst (dict_set k v d)) <-> x = k \/ In x (map fst d).
Proof.
  induction d as [|[k' v'] d IH]; intros x; cbn.
  - intuition congruence.
  - destruct (String.eqb_spec k k') as [-> | Hne]; cbn.
    + intuition congruence.
    + rewrite IH. intuition congruence.
Qed.

Lemma dict_set_nodup {V : Type} (k : string) (v : V) (d : list (string * V)) :
  NoDup (map fst d) -> NoDup (map fst (dict_set k v d)).
Proof.
  induction d as [|[k' v'] d IH]; intros Hnd; cbn.
  - constructor; [intros [] | constructor].
  - inversion Hnd as [|? ? Hnin Hnd']; subst.
    destruct (String.eqb_spec k k') as [-> | Hne]; cbn.
    + constructor; assumption.
    + constructor; [|auto].
      rewrite dict_set_keys_in. intros [Heq | Hin]; [congruence | contradiction].
Qed.

Lemma dict_set_in_same {V : Type} (k : string) (v : V) (d : list (string * V)) :
  In (k, v) (dict_set k v d).
Proof.
  induction d as [|[k' v'] d IH]; cbn.
  - now left.
  - destruct (String.eqb_spec k k') as [-> | Hne]; cbn; auto.
Qed.

Lemma dict_set_in_other {V : Type} (k : string) (v : V) (d : list (string * V))
    (x : string) (y : V) :
  x <> k -> In (x, y) d -> In (x, y) (dict_set k v d).
Proof.
  intros Hne. induction d as [|[k' v'] d IH]; cbn; intros Hin.
  - contradiction.
  - destruct (String.eqb_spec k k') as [-> | Hne']; cbn.
    + destruct Hin as [Heq | Hin]; [inversion Heq; congruence | now right].
    + destruct Hin as [Heq | Hin]; [now left | right; auto].
Qed.

Lemma dict_set_length {V : Type} (k : string) (v : V) (d : list (string * V)) :
  (List.length (dict_set k v d) <= S (List.length d))%nat.
Proof.
  induction d as [|[k' v'] d IH]; cbn.
  - lia.
  - destruct (String.eqb k k'); cbn; lia.
Qed.

Section Fits.

Variable Class : Type.
Variable str : Class -> string.

Local Abbreviation step :=
  (fun (d : list (string * Q)) (cr : Class * Q) =>
     dict_set (str (fst cr)) (snd cr) d).

Lemma fold_nodup (others : list (Class * Q)) :
  forall acc, NoDup (map fst acc) -> NoDup (map fst (fold_left step others acc)).
Proof.
  induction others as [|cr others IH]; intros acc Hnd; cbn.
  - exact Hnd.
  - apply IH. apply dict_set_nodup. exact Hnd.
Qed.

Lemma fold_keys_in (others : list (Class * Q)) :
  forall acc x,
    In x (map fst (fold_left step others acc))
    <-> In x (map fst acc) \/ In x (map (fun cr => str (fst cr)) others).
Proof.
  induction others as [|cr others IH]; intros acc x; cbn.
  - tauto.
  - rewrite IH. rewrite dict_set_keys_in.
    intuition congruence.
Qed.

Lemma fold_keeps (others : list (Class * Q)) :
  forall acc k v,
    In (k, v) acc ->
    ~ In k (map (fun cr => str (fst cr)) others) ->
    In (k, v) (fold_left step others acc).
Proof.
  induction others as [|cr others IH]; intros acc k v Hin Hnin; cbn.
  - exact Hin.
  - apply IH.
    + apply dict_set_in_other; [|exact Hin].
      intros ->. apply Hnin. now left.
    + intros H. apply Hnin. now right.
Qed.

Lemma fold_length (others : list (Class * Q)) :
  forall acc,
    (List.length (fold_left step others acc)
     <= List.length acc + List.length others)%nat.
Proof.
  induction others as [|cr others IH]; intros acc; cbn.
  - lia.
  - specialize (IH (step acc cr)).
    pose proof (dict_set_length (str (fst cr)) (snd cr) acc). cbn in IH.
    lia.
Qed.

End Fits.

(** *** Reading the results back *)

Lemma log_fits_app (items : list (PyVal * PyVal)) :
  forall lg,
    log_fits items lg
    = lg ++ map (fun kv => mkLog INFO "  %s: residual=%.2G"
                                 [LVal (fst kv); LVal (snd kv)]) items.
Proof.
  unfold log_fits.
  induction items as [|kv items IH]; intros lg; cbn.
  - now rewrite app_nil_r.
  - rewrite IH, <- app_assoc. reflexivity.
Qed.

Section Profiler.

Variable F : Type.
Variable G : Type.
Variable Class : Type.
Variable str : Class -> string.
Variable E : Type.
Variable big_o :
  F -> G -> Z -> Z -> Z -> Z -> Z -> E -> Outcome (Class * list (Class * Q)) * E.

(** The records [test_solutions] writes after a successful sweep. *)
Lemma report_results (test : AlgorithmTest F G) (p : ProfileResult)
    (lg : list LogRecord) :
  report test (results_dict test p) lg
  = (None,
     lg ++ [mkLog INFO "Performance test results for %s:" [LVal (VStr (name test))];
            mkLog INFO "Best fit complexity: %s" [LVal (VStr (best_fit p))];
            mkLog INFO "Other complexity fits:" []]
        ++ map (fun kr => mkLog INFO "  %s: residual=%.2G"
                                [LVal (VStr (fst kr)); LVal (VFloat (snd kr))])
               (ranked_fits p)).
Proof.
  unfold report, results_dict. cbn [getitem find fst snd].
  rewrite String.eqb_refl. cbn [getitem find fst snd String.eqb Ascii.eqb Bool.eqb items_of].
  rewrite log_fits_app, map_map. cbn [fst snd].
  rewrite <- !app_assoc. reflexivity.
Qed.

Lemma test_algorithm_outcome (test : AlgorithmTest F G) (w : World E) :
  fst (test_algorithm str big_o test w)
  = match fst (sweep big_o test (env w)) with
    | Returned (best, others) =>
        Returned (results_dict test (profile str best others))
    | Raised k e => Raised k e
    end.
Proof.
  destruct (sweep big_o test (env w)) as [[[best others]|k e] env'] eqn:Hs.
  - destruct (test_algorithm_returns F G Class str E big_o test w best others
                env' Hs) as (w' & -> & _). reflexivity.
  - destruct (test_algorithm_raises F G Class str E big_o test w k e env' Hs)
      as (w' & -> & _). reflexivity.
Qed.

Section Sound.

(** A [big_o] that raises nothing outside the class [Exception]. *)
Hypothesis only_exceptions :
  forall f g a b c d e env0 k exc env',
    big_o f g a b c d e env0 = (Raised k exc, env') -> is_exception k = true.

Lemma test_algorithm_only_exceptions (test : AlgorithmTest F G) (w : World E)
    k exc w' :
  test_algorithm str big_o test w = (Raised k exc, w') -> is_exception k = true.
Proof.
  intros H. pose proof (test_algorithm_outcome test w) as Ho.
  rewrite H in Ho. cbn [fst] in Ho. unfold sweep in Ho.
  destruct (big_o (func test) (generator test) 100 10000 10 (n_repeats test) 5
                  (env w)) as [[[best others]|k0 e0] env'] eqn:Hb;
    cbn [fst] in Ho; [discriminate|].
  inversion Ho; subst. eapply only_exceptions. exact Hb.
Qed.

(** One case of [test_solutions]: one sweep, and the loop goes on. *)
Lemma test_solutions_step_sweeps (test : AlgorithmTest F G) (w : World E)
    (lg : list LogRecord) :
  exists w' lg',
    test_solutions_step str big_o test w lg = (None, w', lg') /\
    big_o_calls w' = big_o_calls w ++ [sweep_call test].
Proof.
  unfold test_solutions_step.
  pose proof (test_algorithm_calls F G Class str E big_o test w) as Hc.
  destruct (test_algorithm str big_o test w) as [[results|k exc] w'] eqn:Ht;
    cbn [snd] in Hc.
  - destruct (report test results lg) as [[e|] lg']; eauto.
  - rewrite (test_algorithm_only_exceptions test w k exc w' Ht). eauto.
Qed.

Lemma test_solutions_loop_sweeps (tests : list (AlgorithmTest F G)) :
  forall (w : World E) (lg : list LogRecord),
    exists w' lg',
      test_solutions_loop str big_o tests w lg = (None, w', lg') /\
      big_o_calls w' = big_o_calls w ++ map sweep_call tests.
Proof.
  induction tests as [|test tests IH]; intros w lg; cbn [test_solutions_loop map].
  - exists w, lg. now rewrite app_nil_r.
  - destruct (test_solutions_step_sweeps test w lg) as (w1 & lg1 & -> & Hc1).
    destruct (IH w1 lg1) as (w2 & lg2 & -> & Hc2).
    exists w2, lg2. split; [reflexivity|].
    rewrite Hc2, Hc1, <- app_assoc. reflexivity.
Qed.

Section Undisturbed.

Variable wait_for :
  (World E -> Outcome PyVal * World E) -> Q -> World E ->
  Outcome PyVal * World E.
Hypothesis deadline_not_reached : forall body t w, wait_for body t w = body w.

(** One case of [main]: between one and three sweeps, and the loop goes
    on. *)
Lemma main_step_sweeps (test : AlgorithmTest F G) (w : World E)
    (lg : list LogRecord) :
  exists w' lg' c,
    main_step str big_o wait_for test w lg = (None, w', lg') /\
    (1 <= c <= 3)%nat /\
    big_o_calls w' = big_o_calls w ++ repeat (sweep_call test) c.
Proof.
  unfold main_step, __init__, default_n_repeats.
  cbn [__name__ lambda_test_algorithm].
  fold (lambda_test_algorithm str big_o test).
  fold (runner_of str big_o test (Some 3)).
  destruct (run wait_for (runner_of str big_o test (Some 3)) (mkState w lg 0))
    as [res st'] eqn:Hrun.
  destruct (run_sweeps F G Class str E big_o wait_for deadline_not_reached
              test (Some 3) _ _ _ Hrun) as (c & Hc & Hcalls).
  cbn [invocations world] in Hc, Hcalls.
  unfold run in Hrun. cbn [Logs.n_repeats runner_of] in Hrun.
  fold (runner_of str big_o test (Some 3)) in Hrun.
  pose proof (run_loop_effect _ wait_for _ 3 _ _ _ _ Hrun) as (Hle & _ & _).
  pose proof (RunnerExtras.run_loop_starts _ wait_for _ 3 _ _ _ _ Hrun)
    as (_ & Hge).
  rewrite range_length in Hle.
  change (Z.to_nat (3 + 1 - 1)) with 3%nat in Hle.
  assert (Hne : range 1 (3 + 1) <> []) by (vm_compute; discriminate).
  apply Hge in Hne. cbn [invocations] in Hle, Hne.
  assert (Hb : (1 <= c <= 3)%nat) by lia.
  destruct res as [v|e|e].
  - do 3 eexists. split; [reflexivity|]. split; [exact Hb | exact Hcalls].
  - do 3 eexists. split; [reflexivity|]. split; [exact Hb | exact Hcalls].
  - exfalso. apply RunnerExtras.run_loop_escaped in Hrun.
    destruct Hrun as (w0 & w1 & Ha).
    rewrite attempt_is_test_algorithm in Ha by exact deadline_not_reached.
    apply test_algorithm_only_exceptions in Ha. discriminate.
Qed.

Lemma main_loop_sweeps (tests : list (AlgorithmTest F G)) :
  forall (w : World E) (lg : list LogRecord),
    exists w' lg' counts,
      main_loop str big_o wait_for tests w lg = (None, w', lg') /\
      List.length counts = List.length tests /\
      Forall (fun c => (1 <= c <= 3)%nat) counts /\
      big_o_calls w'
      = big_o_calls w
        ++ flat_map (fun tc => repeat (sweep_call (fst tc)) (snd tc))
                    (combine tests counts).
Proof.
  induction tests as [|test tests IH]; intros w lg; cbn [main_loop].
  - exists w, lg, []. cbn. rewrite app_nil_r. auto.
  - destruct (main_step_sweeps test w lg) as (w1 & lg1 & c & -> & Hb & Hc1).
    destruct (IH w1 lg1) as (w2 & lg2 & counts & -> & Hlen & Hall & Hc2).
    exists w2, lg2, (c :: counts). split; [reflexivity|].
    split; [cbn; lia|]. split; [constructor; assumption|].
    cbn [combine flat_map fst snd]. rewrite Hc2, Hc1, <- app_assoc. reflexivity.
Qed.

End Undisturbed.

End Sound.

End Profiler.

End ProfilerExtras.

(* ================================================================== *)
(** ** Properties of the profiling routine and its callers beyond the
    specification *)

Module ProfilerProperties.
Import Logs PyFacts LogsFacts Runtime RuntimeFacts Challenge ProfilerExtras.

(** X7: the [other_fits] dictionary built by [test_algorithm] has one
    entry per distinct class name of [others] and no more entries than
    [others]; when a name comes several times, the residual of its last
    occurrence is the one kept. *)
Theorem other_fits_is_a_dict (Class : Type) (str : Class -> string)
    (others : list (Class * Q)) :
  NoDup (map fst (other_fits str others)) /\
  (forall k, In k (map fst (other_fits str others))
             <-> In k (map (fun cr => str (fst cr)) others)) /\
  (List.length (other_fits str others) <= List.length others)%nat /\
  (forall pre c r post,
      others = pre ++ (c, r) :: post ->
      ~ In (str c) (map (fun cr => str (fst cr)) post) ->
      In (str c, r) (other_fits str others)).
Proof.
  unfold other_fits. split; [|split; [|split]].
  - apply fold_nodup. constructor.
  - intros k. rewrite fold_keys_in. cbn. tauto.
  - pose proof (fold_length Class str others []) as H. cbn in H. exact H.
  - intros pre c r post -> Hnin.
    rewrite fold_left_app. cbn [fold_left].
    apply fold_keeps; [|exact Hnin].
    apply dict_set_in_same.
Qed.

Lemma other_fits_is_a_dict_witness :
  In (Sim.str Sim.Linear, 1 # 1) (other_fits Sim.str Scenarios.repeated_fits).
Proof.
  refine (proj2 (proj2 (proj2 (other_fits_is_a_dict Sim.Class Sim.str
                                 Scenarios.repeated_fits)))
                [(Sim.Linear, 5 # 1); (Sim.Constant, 2 # 1)]
                Sim.Linear (1 # 1) [] _ _).
  - reflexivity.
  - cbn. tauto.
Defined.

(** X8: what [test_solutions] does for one test case.  After a successful
    sweep it finds [results[test.name]["best_fit"]] and
    [results[test.name]["other_fits"]] in the dictionary [test_algorithm]
    returned (no [KeyError]) and writes the header, the best fit, and one
    line per entry of [other_fits]; after an [Exception] it writes one
    "Failed to test" record and goes on; any other exception leaves
    [test_solutions]. *)
Theorem test_solutions_step_records (F G Class E : Type) (str : Class -> string)
    (big_o : F -> G -> Z -> Z -> Z -> Z -> Z -> E ->
             Outcome (Class * list (Class * Q)) * E)
    (test : AlgorithmTest F G) (w : World E) (lg : list LogRecord) :
  exists w',
    env w' = snd (sweep big_o test (env w)) /\
    test_solutions_step str big_o test w lg
    = match fst (sweep big_o test (env w)) with
      | Returned (best, others) =>
          (None, w',
           lg ++ [mkLog INFO "Performance test results for %s:"
                        [LVal (VStr (name test))];
                  mkLog INFO "Best fit complexity: %s" [LVal (VStr (str best))];
                  mkLog INFO "Other complexity fits:" []]
              ++ map (fun kr => mkLog INFO "  %s: residual=%.2G"
                                      [LVal (VStr (fst kr)); LVal (VFloat (snd kr))])
                     (other_fits str others))
      | Raised k e =>
          if is_exception k
          then (None, w',
                lg ++ [mkLog ERROR "Failed to test %s: %s"
                             [LVal (VStr (name test)); LExc e]])
          else (Some e, w', lg)
      end.
Proof.
  unfold test_solutions_step.
  destruct (sweep big_o test (env w)) as [[[best others]|k e] env'] eqn:Hs.
  - destruct (test_algorithm_returns F G Class str E big_o test w best others
                env' Hs) as (w' & -> & Henv & _).
    exists w'. split; [exact Henv|].
    rewrite report_results. reflexivity.
  - destruct (test_algorithm_raises F G Class str E big_o test w k e env' Hs)
      as (w' & -> & Henv & _).
    exists w'. split; [exact Henv|].
    cbn [fst]. destruct (is_exception k); reflexivity.
Qed.

(** X9: [test_solutions] requests exactly one sweep per test case, in
    order, whether the sweeps succeed or fail (there is no retry and no
    deadline on this path), and it handles every case, provided [big_o]
    raises nothing outside the class [Exception]; for its own two cases
    the sweeps are requested with [n_repeats = 50]. *)
Theorem test_solutions_sweeps_each_case_once (F G Class E : Type)
    (str : Class -> string)
    (big_o : F -> G -> Z -> Z -> Z -> Z -> Z -> E ->
             Outcome (Class * list (Class * Q)) * E) :
  (forall f g a b c d e env0 k exc env',
      big_o f g a b c d e env0 = (Raised k exc, env') -> is_exception k = true) ->
  (forall (tests : list (AlgorithmTest F G)) (w : World E) (lg : list LogRecord),
      exists w' lg',
        test_solutions_loop str big_o tests w lg = (None, w', lg') /\
        big_o_calls w' = big_o_calls w ++ map sweep_call tests) /\
  (forall (part1 part2 : F) (g : G) (w : World E) (lg : list LogRecord),
      exists w' lg',
        test_solutions str big_o part1 part2 g w lg = (None, w', lg') /\
        big_o_calls w'
        = big_o_calls w ++ [mkCall 100 10000 10 50 5; mkCall 100 10000 10 50 5]).
Proof.
  intros Hno. split.
  - intros tests w lg.
    apply (test_solutions_loop_sweeps F G Class str E big_o Hno).
  - intros part1 part2 g w lg. unfold test_solutions.
    destruct (test_solutions_loop_sweeps F G Class str E big_o Hno
                (Challenge.test_cases part1 part2 g) w lg)
      as (w' & lg' & Hrun & Hcalls).
    exists w', lg'. split; [exact Hrun | exact Hcalls].
Qed.

Lemma test_solutions_sweeps_each_case_once_witness :
  exists w' lg',
    test_solutions Sim.str (Sim.big_o Scenarios.fails_once) tt tt tt
                   Sim.world0 []
    = (None, w', lg') /\
    big_o_calls w'
    = big_o_calls Sim.world0
      ++ [mkCall 100 10000 10 50 5; mkCall 100 10000 10 50 5].
Proof.
  refine (proj2 (test_solutions_sweeps_each_case_once unit unit Sim.Class nat
                   Sim.str (Sim.big_o Scenarios.fails_once) _)
                tt tt tt Sim.world0 []).
  intros f g a b c d e env0 k exc env' H.
  unfold Sim.big_o in H. inversion H as [[Hs He]].
  destruct env0; cbn in Hs; inversion Hs. reflexivity.
Defined.

(** X10: [main] of [runtime.py] handles every test case: for each one it
    requests at least one and at most three sweeps from [big_o], whatever
    happened to the cases before it, and then goes on to the next;
    provided the deadline does not interfere and [big_o] raises nothing
    outside the class [Exception]. *)
Theorem main_sweeps_each_case_one_to_three_times (F G Class E : Type)
    (str : Class -> string)
    (big_o : F -> G -> Z -> Z -> Z -> Z -> Z -> E ->
             Outcome (Class * list (Class * Q)) * E)
    (wait_for : (World E -> Outcome PyVal * World E) -> Q -> World E ->
                Outcome PyVal * World E)
    (tests : list (AlgorithmTest F G)) (w : World E) (lg : list LogRecord) :
  (forall body t w, wait_for body t w = body w) ->
  (forall f g a b c d e env0 k exc env',
      big_o f g a b c d e env0 = (Raised k exc, env') -> is_exception k = true) ->
  exists w' lg' counts,
    main_loop str big_o wait_for tests w lg = (None, w', lg') /\
    List.length counts = List.length tests /\
    Forall (fun c => (1 <= c <= 3)%nat) counts /\
    big_o_calls w'
    = big_o_calls w
      ++ flat_map (fun tc => repeat (sweep_call (fst tc)) (snd tc))
                  (combine tests counts).
Proof.
  intros Hwf Hno.
  apply (main_loop_sweeps F G Class str E big_o Hno wait_for Hwf).
Qed.

Lemma main_sweeps_each_case_one_to_three_times_witness :
  exists w' lg' counts,
    main_loop Sim.str (Sim.big_o Scenarios.fails_once) Sim.no_deadline
              (Runtime.test_cases tt tt tt) Sim.world0 []
    = (None, w', lg') /\
    List.length counts = List.length (Runtime.test_cases tt tt tt) /\
    Forall (fun c => (1 <= c <= 3)%nat) counts /\
    big_o_calls w'
    = big_o_calls Sim.world0
      ++ flat_map (fun tc => repeat (sweep_call (fst tc)) (snd tc))
                  (combine (Runtime.test_cases tt tt tt) counts).
Proof.
  apply (main_sweeps_each_case_one_to_three_times unit unit Sim.Class nat
           Sim.str (Sim.big_o Scenarios.fails_once) Sim.no_deadline
           (Runtime.test_cases tt tt tt) Sim.world0 []).
  - intros body t w. reflexivity.
  - intros f g a b c d e env0 k exc env' H.
    unfold Sim.big_o in H. inversion H as [[Hs He]].
    destruct env0; cbn in Hs; inversion Hs. reflexivity.
Defined.

End ProfilerProperties.

(* ================================================================== *)
(** ** Properties of the two profiled wrappers *)

Module WrappersProperties.
Import PyFacts Wrappers.

(** *** [remove_duplicates_wrapper] *)

Lemma not_in_spec (item : string) (result : list string) :
  not_in item result = true <-> ~ In item result.
Proof.
  unfold not_in. rewrite negb_true_iff.
  split.
  - intros Hf Hin.
    assert (Ht : existsb (String.eqb item) result = true).
    { apply existsb_exists. exists item. split; [exact Hin|].
      apply String.eqb_refl. }
    congruence.
  - intros Hnin. destruct (existsb (String.eqb item) result) eqn:He; [|reflexivity].
    exfalso. apply existsb_exists in He. destruct He as (x & Hin & Heq).
    apply String.eqb_eq in Heq. subst. contradiction.
Qed.

Lemma remove_duplicates_spec (data : list string) :
  forall result,
    NoDup result ->
    NoDup (remove_duplicates data result) /\
    (forall x, In x (remove_duplicates data result) <-> In x result \/ In x data) /\
    (List.length (remove_duplicates data result)
     <= List.length result + List.length data)%nat /\
    (NoDup (result ++ data) -> remove_duplicates data result = result ++ data).
Proof.
  induction data as [|item rest IH]; intros result Hnd; cbn [remove_duplicates].
  - split; [exact Hnd|]. split; [cbn; tauto|]. split; [cbn; lia|].
    intros _. now rewrite app_nil_r.
  - destruct (not_in item result) eqn:Hni.
    + apply not_in_spec in Hni.
      assert (Hnd' : NoDup (result ++ [item])).
      { apply NoDup_app; [exact Hnd | constructor; [intros [] | constructor] |].
        intros x Hx [<- | []]. contradiction. }
      destruct (IH (result ++ [item]) Hnd') as (H1 & H2 & H3 & H4).
      split; [exact H1|]. split; [|split].
      * intros x. rewrite H2, in_app_iff. cbn. tauto.
      * rewrite length_app in H3. cbn in *. lia.
      * intros Hall. rewrite H4; rewrite <- app_assoc; [reflexivity | exact Hall].
    + assert (Hin : In item result).
      { destruct (in_dec string_dec item result) as [Hin | Hnin]; [exact Hin|].
        apply not_in_spec in Hnin. congruence. }
      destruct (IH result Hnd) as (H1 & H2 & H3 & H4).
      split; [exact H1|]. split; [|split].
      * intros x. rewrite H2. cbn. intuition congruence.
      * cbn. lia.
      * intros Hall. exfalso.
        apply NoDup_remove_2 in Hall. apply Hall.
        apply in_or_app. now left.
Qed.

Lemma draw_length (Rng : Type) (random_word : Rng -> string * Rng) (fuel : nat) :
  forall g, List.length (fst (draw Rng random_word fuel g)) = fuel.
Proof.
  induction fuel as [|fuel IH]; intros g; cbn [draw].
  - reflexivity.
  - destruct (random_word g) as [word g1].
    specialize (IH g1). destruct (draw Rng random_word fuel g1) as [words g2].
    cbn in *. now rewrite IH.
Qed.

(** X11: the list [result] that [remove_duplicates_wrapper] builds has no
    duplicates, holds exactly the words that were drawn, and has at most
    [n] of them (none when [n <= 0]); when the drawn words are distinct
    it is the list of the drawn words, in order. *)
Theorem remove_duplicates_wrapper_result (Rng : Type)
    (random_word : Rng -> string * Rng) (n : Z) (g : Rng) :
  let data := fst (draw Rng random_word (Z.to_nat n) g) in
  let result := fst (remove_duplicates_wrapper Rng random_word n g) in
  NoDup result /\
  (forall x, In x result <-> In x data) /\
  (List.length result <= Z.to_nat n)%nat /\
  (NoDup data -> result = data).
Proof.
  unfold remove_duplicates_wrapper. rewrite range_length.
  replace (n - 0) with n by lia.
  pose proof (draw_length Rng random_word (Z.to_nat n) g) as Hlen.
  destruct (draw Rng random_word (Z.to_nat n) g) as [data g'].
  cbn [fst] in *.
  destruct (remove_duplicates_spec data [] (NoDup_nil _)) as (H1 & H2 & H3 & H4).
  split; [exact H1|]. split; [|split].
  - intros x. rewrite H2. cbn. tauto.
  - cbn in H3. lia.
  - exact H4.
Qed.

Lemma remove_duplicates_wrapper_result_witness :
  fst (remove_duplicates_wrapper nat Scenarios.two_words 4 0%nat)
  = ["abcde"; "fghij"] /\
  NoDup (fst (remove_duplicates_wrapper nat Scenarios.two_words 4 0%nat)).
Proof.
  split; [reflexivity|].
  exact (proj1 (remove_duplicates_wrapper_result nat Scenarios.two_words 4 0%nat)).
Defined.

(** *** [binary_search_wrapper] *)

Lemma getitem_range (n i : Z) :
  0 <= i < n -> getitem_list (range 0 n) i = Some i.
Proof.
  intros Hi. unfold getitem_list.
  destruct (Z.ltb_spec i 0) as [Hneg | _]; [lia|].
  unfold range. rewrite nth_error_map, nth_error_seq.
  replace (n - 0) with n by lia.
  destruct (Nat.ltb_spec (Z.to_nat i) (Z.to_nat n)) as [_ | Hge]; [|lia].
  cbn. f_equal. lia.
Qed.

Lemma search_finds (n target : Z) :
  forall (fuel : nat) (left right : Z) (probes : nat),
    0 <= left -> right < n ->
    left <= target <= right ->
    (Z.to_nat (right - left + 1) <= fuel)%nat ->
    exists iterations,
      search fuel (range 0 n) target left right probes
      = Some (Break target (probes + (2 * iterations - 1))) /\
      (1 <= iterations)%nat /\
      Z.of_nat iterations <= Z.log2 (right - left + 1) + 1.
Proof.
  induction fuel as [|fuel IH]; intros left right probes Hl Hr Ht Hfuel; [lia|].
  cbn [search].
  destruct (Z.leb_spec left right) as [_ | Hgt]; [|lia].
  assert (Hmid : left <= (left + right) / 2 <= right)
    by (split; [apply Z.div_le_lower_bound | apply Z.div_le_upper_bound]; lia).
  assert (Hdiv : 2 * ((left + right) / 2) <= left + right
                 /\ left + right - 1 <= 2 * ((left + right) / 2))
    by (pose proof (Z.div_mod (left + right) 2 ltac:(lia));
        pose proof (Z.mod_pos_bound (left + right) 2 ltac:(lia)); lia).
  rewrite getitem_range by lia.
  pose proof (Z.log2_nonneg (right - left + 1)) as Hlog.
  destruct (Z.eqb_spec ((left + right) / 2) target) as [Heq | Hne].
  - exists 1%nat. rewrite Heq.
    replace (probes + (2 * 1 - 1))%nat with (S probes) by lia.
    split; [reflexivity|]. split; lia.
  - assert (Hhalf : forall size',
               1 <= size' -> 2 * size' <= right - left + 1 ->
               Z.log2 size' + 1 <= Z.log2 (right - left + 1)).
    { intros size' H1 H2.
      replace (Z.log2 size' + 1) with (Z.log2 (2 * size'))
        by (rewrite Z.log2_double by lia; lia).
      apply Z.log2_le_mono. exact H2. }
    destruct (Z.ltb_spec ((left + right) / 2) target) as [Hlt | Hge].
    + destruct (IH ((left + right) / 2 + 1) right (S (S probes)))
        as (p & Hs & Hp1 & Hp2); try lia.
      exists (S p). rewrite Hs.
      replace (S (S probes) + (2 * p - 1))%nat
        with (probes + (2 * S p - 1))%nat by lia.
      split; [reflexivity|]. split; [lia|].
      specialize (Hhalf (right - ((left + right) / 2 + 1) + 1)). lia.
    + destruct (IH left ((left + right) / 2 - 1) (S (S probes)))
        as (p & Hs & Hp1 & Hp2); try lia.
      exists (S p). rewrite Hs.
      replace (S (S probes) + (2 * p - 1))%nat
        with (probes + (2 * S p - 1))%nat by lia.
      split; [reflexivity|]. split; [lia|].
      specialize (Hhalf ((left + right) / 2 - 1 - left + 1)). lia.
Qed.

(** X12: for [n >= 1] the loop of [binary_search_wrapper] ends through its
    [break], at the index [n // 2] of the target, after at least one and
    at most [floor(log2 n) + 1] iterations, without an [IndexError] and
    within the iterations allowed.  It evaluates [data[mid]] twice in
    every iteration that does not break and once in the last:
    [2 * iterations - 1] times, so at most [2 * floor(log2 n) + 1]
    times. *)
Theorem binary_search_wrapper_finds_target (n : Z) :
  1 <= n ->
  exists iterations,
    binary_search_wrapper n = Some (Break (n / 2) (2 * iterations - 1)) /\
    (1 <= iterations)%nat /\
    Z.of_nat iterations <= Z.log2 n + 1 /\
    Z.of_nat (2 * iterations - 1) <= 2 * Z.log2 n + 1.
Proof.
  intros Hn. unfold binary_search_wrapper. rewrite range_length.
  replace (n - 0) with n by lia.
  assert (Ht : 0 <= n / 2 <= n - 1).
  { split; [apply Z.div_pos; lia|].
    pose proof (Z.div_mod n 2 ltac:(lia)).
    pose proof (Z.mod_pos_bound n 2 ltac:(lia)). lia. }
  destruct (search_finds n (n / 2) (S (Z.to_nat n)) 0 (Z.of_nat (Z.to_nat n) - 1) 0)
    as (p & Hs & Hp1 & Hp2); try lia.
  exists p. rewrite Hs. cbn [Nat.add].
  replace (Z.of_nat (Z.to_nat n) - 1 - 0 + 1) with n in Hp2 by lia.
  split; [reflexivity|]. split; [exact Hp1|]. split; [exact Hp2 | lia].
Qed.

Lemma binary_search_wrapper_finds_target_witness :
  binary_search_wrapper 2 = Some (Break 1 3) /\
  binary_search_wrapper 10 = Some (Break 5 5) /\
  exists iterations,
    binary_search_wrapper 10 = Some (Break (10 / 2) (2 * iterations - 1)) /\
    (1 <= iterations)%nat /\
    Z.of_nat iterations <= Z.log2 10 + 1 /\
    Z.of_nat (2 * iterations - 1) <= 2 * Z.log2 10 + 1.
Proof.
  split; [reflexivity|]. split; [reflexivity|].
  apply (binary_search_wrapper_finds_target 10). lia.
Defined.

(** X13: for [n <= 0] the list is empty and the loop of
    [binary_search_wrapper] is not entered: no element is read. *)
Theorem binary_search_wrapper_empty (n : Z) :
  n <= 0 ->
  binary_search_wrapper n = Some (Exhausted 0 (-1) 0).
Proof.
  intros Hn. unfold binary_search_wrapper. rewrite range_length.
  replace (Z.to_nat (n - 0)) with 0%nat by lia. reflexivity.
Qed.

Lemma binary_search_wrapper_empty_witness :
  binary_search_wrapper (-3) = Some (Exhausted 0 (-1) 0).
Proof.
  apply (binary_search_wrapper_empty (-3)). lia.
Defined.

End WrappersProperties.

(* ================================================================== *)
(** ** Properties of the solvers of 2025, day 1 *)

Module Day1Properties.
Import PyFacts Day1.

Lemma range_snoc (lo hi : Z) : lo <= hi -> range lo (hi + 1) = range lo hi ++ [hi].
Proof.
  intros H. unfold range.
  replace (Z.to_nat (hi + 1 - lo)) with (S (Z.to_nat (hi - lo))) by lia.
  rewrite seq_S, map_app. cbn. do 2 f_equal. lia.
Qed.

(** The value of [f] in closed form. *)
Lemma f_closed (fuel : nat) (p t : Z) (dir : string) :
  0 <= p < 100 -> 0 <= t ->
  f (S (S fuel)) p t dir
  = Some (if String.eqb dir "L"
          then ((100 - p) mod 100 + t) / 100
          else (p + t) / 100).
Proof.
  intros Hp Ht. cbn [f].
  destruct (Z.eqb_spec t 0) as [-> | Htnz].
  - f_equal. destruct (String.eqb dir "L").
    + rewrite Z.add_0_r. symmetry. apply Z.div_small.
      apply Z.mod_pos_bound. lia.
    + rewrite Z.add_0_r. symmetry. apply Z.div_small. lia.
  - destruct (Z.eqb_spec p 0) as [-> | Hpnz].
    + f_equal. rewrite Z.abs_eq by lia.
      destruct (String.eqb dir "L"); cbn; f_equal; lia.
    + destruct (String.eqb dir "L").
      * rewrite (Z.mod_small (100 - p) 100) by lia.
        destruct (Z_lt_le_dec t p) as [Hlt | Hge].
        -- rewrite Z.min_r, Z.max_l by lia.
           replace (t - t) with 0 by lia. rewrite Z.eqb_refl.
           rewrite (Z.mod_small (p - t) 100) by lia.
           destruct (Z.eqb_spec (p - t) 0) as [Hz | _]; [lia|].
           cbn [int_of_bool]. f_equal.
           symmetry. rewrite Z.add_0_l. apply Z.div_small. lia.
        -- rewrite Z.min_l, Z.max_r by lia.
           change (0 mod 100) with 0. rewrite Z.eqb_refl. cbn [int_of_bool].
           destruct (Z.eqb_spec (t - p) 0) as [Hz | Hnz].
           ++ f_equal. replace (100 - p + t) with 100 by lia. reflexivity.
           ++ f_equal. rewrite Z.abs_eq by lia.
              replace (100 - p + t) with ((t - p) + 1 * 100) by lia.
              rewrite Z.div_add by lia. lia.
      * destruct (Z_lt_le_dec t (100 - p)) as [Hlt | Hge].
        -- rewrite Z.min_r by lia.
           replace (t - t) with 0 by lia. rewrite Z.eqb_refl.
           rewrite (Z.mod_small (p + t) 100) by lia.
           destruct (Z.eqb_spec (p + t) 0) as [Hz | _]; [lia|].
           cbn [int_of_bool]. f_equal.
           symmetry. rewrite Z.add_0_l. apply Z.div_small. lia.
        -- rewrite Z.min_l by lia.
           replace (p + (100 - p)) with 100 by lia.
           change (100 mod 100) with 0. rewrite Z.eqb_refl. cbn [int_of_bool].
           destruct (Z.eqb_spec (t - (100 - p)) 0) as [Hz | Hnz].
           ++ f_equal. replace (p + t) with 100 by lia. reflexivity.
           ++ f_equal. rewrite Z.abs_eq by lia.
              replace (p + t) with ((t - (100 - p)) + 1 * 100) by lia.
              rewrite Z.div_add by lia. lia.
Qed.

(** The closed form counts the clicks that end on 0. *)
Lemma zero_clicks_closed (p : Z) (dir : string) (n : nat) :
  0 <= p < 100 ->
  zero_clicks p (Z.of_nat n) dir
  = if String.eqb dir "L"
    then ((100 - p) mod 100 + Z.of_nat n) / 100
    else (p + Z.of_nat n) / 100.
Proof.
  intros Hp. unfold zero_clicks. induction n as [|n IH].
  - cbn [Z.of_nat]. rewrite range_nil by lia. cbn [filter List.length Z.of_nat].
    destruct (String.eqb dir "L"); rewrite Z.add_0_r; symmetry;
      apply Z.div_small; [apply Z.mod_pos_bound|]; lia.
  - replace (Z.of_nat (S n) + 1) with (Z.of_nat n + 1 + 1) by lia.
    rewrite range_snoc by lia. rewrite filter_app, length_app, Nat2Z.inj_add, IH.
    cbn [filter]. unfold click.
    replace (Z.of_nat (S n)) with (Z.of_nat n + 1) by lia.
    destruct (String.eqb dir "L").
    + destruct (Z.eqb_spec ((p - (Z.of_nat n + 1)) mod 100) 0) as [Hz | Hnz];
        cbn [List.length Z.of_nat Pos.of_succ_nat];
        pose proof (Z.mod_pos_bound (100 - p) 100 ltac:(lia));
        Z.div_mod_to_equations; lia.
    + destruct (Z.eqb_spec ((p + (Z.of_nat n + 1)) mod 100) 0) as [Hz | Hnz];
        cbn [List.length Z.of_nat Pos.of_succ_nat];
        Z.div_mod_to_equations; lia.
Qed.

Lemma f_base (fuel : nat) (p t : Z) (dir : string) :
  t = 0 \/ p = 0 ->
  exists v, f (S fuel) p t dir = Some v /\ 0 <= v.
Proof.
  intros H. cbn [f].
  destruct (Z.eqb_spec t 0) as [Ht | Ht].
  - exists 0. split; [reflexivity | lia].
  - destruct H as [H | ->]; [contradiction|]. rewrite Z.eqb_refl.
    eexists. split; [reflexivity|]. apply Z.div_pos; lia.
Qed.

Lemma f_step (fuel : nat) (p t : Z) (dir : string) :
  f (S fuel) p t dir
  = if t =? 0 then Some 0
    else if p =? 0 then Some (Z.abs t / 100)
    else if String.eqb dir "L" then
      match f fuel (Z.max (p - t) 0 mod 100) (t - Z.min p t) dir with
      | Some r => Some (int_of_bool (Z.max (p - t) 0 mod 100 =? 0) + r)
      | None => None
      end
    else
      match f fuel ((p + Z.min (100 - p) t) mod 100) (t - Z.min (100 - p) t) dir with
      | Some r => Some (int_of_bool ((p + Z.min (100 - p) t) mod 100 =? 0) + r)
      | None => None
      end.
Proof. reflexivity. Qed.

Lemma int_of_bool_nonneg (b : bool) : 0 <= int_of_bool b <= 1.
Proof. destruct b; cbn; lia. Qed.

(** X14: for a dial position [0 <= p < 100] and a rotation of [t >= 0]
    clicks, [f(p, t, dir)] is the number of clicks of that rotation (to
    the left for 'L', to the right otherwise) after which the dial points
    at 0. *)
Theorem f_counts_zero_clicks (fuel : nat) (p t : Z) (dir : string) :
  0 <= p < 100 ->
  0 <= t ->
  (2 <= fuel)%nat ->
  f fuel p t dir = Some (zero_clicks p t dir).
Proof.
  intros Hp Ht Hfuel.
  destruct fuel as [|[|fuel]]; try lia.
  rewrite f_closed by assumption.
  replace t with (Z.of_nat (Z.to_nat t)) at 3 by lia.
  rewrite zero_clicks_closed by assumption.
  rewrite Z2Nat.id by lia. reflexivity.
Qed.

Lemma f_counts_zero_clicks_witness :
  f 3 50 250 "L" = Some (zero_clicks 50 250 "L").
Proof.
  apply (f_counts_zero_clicks 3 50 250 "L"); lia.
Defined.

(** X15: for all integers [p] and [t] and every [dir], [f(p, t, dir)]
    returns a non-negative number and never nests more than two calls:
    after one step either no click is left or the position is 0. *)
Theorem f_ends_within_two_calls (fuel : nat) (p t : Z) (dir : string) :
  (2 <= fuel)%nat ->
  exists v, f fuel p t dir = Some v /\ 0 <= v.
Proof.
  intros Hfuel. destruct fuel as [|[|fuel]]; try lia.
  rewrite f_step.
  destruct (Z.eqb_spec t 0) as [Ht | Ht]; [exists 0; split; [reflexivity | lia]|].
  destruct (Z.eqb_spec p 0) as [Hp | Hp].
  { eexists. split; [reflexivity|]. apply Z.div_pos; lia. }
  destruct (String.eqb dir "L").
  - destruct (f_base fuel (Z.max (p - t) 0 mod 100) (t - Z.min p t) dir)
      as (v & Hv & Hpos).
    { destruct (Z_lt_le_dec p t) as [Hlt | Hge].
      - right. rewrite Z.max_r by lia. reflexivity.
      - left. rewrite Z.min_r by lia. lia. }
    rewrite Hv.
    eexists. split; [reflexivity|].
    pose proof (int_of_bool_nonneg (Z.max (p - t) 0 mod 100 =? 0)). lia.
  - destruct (f_base fuel ((p + Z.min (100 - p) t) mod 100)
                (t - Z.min (100 - p) t) dir) as (v & Hv & Hpos).
    { destruct (Z_lt_le_dec (100 - p) t) as [Hlt | Hge].
      - right. rewrite Z.min_l by lia.
        replace (p + (100 - p)) with 100 by lia. reflexivity.
      - left. rewrite Z.min_r by lia. lia. }
    rewrite Hv.
    eexists. split; [reflexivity|].
    pose proof (int_of_bool_nonneg ((p + Z.min (100 - p) t) mod 100 =? 0)). lia.
Qed.

Lemma f_ends_within_two_calls_witness :
  exists v, f 2 (-30) (-250) "R" = Some v /\ 0 <= v.
Proof.
  apply (f_ends_within_two_calls 2 (-30) (-250) "R"). lia.
Defined.

Section Solvers.

Variable int : string -> PyExc + Z.

(** A click that lands on 0 is among the clicks [f] counts. *)
Lemma landing_is_counted (c amount : Z) (dir : string) :
  0 <= c < 100 -> 1 <= amount ->
  int_of_bool ((if String.eqb dir "L"
                then (c - amount) mod 100
                else (c + amount) mod 100) =? 0)
  <= (if String.eqb dir "L"
      then ((100 - c) mod 100 + amount) / 100
      else (c + amount) / 100).
Proof.
  intros Hc Ha.
  destruct (String.eqb dir "L").
  - destruct (Z.eqb_spec ((c - amount) mod 100) 0) as [Hz | Hnz]; cbn [int_of_bool].
    + pose proof (Z.mod_pos_bound (100 - c) 100 ltac:(lia)).
      Z.div_mod_to_equations. lia.
    + apply Z.div_pos; [|lia].
      pose proof (Z.mod_pos_bound (100 - c) 100 ltac:(lia)). lia.
  - destruct (Z.eqb_spec ((c + amount) mod 100) 0) as [Hz | Hnz]; cbn [int_of_bool].
    + Z.div_mod_to_equations. lia.
    + apply Z.div_pos; lia.
Qed.

Lemma loops_agree (lines : list string) :
  forall current z1 z2,
    0 <= current < 100 ->
    match part1_loop int lines current z1, part2_loop int lines current z2 with
    | inr r1, Some (inr r2) =>
        0 <= r1 - z1 <= Z.of_nat (List.length lines) /\
        0 <= r2 - z2 /\
        (positive_amounts int lines -> r1 - z1 <= r2 - z2)
    | inl e1, Some (inl e2) => e1 = e2
    | _, _ => False
    end.
Proof.
  induction lines as [|line rest IH]; intros current z1 z2 Hc;
    cbn [part1_loop part2_loop].
  - cbn. split; [lia|]. split; [lia|]. intros _. lia.
  - unfold parse_line.
    destruct line as [|ch tail]; [reflexivity|].
    destruct (int tail) as [e|amount] eqn:Hint; [reflexivity|].
    destruct (f_ends_within_two_calls depth current amount (String ch EmptyString))
      as (clicks & Hf & Hclicks); [unfold depth; lia|].
    rewrite Hf.
    set (current1 := if String.eqb (String ch EmptyString) "L"
                     then (current - amount) mod 100
                     else (current + amount) mod 100).
    assert (Hsame :
              (current
               + (if String.eqb (String ch EmptyString) "L"
                  then amount * -1 else amount)) mod 100 = current1).
    { unfold current1. destruct (String.eqb (String ch EmptyString) "L");
        [f_equal; lia | reflexivity]. }
    rewrite Hsame.
    assert (Hc1 : 0 <= current1 < 100).
    { unfold current1. destruct (String.eqb (String ch EmptyString) "L");
        apply Z.mod_pos_bound; lia. }
    specialize (IH current1 (z1 + int_of_bool (current1 =? 0)) (z2 + clicks) Hc1).
    destruct (part1_loop int rest current1 (z1 + int_of_bool (current1 =? 0)))
      as [e1|r1];
      destruct (part2_loop int rest current1 (z2 + clicks)) as [[e2|r2]|];
      try exact IH.
    destruct IH as (H1 & H2 & H3).
    pose proof (int_of_bool_nonneg (current1 =? 0)) as Hb.
    cbn [List.length]. split; [lia|]. split; [lia|].
    intros Hpos.
    assert (Hrest : positive_amounts int rest).
    { intros c0 r0 a0 Hin. apply (Hpos c0 r0 a0). now right. }
    assert (Ha : 1 <= amount) by (apply (Hpos ch tail amount); [now left | exact Hint]).
    specialize (H3 Hrest).
    assert (Hland : int_of_bool (current1 =? 0) <= clicks).
    { pose proof (landing_is_counted current amount (String ch EmptyString) Hc Ha)
        as Hl.
      fold current1 in Hl.
      unfold depth in Hf. rewrite f_closed in Hf by lia.
      inversion Hf; subst clicks. exact Hl. }
    lia.
Qed.

End Solvers.

(** X16: on every input, [part1] and [part2] either both raise, the same
    exception (the first line that is empty or that [int] rejects), or
    both return; [part1] then returns a number between 0 and the number
    of lines, [part2] a non-negative number, and when every line asks for
    at least one click the result of [part1] is at most that of
    [part2]. *)
Theorem part1_and_part2_agree (splitlines : string -> list string)
    (int : string -> PyExc + Z) (aoc_input : string) :
  match part1 splitlines int aoc_input, part2 splitlines int aoc_input with
  | inr r1, Some (inr r2) =>
      0 <= r1 <= Z.of_nat (List.length (splitlines aoc_input)) /\
      0 <= r2 /\
      (positive_amounts int (splitlines aoc_input) -> r1 <= r2)
  | inl e1, Some (inl e2) => e1 = e2
  | _, _ => False
  end.
Proof.
  unfold part1, part2.
  pose proof (loops_agree int (splitlines aoc_input) 50 0 0 ltac:(lia)) as H.
  destruct (part1_loop int (splitlines aoc_input) 50 0) as [e1|r1];
    destruct (part2_loop int (splitlines aoc_input) 50 0) as [[e2|r2]|];
    try exact H.
  destruct H as (H1 & H2 & H3). split; [lia|]. split; [lia|].
  intros Hpos. specialize (H3 Hpos). lia.
Qed.

Lemma part1_and_part2_agree_witness :
  part1 Scenarios.two_lines Scenarios.int_of_amount "" = inr 2 /\
  part2 Scenarios.two_lines Scenarios.int_of_amount "" = Some (inr 2) /\
  match part1 Scenarios.two_lines Scenarios.int_of_amount "",
        part2 Scenarios.two_lines Scenarios.int_of_amount "" with
  | inr r1, Some (inr r2) =>
      0 <= r1 <= Z.of_nat (List.length (Scenarios.two_lines "")) /\
      0 <= r2 /\
      (positive_amounts Scenarios.int_of_amount (Scenarios.two_lines "")
       -> r1 <= r2)
  | inl e1, Some (inl e2) => e1 = e2
  | _, _ => False
  end.
Proof.
  split; [reflexivity|]. split; [reflexivity|].
  exact (part1_and_part2_agree Scenarios.two_lines Scenarios.int_of_amount "").
Defined.

End Day1Properties.

(* ================================================================== *)
(** ** Properties of [get_input] *)

Module InputProperties.
Import Logs PyFacts Input.

Section GetInput.

Variable FS : Type.
Variable read_text : string -> FS -> ReadOutcome * FS.
Variable strip : string -> string.
Variable path : string.
Variable n : Z.

Lemma loop_bound :
  forall (attempts : list Z) (st : State FS) res st',
    get_input_loop read_text strip path n attempts st = (res, st') ->
    (reads st' <= reads st + List.length attempts)%nat.
Proof.
  induction attempts as [|a rest IH]; intros st res st' H;
    cbn [get_input_loop] in H.
  - inversion H; subst. cbn. lia.
  - destruct (read_text path (fs st)) as [[text|[| |] e] fs'].
    + destruct (is_empty (strip text)); inversion H; subst; cbn; lia.
    + destruct (a =? n - 1).
      * inversion H; subst. cbn. lia.
      * apply IH in H. cbn in *. lia.
    + destruct (a =? n - 1).
      * inversion H; subst. cbn. lia.
      * apply IH in H. cbn in *. lia.
    + inversion H; subst. cbn. lia.
Qed.

Lemma input_state_eta (st : State FS) :
  mkState (fs st) (entries st ++ []) (reads st + 0) = st.
Proof. destruct st; cbn. now rewrite app_nil_r, Nat.add_0_r. Qed.

(** [j] unreadable attempts, none of them the last, take the loop [j]
    attempts further and leave one record each. *)
Lemma loop_skip :
  forall (j : nat) (lo : Z) (st : State FS) (s' : FS),
    lo + Z.of_nat j < n ->
    unreadable (read_text path) j (fs st) = Some s' ->
    exists lg,
      get_input_loop read_text strip path n (range lo n) st
      = get_input_loop read_text strip path n (range (lo + Z.of_nat j) n)
          (mkState s' (entries st ++ lg) (reads st + j)) /\
      List.length lg = j.
Proof.
  induction j as [|j IH]; intros lo st s' Hlt Hf.
  - cbn in Hf. inversion Hf; subst. exists [].
    rewrite input_state_eta. cbn [Z.of_nat]. rewrite Z.add_0_r. auto.
  - cbn [unreadable] in Hf.
    rewrite (range_cons lo n) by lia. cbn [get_input_loop].
    assert (Hne : (lo =? n - 1) = false) by (apply Z.eqb_neq; lia).
    replace (lo + Z.of_nat (S j)) with (lo + 1 + Z.of_nat j) by lia.
    destruct (read_text path (fs st)) as [[text|[| |] e] s1]; try discriminate;
      rewrite Hne.
    + destruct (IH (lo + 1)
                   (log (mkEntry Warning "Input file not found (Attempt %d): %s"
                                 [LVal (VInt (lo + 1)); LVal (VStr path)])
                        (mkState s1 (entries st) (S (reads st)))) s')
        as (lg & Heq & Hlen); [lia | exact Hf |].
      rewrite Heq. unfold log; cbn [fs entries reads].
      eexists (_ :: lg). rewrite <- app_assoc. cbn [app].
      replace (S (reads st) + j)%nat with (reads st + S j)%nat by lia.
      split; [reflexivity | cbn; lia].
    + destruct (IH (lo + 1)
                   (log (mkEntry Error "Error reading input file: %s" [LExc e])
                        (mkState s1 (entries st) (S (reads st)))) s')
        as (lg & Heq & Hlen); [lia | exact Hf |].
      rewrite Heq. unfold log; cbn [fs entries reads].
      eexists (_ :: lg). rewrite <- app_assoc. cbn [app].
      replace (S (reads st) + j)%nat with (reads st + S j)%nat by lia.
      split; [reflexivity | cbn; lia].
Qed.

(** When the file is missing at every attempt, each of the attempts
    [lo .. n - 1] leaves one warning with its number. *)
Lemma loop_all_missing :
  (forall s, exists e s', read_text path s = (ReadRaised FileNotFound e, s')) ->
  forall (j : nat) (lo : Z) (st : State FS),
    lo + Z.of_nat j = n ->
    (1 <= j)%nat ->
    exists lg s',
      get_input_loop read_text strip path n (range lo n) st
      = (RaisedAOCError
           (mkAOCError
              [LVal (VStr "Could not read input file after %d attempts");
               LVal (VInt n)]),
         mkState s' (entries st ++ lg) (reads st + j)) /\
      map attempt_number lg = map (fun a => Some (a + 1)) (range lo n) /\
      Forall (fun e => severity e = Warning) lg.
Proof.
  intros Hall. induction j as [|j IH]; intros lo st Hlo Hj; [lia|].
  rewrite (range_cons lo n) by lia. cbn [get_input_loop].
  destruct (Hall (fs st)) as (e & s1 & ->).
  destruct (Z.eqb_spec lo (n - 1)) as [Heq | Hne].
  - assert (j = 0%nat) by lia. subst j.
    rewrite (range_nil (lo + 1) n) by lia.
    unfold log; cbn [fs entries reads].
    do 2 eexists.
    split; [replace (reads st + 1)%nat with (S (reads st)) by lia; reflexivity|].
    split; [reflexivity | repeat constructor].
  - destruct (IH (lo + 1)
                 (log (mkEntry Warning "Input file not found (Attempt %d): %s"
                               [LVal (VInt (lo + 1)); LVal (VStr path)])
                      (mkState s1 (entries st) (S (reads st)))))
      as (lg & s' & Heq & Hmap & Hsev); [lia | lia |].
    rewrite Heq. unfold log; cbn [fs entries reads].
    eexists (_ :: lg), s'. rewrite <- app_assoc. cbn [app].
    replace (S (reads st) + j)%nat with (reads st + S j)%nat by lia.
    split; [reflexivity|]. split.
    + cbn [map attempt_number entry_args]. rewrite Hmap. reflexivity.
    + constructor; [reflexivity | exact Hsev].
Qed.

End GetInput.

Lemma key_eqb_refl (k : Key) : key_eqb k k = true.
Proof.
  destruct k as [[y d] [m|]]; cbn; rewrite !Z.eqb_refl; reflexivity.
Qed.

End InputProperties.

(* ================================================================== *)
(** ** What [get_input] guarantees *)

Module InputTheorems.
Import Logs PyFacts Input InputProperties.

(** X17: whatever the file system does, [get_input] opens the file at
    most [max_attempts] times; with [max_attempts <= 0] it does not open
    it at all and raises [AOCError("Unexpected error in input
    retrieval")]. *)
Theorem get_input_reads_at_most_max_attempts (FS : Type)
    (read_text : string -> FS -> ReadOutcome * FS) (strip : string -> string)
    (str_int : Z -> string) (year day max_attempts : Z) (st : State FS)
    (res : GetResult) (st' : State FS) :
  get_input_body read_text strip str_int year day max_attempts st = (res, st') ->
  (reads st' <= reads st + Z.to_nat max_attempts)%nat /\
  (max_attempts <= 0 ->
   res = RaisedAOCError
           (mkAOCError [LVal (VStr "Unexpected error in input retrieval")]) /\
   st' = st).
Proof.
  unfold get_input_body. intros H. split.
  - apply loop_bound in H. rewrite range_length in H.
    replace (max_attempts - 0) with max_attempts in H by lia. exact H.
  - intros Hle. rewrite range_nil in H by lia. cbn in H.
    inversion H; subst. auto.
Qed.

Lemma get_input_reads_at_most_max_attempts_witness :
  (reads (snd (get_input_body Scenarios.appearing_file Scenarios.strip_spaces
                              Scenarios.str_2025_1 2025 1 3 (mkState 1%nat [] 0)))
   <= 0 + Z.to_nat 3)%nat.
Proof.
  refine (proj1 (get_input_reads_at_most_max_attempts nat
                   Scenarios.appearing_file Scenarios.strip_spaces
                   Scenarios.str_2025_1 2025 1 3 (mkState 1%nat [] 0)
                   (fst (get_input_body Scenarios.appearing_file
                           Scenarios.strip_spaces Scenarios.str_2025_1 2025 1 3
                           (mkState 1%nat [] 0)))
                   (snd (get_input_body Scenarios.appearing_file
                           Scenarios.strip_spaces Scenarios.str_2025_1 2025 1 3
                           (mkState 1%nat [] 0))) _)).
  vm_compute. reflexivity.
Defined.

(** X18: when the file is missing at every attempt and
    [max_attempts >= 1], [get_input] opens the file exactly
    [max_attempts] times, writes one warning per attempt with the
    numbers [1, ..., max_attempts] in order, and raises
    [AOCError("Could not read input file after %d attempts",
    max_attempts)]. *)
Theorem get_input_gives_up_after_max_attempts (FS : Type)
    (read_text : string -> FS -> ReadOutcome * FS) (strip : string -> string)
    (str_int : Z -> string) (year day max_attempts : Z) (st : State FS) :
  1 <= max_attempts ->
  (forall s, exists e s',
      read_text (path_of str_int year day) s = (ReadRaised FileNotFound e, s')) ->
  exists lg,
    fst (get_input_body read_text strip str_int year day max_attempts st)
    = RaisedAOCError
        (mkAOCError [LVal (VStr "Could not read input file after %d attempts");
                     LVal (VInt max_attempts)]) /\
    reads (snd (get_input_body read_text strip str_int year day max_attempts st))
    = (reads st + Z.to_nat max_attempts)%nat /\
    entries (snd (get_input_body read_text strip str_int year day max_attempts st))
    = entries st ++ lg /\
    map attempt_number lg = map Some (range 1 (max_attempts + 1)) /\
    Forall (fun e => severity e = Warning) lg.
Proof.
  intros Hpos Hall. unfold get_input_body.
  destruct (loop_all_missing FS read_text strip (path_of str_int year day)
              max_attempts Hall (Z.to_nat max_attempts) 0 st)
    as (lg & s' & Heq & Hmap & Hsev); [lia | lia |].
  rewrite Heq. exists lg. cbn [fst snd reads entries].
  split; [reflexivity|]. split; [reflexivity|]. split; [reflexivity|].
  split; [|exact Hsev].
  rewrite Hmap. unfold range. rewrite !map_map.
  replace (Z.to_nat (max_attempts + 1 - 1)) with (Z.to_nat (max_attempts - 0))
    by lia.
  apply map_ext. intros i. f_equal. lia.
Qed.

Lemma get_input_gives_up_after_max_attempts_witness :
  exists lg,
    fst (get_input_body Scenarios.missing_file Scenarios.strip_spaces
                        Scenarios.str_2025_1 2025 1 3 (mkState 0%nat [] 0))
    = RaisedAOCError
        (mkAOCError [LVal (VStr "Could not read input file after %d attempts");
                     LVal (VInt 3)]) /\
    reads (snd (get_input_body Scenarios.missing_file Scenarios.strip_spaces
                               Scenarios.str_2025_1 2025 1 3 (mkState 0%nat [] 0)))
    = (0 + Z.to_nat 3)%nat /\
    entries (snd (get_input_body Scenarios.missing_file Scenarios.strip_spaces
                                 Scenarios.str_2025_1 2025 1 3
                                 (mkState 0%nat [] 0)))
    = [] ++ lg /\
    map attempt_number lg = map Some (range 1 (3 + 1)) /\
    Forall (fun e => severity e = Warning) lg.
Proof.
  apply (get_input_gives_up_after_max_attempts nat Scenarios.missing_file
           Scenarios.strip_spaces Scenarios.str_2025_1 2025 1 3
           (mkState 0%nat [] 0)).
  - lia.
  - intros s. do 2 eexists. reflexivity.
Defined.

(** X19: when the file cannot be read [j < max_attempts] times and is
    then read, [get_input] returns its text stripped, after exactly
    [j + 1] openings, with one record per failed attempt; a file whose
    stripped text is empty is not an error: the empty string is returned,
    with one more warning. *)
Theorem get_input_returns_stripped_text (FS : Type)
    (read_text : string -> FS -> ReadOutcome * FS) (strip : string -> string)
    (str_int : Z -> string) (year day max_attempts : Z) (j : nat)
    (st : State FS) (s1 s2 : FS) (text : string) :
  Z.of_nat j < max_attempts ->
  unreadable (read_text (path_of str_int year day)) j (fs st) = Some s1 ->
  read_text (path_of str_int year day) s1 = (ReadOk text, s2) ->
  exists lg,
    get_input_body read_text strip str_int year day max_attempts st
    = (Got (strip text),
       mkState s2
         (entries st ++ lg
            ++ (if is_empty (strip text)
                then [mkEntry Warning "Input file is empty: %s"
                              [LVal (VStr (path_of str_int year day))]]
                else []))
         (reads st + j + 1)) /\
    List.length lg = j.
Proof.
  intros Hj Hf Hread. unfold get_input_body.
  destruct (loop_skip FS read_text strip (path_of str_int year day) max_attempts
              j 0 st s1) as (lg & Heq & Hlen); [lia | exact Hf |].
  rewrite Heq. rewrite (range_cons (0 + Z.of_nat j) max_attempts) by lia.
  cbn [get_input_loop fs entries reads]. rewrite Hread.
  exists lg. split; [|exact Hlen].
  replace (S (reads st + j)) with (reads st + j + 1)%nat by lia.
  destruct (is_empty (strip text)).
  - unfold log; cbn [fs entries reads]. rewrite <- app_assoc. reflexivity.
  - rewrite app_nil_r. reflexivity.
Qed.

Lemma get_input_returns_stripped_text_witness :
  exists lg,
    get_input_body Scenarios.appearing_file Scenarios.strip_spaces
                   Scenarios.str_2025_1 2025 1 3 (mkState 2%nat [] 0)
    = (Got (Scenarios.strip_spaces "  R50 "),
       mkState 0%nat
         ([] ++ lg
             ++ (if is_empty (Scenarios.strip_spaces "  R50 ")
                 then [mkEntry Warning "Input file is empty: %s"
                               [LVal (VStr (path_of Scenarios.str_2025_1 2025 1))]]
                 else []))
         (0 + 2 + 1)) /\
    List.length lg = 2%nat.
Proof.
  apply (get_input_returns_stripped_text nat Scenarios.appearing_file
           Scenarios.strip_spaces Scenarios.str_2025_1 2025 1 3 2
           (mkState 2%nat [] 0) 0%nat 0%nat "  R50 ");
    reflexivity.
Defined.

(** X20: the cache of [get_input].  Once a call has returned a content,
    the same call returns that content again without opening the file or
    writing a record, whatever the file system has become; a call that
    raised leaves the cache as it was, so the next call reads the file
    again. *)
Theorem get_input_is_cached (FS : Type)
    (read_text : string -> FS -> ReadOutcome * FS) (strip : string -> string)
    (str_int : Z -> string) (year day : Z) (max_attempts : option Z)
    (cache : list (Key * string)) (st : State FS)
    (res : GetResult) (st1 : State FS) (cache1 : list (Key * string)) :
  get_input read_text strip str_int year day max_attempts cache st
  = (res, st1, cache1) ->
  match res with
  | Got content =>
      forall st2 : State FS,
        get_input read_text strip str_int year day max_attempts cache1 st2
        = (Got content, st2, cache1)
  | _ => cache1 = cache
  end.
Proof.
  unfold get_input. intros H.
  destruct (lookup (year, day, max_attempts) cache) as [content|] eqn:Hl.
  - inversion H; subst. intros st2. rewrite Hl. reflexivity.
  - destruct (get_input_body read_text strip str_int year day
                (match max_attempts with Some n => n | None => 3 end) st)
      as [[content|e|e] st'] eqn:Hb; inversion H; subst; try reflexivity.
    intros st2. unfold lookup. cbn [find fst snd].
    rewrite key_eqb_refl. reflexivity.
Qed.

Lemma get_input_is_cached_witness :
  get_input Scenarios.missing_file Scenarios.strip_spaces
            Scenarios.str_2025_1 2025 1 None
            [((2025, 1, None), "R50")] (mkState 7%nat [] 0)
  = (Got "R50", mkState 7%nat [] 0, [((2025, 1, None), "R50")]).
Proof.
  exact (get_input_is_cached nat Scenarios.missing_file Scenarios.strip_spaces
           Scenarios.str_2025_1 2025 1 None
           [((2025, 1, None), "R50")] (mkState 0%nat [] 0)
           (Got "R50") (mkState 0%nat [] 0)
           [((2025, 1, None), "R50")] eq_refl (mkState 7%nat [] 0)).
Defined.

End InputTheorems.

(* ================================================================== *)
(** ** Properties of the solvers of 2025, day 9 *)

Module Day9Properties.
Import Day9.

Lemma combinations2_map {A B : Type} (g : A -> B) (l : list A) :
  combinations2 (map g l)
  = map (fun p => (g (fst p), g (snd p))) (combinations2 l).
Proof.
  induction l as [|x rest IH]; cbn [combinations2 map].
  - reflexivity.
  - rewrite map_app, IH, !map_map. reflexivity.
Qed.

Lemma combinations2_in {A : Type} (l : list A) (x y : A) :
  In (x, y) (combinations2 l) -> In x l /\ In y l.
Proof.
  induction l as [|z rest IH]; cbn [combinations2]; intros H.
  - contradiction.
  - apply in_app_or in H. destruct H as [H | H].
    + apply in_map_iff in H. destruct H as (w & Heq & Hw).
      inversion Heq; subst. split; [now left | now right].
    + apply IH in H. destruct H. split; now right.
Qed.

Lemma combinations2_nonempty {A : Type} (l : list A) :
  (2 <= List.length l)%nat -> combinations2 l <> [].
Proof.
  destruct l as [|x [|y rest]]; cbn; intros H; try lia. discriminate.
Qed.

Lemma combinations2_short {A : Type} (l : list A) :
  (List.length l <= 1)%nat -> combinations2 l = [].
Proof.
  destruct l as [|x [|y rest]]; cbn; intros H; try lia; reflexivity.
Qed.

Lemma map_nth_seq {A : Type} (d : A) (l : list A) :
  map (fun i => nth i l d) (seq 0 (List.length l)) = l.
Proof.
  induction l as [|x rest IH]; cbn [List.length seq map nth].
  - reflexivity.
  - f_equal. rewrite <- seq_shift, map_map. exact IH.
Qed.

Lemma fold_max_spec (rest : list Z) :
  forall x,
    x <= fold_left Z.max rest x /\
    (forall a, In a rest -> a <= fold_left Z.max rest x) /\
    In (fold_left Z.max rest x) (x :: rest).
Proof.
  induction rest as [|y rest IH]; intros x; cbn [fold_left].
  - split; [lia|]. split; [intros a []|now left].
  - destruct (IH (Z.max x y)) as (H1 & H2 & H3).
    split; [lia|]. split.
    + intros a [<- | Ha]; [lia | auto].
    + destruct H3 as [H3 | H3].
      * rewrite <- H3.
        destruct (Z.max_spec x y) as [[_ ->] | [_ ->]]; [right; now left | now left].
      * right. now right.
Qed.

Section Solvers.

Variable unpack_message : nat -> string.

Lemma get_area_wf (p1 p2 : list Z) :
  List.length p1 = 2%nat -> List.length p2 = 2%nat ->
  exists a, get_area unpack_message p1 p2 = inr a /\ 1 <= a.
Proof.
  intros H1 H2.
  destruct p1 as [|x1 [|y1 [|? ?]]]; try discriminate.
  destruct p2 as [|x2 [|y2 [|? ?]]]; try discriminate.
  cbn. eexists. split; [reflexivity|].
  pose proof (Z.abs_nonneg (x1 - x2)). pose proof (Z.abs_nonneg (y1 - y2)). nia.
Qed.

(** On well-formed points, the areas computed by [part1] are those of the
    pairs of points. *)
Lemma areas_spec (data : list (list Z)) (ij : list (nat * nat)) :
  Forall (fun p => List.length (nth (fst p) data []) = 2%nat
                   /\ List.length (nth (snd p) data []) = 2%nat) ij ->
  exists l,
    areas unpack_message data ij = inr l /\
    Forall2 (fun p a => get_area unpack_message (nth (fst p) data [])
                                 (nth (snd p) data []) = inr a /\ 1 <= a) ij l.
Proof.
  induction ij as [|[i j] rest IH]; intros Hwf; cbn [areas].
  - exists []. split; [reflexivity | constructor].
  - inversion Hwf as [|? ? [Hi Hj] Hrest]; subst. cbn [fst snd] in *.
    destruct (get_area_wf _ _ Hi Hj) as (a & Ha & Hpos).
    destruct (IH Hrest) as (l & Hl & Hall).
    rewrite Ha, Hl. exists (a :: l). split; [reflexivity|].
    constructor; [cbn; auto | exact Hall].
Qed.

Lemma Forall2_in_left {A B : Type} (R : A -> B -> Prop) (l1 : list A)
    (l2 : list B) (x : A) :
  Forall2 R l1 l2 -> In x l1 -> exists y, In y l2 /\ R x y.
Proof.
  induction 1 as [|a b l1 l2 Hab _ IH]; intros Hin.
  - contradiction.
  - destruct Hin as [<- | Hin].
    + exists b. split; [now left | exact Hab].
    + destruct (IH Hin) as (y & Hy & Hr). exists y. split; [now right | exact Hr].
Qed.

Lemma Forall2_in_right {A B : Type} (R : A -> B -> Prop) (l1 : list A)
    (l2 : list B) (y : B) :
  Forall2 R l1 l2 -> In y l2 -> exists x, In x l1 /\ R x y.
Proof.
  induction 1 as [|a b l1 l2 Hab _ IH]; intros Hin.
  - contradiction.
  - destruct Hin as [<- | Hin].
    + exists a. split; [now left | exact Hab].
    + destruct (IH Hin) as (x & Hx & Hr). exists x. split; [now right | exact Hr].
Qed.

Lemma pairs_of_indices (data : list (list Z)) :
  combinations2 data
  = map (fun p => (nth (fst p) data [], nth (snd p) data []))
        (combinations2 (seq 0 (List.length data))).
Proof.
  rewrite <- (combinations2_map (fun i => nth i data [])).
  now rewrite map_nth_seq.
Qed.

Lemma indices_wf (data : list (list Z)) :
  well_formed data ->
  Forall (fun p => List.length (nth (fst p) data []) = 2%nat
                   /\ List.length (nth (snd p) data []) = 2%nat)
         (combinations2 (seq 0 (List.length data))).
Proof.
  intros Hwf. apply Forall_forall. intros [i j] Hin.
  apply combinations2_in in Hin. destruct Hin as [Hi Hj].
  apply in_seq in Hi. apply in_seq in Hj. cbn [fst snd].
  unfold well_formed in Hwf. rewrite Forall_forall in Hwf.
  split; apply Hwf; apply nth_In; lia.
Qed.

(** [part1] on at least two well-formed points. *)
Lemma part1_value_spec (data : list (list Z)) :
  well_formed data ->
  (2 <= List.length data)%nat ->
  exists m,
    part1_value unpack_message data = inr m /\
    1 <= m /\
    (forall p1 p2 a,
        In (p1, p2) (combinations2 data) ->
        get_area unpack_message p1 p2 = inr a -> a <= m) /\
    (exists p1 p2,
        In (p1, p2) (combinations2 data) /\
        get_area unpack_message p1 p2 = inr m).
Proof.
  intros Hwf Hlen. unfold part1_value.
  destruct (areas_spec data _ (indices_wf data Hwf)) as (l & Hl & Hall).
  rewrite Hl.
  assert (Hne : l <> []).
  { intros ->. inversion Hall as [Hnil|]; subst.
    apply (combinations2_nonempty (seq 0 (List.length data))).
    - rewrite length_seq. exact Hlen.
    - symmetry. assumption. }
  destruct l as [|x rest]; [congruence|]. cbn [max_of].
  destruct (fold_max_spec rest x) as (H1 & H2 & H3).
  exists (fold_left Z.max rest x). split; [reflexivity|].
  assert (Hmax : forall a, In a (x :: rest) -> a <= fold_left Z.max rest x).
  { intros a [<- | Ha]; [exact H1 | auto]. }
  split; [|split].
  - destruct (Forall2_in_right _ _ _ x Hall (or_introl eq_refl))
      as (p & _ & _ & Hpos). lia.
  - intros p1 p2 a Hin Ha. rewrite pairs_of_indices in Hin.
    apply in_map_iff in Hin. destruct Hin as (p & Heq & Hp).
    inversion Heq; subst.
    destruct (Forall2_in_left _ _ _ p Hall Hp) as (a' & Ha' & Hga & _).
    rewrite Hga in Ha. inversion Ha; subst. auto.
  - destruct (Forall2_in_right _ _ _ _ Hall H3) as (p & Hp & Hga & _).
    exists (nth (fst p) data []), (nth (snd p) data []).
    split; [|exact Hga].
    rewrite pairs_of_indices. apply in_map_iff. exists p. auto.
Qed.

Lemma unpack2_wf (p : list Z) :
  List.length p = 2%nat -> exists x y, unpack2 unpack_message p = inr (x, y).
Proof.
  destruct p as [|x [|y [|? ?]]]; try discriminate.
  intros _. exists x, y. reflexivity.
Qed.

Lemma edges_loop_wf (data : list (list Z)) (indices : list nat) :
  well_formed data ->
  Forall (fun i => (i < List.length data)%nat) indices ->
  forall hori vert,
    exists h v,
      edges_loop unpack_message data (List.length data) indices hori vert
      = inr (h, v).
Proof.
  intros Hwf. unfold well_formed in Hwf. rewrite Forall_forall in Hwf.
  induction indices as [|i rest IH]; intros Hlt hori vert; cbn [edges_loop].
  - eauto.
  - inversion Hlt as [|? ? Hi Hrest]; subst.
    destruct (unpack2_wf (nth i data [])) as (x & y & ->).
    { apply Hwf, nth_In. exact Hi. }
    destruct (unpack2_wf (nth ((i + 1) mod List.length data) data []))
      as (x2 & y2 & ->).
    { apply Hwf, nth_In. apply Nat.mod_upper_bound. lia. }
    destruct (Z.min x x2 =? Z.max x x2); apply IH; exact Hrest.
Qed.

Lemma rect_loop_bound (hori vert : list Edge) (M : Z)
    (pairs : list (list Z * list Z)) :
  Forall (fun p => List.length (fst p) = 2%nat /\ List.length (snd p) = 2%nat)
         pairs ->
  (forall p1 p2 a,
      In (p1, p2) pairs -> get_area unpack_message p1 p2 = inr a -> a <= M) ->
  forall ans,
    ans <= M ->
    exists r,
      rect_loop unpack_message pairs hori vert ans = inr r /\ ans <= r <= M.
Proof.
  induction pairs as [|[p1 p2] rest IH]; intros Hwf Hbound ans Hans;
    cbn [rect_loop].
  - exists ans. split; [reflexivity | lia].
  - inversion Hwf as [|? ? [H1 H2] Hrest]; subst. cbn [fst snd] in *.
    assert (Hb' : forall q1 q2 a,
               In (q1, q2) rest -> get_area unpack_message q1 q2 = inr a -> a <= M).
    { intros q1 q2 a Hin. apply Hbound. now right. }
    destruct (get_area_wf p1 p2 H1 H2) as (a & Ha & _).
    assert (HaM : a <= M) by (apply (Hbound p1 p2 a); [now left | exact Ha]).
    destruct p1 as [|a0 [|a1 [|? ?]]]; try discriminate.
    destruct p2 as [|b0 [|b1 [|? ?]]]; try discriminate.
    cbn [corners item nth_error].
    destruct (inside hori vert (Z.min a0 b0) (Z.min a1 b1) (Z.max a0 b0)
                     (Z.max a1 b1)).
    + rewrite Ha.
      destruct (IH Hrest Hb' (Z.max ans a)) as (r & Hr & Hle); [lia|].
      exists r. split; [exact Hr | lia].
    + destruct (IH Hrest Hb' ans Hans) as (r & Hr & Hle).
      exists r. split; [exact Hr | lia].
Qed.

End Solvers.

End Day9Properties.

(* ================================================================== *)
(** ** What the solvers of 2025, day 9, compute *)

Module Day9Theorems.
Import Day9 Day9Properties.

(** X21: on at least two points of two coordinates each, [part1] computes
    the largest area [(|x1 - x2| + 1) * (|y1 - y2| + 1)] over the pairs
    of points: it is the area of some pair, no pair has a larger one, and
    it is at least 1. *)
Theorem part1_is_the_largest_area (unpack_message : nat -> string)
    (data : list (list Z)) :
  well_formed data ->
  (2 <= List.length data)%nat ->
  exists m,
    part1_value unpack_message data = inr m /\
    1 <= m /\
    (forall p1 p2 a,
        In (p1, p2) (combinations2 data) ->
        get_area unpack_message p1 p2 = inr a -> a <= m) /\
    (exists p1 p2,
        In (p1, p2) (combinations2 data) /\
        get_area unpack_message p1 p2 = inr m).
Proof.
  intros Hwf Hlen. apply part1_value_spec; assumption.
Qed.

Lemma part1_is_the_largest_area_witness :
  part1_value Scenarios.unpack_message Scenarios.three_points = inr 20 /\
  exists m,
    part1_value Scenarios.unpack_message Scenarios.three_points = inr m /\
    1 <= m /\
    (forall p1 p2 a,
        In (p1, p2) (combinations2 Scenarios.three_points) ->
        get_area Scenarios.unpack_message p1 p2 = inr a -> a <= m) /\
    (exists p1 p2,
        In (p1, p2) (combinations2 Scenarios.three_points) /\
        get_area Scenarios.unpack_message p1 p2 = inr m).
Proof.
  split; [reflexivity|].
  apply (part1_is_the_largest_area Scenarios.unpack_message
           Scenarios.three_points).
  - repeat constructor.
  - cbn. lia.
Defined.

(** X22: on points of two coordinates each, [part2] always returns: a
    number that is at least 0 and at most the result of [part1] whenever
    [part1] returns; with fewer than two points [part2] returns 0 while
    [part1] raises [ValueError] ([max] of nothing). *)
Theorem part2_is_at_most_part1 (unpack_message : nat -> string)
    (data : list (list Z)) :
  well_formed data ->
  exists m2,
    part2_value unpack_message data = inr m2 /\
    0 <= m2 /\
    (forall m1, part1_value unpack_message data = inr m1 -> m2 <= m1) /\
    ((List.length data <= 1)%nat ->
     m2 = 0 /\
     exists e, part1_value unpack_message data = inl e /\
               exc_class e = "ValueError").
Proof.
  intros Hwf. unfold part2_value.
  destruct (edges_loop_wf unpack_message data (seq 0 (List.length data)) Hwf)
    with (hori := @nil Edge) (vert := @nil Edge) as (h & v & Hedges).
  { apply Forall_forall. intros i Hi. apply in_seq in Hi. lia. }
  rewrite Hedges.
  assert (Hpairs : Forall (fun p => List.length (fst p) = 2%nat
                                    /\ List.length (snd p) = 2%nat)
                          (combinations2 data)).
  { apply Forall_forall. intros [p1 p2] Hin.
    apply combinations2_in in Hin. destruct Hin as [H1 H2].
    unfold well_formed in Hwf. rewrite Forall_forall in Hwf.
    cbn [fst snd]. split; apply Hwf; assumption. }
  destruct (le_lt_dec 2 (List.length data)) as [Hlen | Hshort].
  - destruct (part1_value_spec unpack_message data Hwf Hlen)
      as (m1 & Hm1 & Hpos & Hmax & _).
    destruct (rect_loop_bound unpack_message h v m1 (combinations2 data)
                Hpairs Hmax 0) as (r & Hr & Hle); [lia|].
    exists r. split; [exact Hr|]. split; [lia|]. split.
    + intros m1' Hm1'. rewrite Hm1 in Hm1'. inversion Hm1'; subst. lia.
    + intros Hle1. lia.
  - assert (Hnil : combinations2 data = []) by (apply combinations2_short; lia).
    rewrite Hnil. cbn [rect_loop].
    assert (Hp1 : exists e, part1_value unpack_message data = inl e /\
                            exc_class e = "ValueError").
    { unfold part1_value.
      rewrite (combinations2_short (seq 0 (List.length data)))
        by (rewrite length_seq; lia).
      cbn. eexists. split; reflexivity. }
    exists 0. split; [reflexivity|]. split; [lia|]. split.
    + intros m1 Hm1. destruct Hp1 as (e & He & _). congruence.
    + intros _. split; [reflexivity | exact Hp1].
Qed.

Lemma part2_is_at_most_part1_witness :
  part2_value Scenarios.unpack_message Scenarios.one_point = inr 0 /\
  exists m2,
    part2_value Scenarios.unpack_message Scenarios.three_points = inr m2 /\
    0 <= m2 /\
    (forall m1,
        part1_value Scenarios.unpack_message Scenarios.three_points = inr m1 ->
        m2 <= m1) /\
    ((List.length Scenarios.three_points <= 1)%nat ->
     m2 = 0 /\
     exists e,
       part1_value Scenarios.unpack_message Scenarios.three_points = inl e /\
       exc_class e = "ValueError").
Proof.
  split; [reflexivity|].
  apply (part2_is_at_most_part1 Scenarios.unpack_message Scenarios.three_points).
  repeat constructor.
Defined.

End Day9Theorems.

(* ================================================================== *)
(** ** A failed sweep under the runner's retry policy *)

Module ProfilerRetries.
Import Logs PyFacts LogsFacts Runtime RuntimeFacts RunnerExtras.



(** X23: when every sweep raises an exception of class [Exception], of
    one kind, the runner (whose deadline does not interfere, [n >= 1])
    retries until its attempts are used up: the work is started exactly
    [n] times, [big_o] is called [n] times with the same arguments, and
    [run] raises [TestTimeoutError] when the sweeps raise
    [asyncio.TimeoutError] and [TestError], with the count [n], for any
    other exception. *)
Theorem failing_sweep_is_repeated_n_times (F G Class E : Type)
    (str : Class -> string)
    (big_o : F -> G -> Z -> Z -> Z -> Z -> Z -> E ->
             Outcome (Class * list (Class * Q)) * E)
    (wait_for : (World E -> Outcome PyVal * World E) -> Q -> World E ->
                Outcome PyVal * World E)
    (test : AlgorithmTest F G) (n : Z) (w : World E) (k : ExcKind) :
  (forall body t w, wait_for body t w = body w) ->
  (forall env0, exists e env1, sweep big_o test env0 = (Raised k e, env1)) ->
  is_exception k = true ->
  1 <= n ->
  exists st',
    run wait_for (runner_of str big_o test (Some n)) (start w)
    = (RunRaised
         match k with
         | AsyncioTimeout =>
             TestTimeoutError [VStr "Test %s consistently timed out";
                               VStr "<lambda>"]
         | _ =>
             TestError [VStr "Test %s failed after %s attempts";
                        VStr "<lambda>"; VInt n]
         end,
       st') /\
    invocations st' = Z.to_nat n /\
    big_o_calls (world st')
    = big_o_calls w ++ repeat (sweep_call test) (Z.to_nat n).
Proof.
  intros Hwf Hall Hk Hn.
  set (self := runner_of str big_o test (Some n)).
  assert (Hfail : forall w0, exists k0 e w',
             attempt wait_for self w0 = (Raised k0 e, w') /\
             is_exception k0 = true).
  { intros w0. destruct (Hall (env w0)) as (e & env1 & Hs).
    destruct (test_algorithm_raises F G Class str E big_o test w0 k e env1 Hs)
      as (w' & Hta & _).
    exists k, e, w'. split; [|exact Hk].
    unfold self. rewrite attempt_is_test_algorithm by exact Hwf. exact Hta. }
  destruct (failures_always (World E) wait_for self (Z.to_nat (n - 1)) Hfail w)
    as (w1 & Hf).
  destruct (Hall (env w1)) as (e & env1 & Hs).
  destruct (test_algorithm_raises F G Class str E big_o test w1 k e env1 Hs)
    as (w2 & Hta & _).
  destruct (run_exhausts (World E) wait_for self n (start w) w1 w2 k e)
    as (lg & Hrun & _); try assumption; try reflexivity.
  { unfold self. rewrite attempt_is_test_algorithm by exact Hwf. exact Hta. }
  cbn [test_name self runner_of] in Hrun. fold self in Hrun.
  eexists. split; [exact Hrun|]. cbn [invocations world start Nat.add].
  split; [reflexivity|].
  destruct (run_sweeps F G Class str E big_o wait_for Hwf test (Some n)
              (start w) _ _ Hrun) as (c & Hc & Hsw).
  cbn [start invocations world Nat.add] in Hc, Hsw. subst c. exact Hsw.
Qed.

Lemma failing_sweep_is_repeated_n_times_witness :
  (exists st',
      run Sim.no_deadline
          (runner_of Sim.str
             (Sim.big_o (Scenarios.always_raising AsyncioTimeout))
             Sim.binary_search (Some 3))
          (start Sim.world0)
      = (RunRaised (TestTimeoutError [VStr "Test %s consistently timed out";
                                      VStr "<lambda>"]), st') /\
      invocations st' = Z.to_nat 3 /\
      big_o_calls (world st')
      = big_o_calls Sim.world0
        ++ repeat (sweep_call Sim.binary_search) (Z.to_nat 3)) /\
  fst (run Sim.no_deadline
           (runner_of Sim.str
              (Sim.big_o (Scenarios.always_raising OtherException))
              Sim.binary_search (Some 3))
           (start Sim.world0))
  = RunRaised (TestError [VStr "Test %s failed after %s attempts";
                          VStr "<lambda>"; VInt 3]).
Proof.
  split; [|reflexivity].
  apply (failing_sweep_is_repeated_n_times unit unit Sim.Class nat Sim.str
           (Sim.big_o (Scenarios.always_raising AsyncioTimeout))
           Sim.no_deadline Sim.binary_search 3 Sim.world0 AsyncioTimeout).
  - intros body t w. reflexivity.
  - intros env0. do 2 eexists. reflexivity.
  - reflexivity.
  - lia.
Defined.

End ProfilerRetries.
